(** * The OTA update engine of main.py (class OTAUpdater)

    A shallow embedding of the self-update code of the weighing device:
    version markers, manifest retrieval, staged download, directory swap
    and resumption at boot.  The Python library calls the class relies on
    (str methods, os, open, ujson, requests, machine.reset) are modelled
    first; the methods of OTAUpdater follow, one definition per method. *)

From Stdlib Require Import String Ascii List ZArith Bool Arith Lia DecimalString.
Import ListNotations.
Open Scope string_scope.

(** ** Python strings *)

Module PyStr.

(** [s.rstrip('/')] *)
Fixpoint rstrip_slash (s : string) : string :=
  match s with
  | EmptyString => EmptyString
  | String c r =>
      match rstrip_slash r with
      | EmptyString => if Ascii.eqb c "/" then EmptyString else String c EmptyString
      | r' => String c r'
      end
  end.

(** [s.replace(old, new)] for a non-empty [old]: occurrences are replaced
    from the left and do not overlap.  [skip] counts the characters of an
    occurrence still to be dropped. *)
Fixpoint replace_from (skip : nat) (old new s : string) : string :=
  match s with
  | EmptyString => EmptyString
  | String c r =>
      match skip with
      | S k => replace_from k old new r
      | O =>
          if prefix old s
          then new ++ replace_from (String.length old - 1) old new r
          else String c (replace_from 0 old new r)
      end
  end.

Definition replace (old new s : string) : string := replace_from 0 old new s.

(** [s.split('/')] *)
Fixpoint split_slash (s : string) : list string :=
  match s with
  | EmptyString => [EmptyString]
  | String c r =>
      if Ascii.eqb c "/" then EmptyString :: split_slash r
      else match split_slash r with
           | h :: t => String c h :: t
           | [] => [String c EmptyString]
           end
  end.

(** [x in l] for a list of strings *)
Definition mem (x : string) (l : list string) : bool :=
  existsb (String.eqb x) l.

(** Does the string contain the character? *)
Fixpoint has_char (c : ascii) (s : string) : bool :=
  match s with
  | EmptyString => false
  | String d r => Ascii.eqb c d || has_char c r
  end.

(** [os.path.dirname(p)] of posixpath: everything up to the last slash,
    with the trailing slashes of that head removed unless the head consists
    of slashes only. *)
Fixpoint head_upto_slash (s : string) : string :=
  match s with
  | EmptyString => EmptyString
  | String c r =>
      if has_char "/" s then String c (head_upto_slash r) else EmptyString
  end.

Definition dirname (p : string) : string :=
  let head := head_upto_slash p in
  match rstrip_slash head with
  | EmptyString => head
  | h => h
  end.

(** [a > b] on str: lexicographic by character code *)
Definition gt (a b : string) : bool := String.ltb b a.

End PyStr.

(** ** The flash filesystem *)

(** A directory keeps its entries in listing order. *)
#[warnings="-register-all"]
Inductive node : Type :=
| File (data : string)
| Dir (entries : list (string * node)).

Definition entries_t : Type := list (string * node).

Module Fs.

Fixpoint assoc {A : Type} (k : string) (l : list (string * A)) : option A :=
  match l with
  | [] => None
  | (k', v) :: r => if String.eqb k k' then Some v else assoc k r
  end.

(** Replace the entry named [k], or add it at the end of the listing. *)
Fixpoint set_entry (k : string) (v : node) (es : entries_t) : entries_t :=
  match es with
  | [] => [(k, v)]
  | (k', v') :: r =>
      if String.eqb k k' then (k, v) :: r else (k', v') :: set_entry k v r
  end.

Fixpoint del_entry (k : string) (es : entries_t) : entries_t :=
  match es with
  | [] => []
  | (k', v') :: r =>
      if String.eqb k k' then r else (k', v') :: del_entry k r
  end.

(** Paths.  The device runs with the filesystem root as working directory,
    so a relative and an absolute path name the same node.  A path string is
    cut at its slashes; empty components and [.] are dropped and [..] steps
    back to the parent (the root is its own parent), as littlefs resolves
    names. *)
Definition path : Type := list string.

Definition norm_step (acc : path) (c : string) : path :=
  if String.eqb c "" then acc
  else if String.eqb c "." then acc
  else if String.eqb c ".." then removelast acc
  else (acc ++ [c])%list.

Definition norm_path (p : string) : path :=
  fold_left norm_step (PyStr.split_slash p) [].

(** The node a resolved path leads to. *)
Fixpoint get (n : node) (p : path) : option node :=
  match p with
  | [] => Some n
  | c :: r =>
      match n with
      | Dir es => match assoc c es with
                  | Some m => get m r
                  | None => None
                  end
      | File _ => None
      end
  end.

(** Rewrite the listing of the directory at [p]; [None] when [p] is not a
    directory or [f] refuses. *)
Fixpoint with_dir (p : path) (f : entries_t -> option entries_t) (n : node)
  : option node :=
  match n with
  | File _ => None
  | Dir es =>
      match p with
      | [] => option_map Dir (f es)
      | c :: r =>
          match assoc c es with
          | Some m =>
              match with_dir r f m with
              | Some m' => Some (Dir (set_entry c m' es))
              | None => None
              end
          | None => None
          end
      end
  end.

(** Create every missing directory along [p]; [None] when a component
    exists and is a file. *)
Fixpoint mkdirs (p : path) (n : node) : option node :=
  match n with
  | File _ => None
  | Dir es =>
      match p with
      | [] => Some n
      | c :: r =>
          match mkdirs r (match assoc c es with Some m => m | None => Dir [] end) with
          | Some m' => Some (Dir (set_entry c m' es))
          | None => None
          end
      end
  end.

(** [open(p, 'w').write(data)]: the parent must be a directory and the name
    must not be a directory. *)
Definition write (p : path) (data : string) (root : node) : option node :=
  match p with
  | [] => None
  | _ =>
      let name := last p "" in
      with_dir (removelast p)
        (fun es => match assoc name es with
                   | Some (Dir _) => None
                   | _ => Some (set_entry name (File data) es)
                   end) root
  end.

(** [os.remove(p)]: a file only. *)
Definition remove (p : path) (root : node) : option node :=
  match p with
  | [] => None
  | _ =>
      let name := last p "" in
      with_dir (removelast p)
        (fun es => match assoc name es with
                   | Some (File _) => Some (del_entry name es)
                   | _ => None
                   end) root
  end.

(** [os.rmdir(p)]: an empty directory only, and never the root. *)
Definition rmdir (p : path) (root : node) : option node :=
  match p with
  | [] => None
  | _ =>
      let name := last p "" in
      with_dir (removelast p)
        (fun es => match assoc name es with
                   | Some (Dir []) => Some (del_entry name es)
                   | _ => None
                   end) root
  end.

Fixpoint is_prefix (p q : path) : bool :=
  match p, q with
  | [], _ => true
  | c :: p', d :: q' => String.eqb c d && is_prefix p' q'
  | _ :: _, [] => false
  end.

(** [os.rename(src, dst)]: [src] must exist and must not contain [dst]; an
    existing [dst] is replaced only by a node of its own kind, and only when
    it is a file or an empty directory. *)
Definition rename (src dst : path) (root : node) : option node :=
  match src, dst with
  | [], _ | _, [] => None
  | _, _ =>
      match get root src with
      | None => None
      | Some n =>
          if is_prefix src dst then
            (if is_prefix dst src then Some root else None)
          else
            let sname := last src "" in
            let dname := last dst "" in
            match with_dir (removelast src) (fun es => Some (del_entry sname es)) root with
            | None => None
            | Some root1 =>
                with_dir (removelast dst)
                  (fun es =>
                     match assoc dname es, n with
                     | None, _ => Some (set_entry dname n es)
                     | Some (File _), File _ => Some (set_entry dname n es)
                     | Some (Dir []), Dir _ => Some (set_entry dname n es)
                     | _, _ => None
                     end) root1
            end
      end
  end.

(** How deep the tree below a node goes. *)
Fixpoint height (n : node) : nat :=
  match n with
  | File _ => 0
  | Dir es =>
      S ((fix height_entries (es : entries_t) : nat :=
            match es with
            | [] => 0
            | e :: r => Nat.max (height (snd e)) (height_entries r)
            end) es)
  end.

(** The entry kinds [os.ilistdir] reports. *)
Definition S_IFDIR : Z := 0x4000.
Definition S_IFREG : Z := 0x8000.

Definition kind (n : node) : Z :=
  match n with
  | Dir _ => S_IFDIR
  | File _ => S_IFREG
  end.

(** The name of a directory entry: not empty, not [.] or [..], no slash. *)
Definition valid_name (s : string) : bool :=
  negb (String.eqb s EmptyString) && negb (String.eqb s ".")
  && negb (String.eqb s "..") && negb (PyStr.has_char "/" s).

(** A well-formed tree: entries have valid names, and no two entries of a
    directory share one. *)
Fixpoint wf (n : node) : bool :=
  match n with
  | File _ => true
  | Dir es =>
      (fix wf_entries (es : entries_t) : bool :=
         match es with
         | [] => true
         | e :: r =>
             valid_name (fst e) && negb (PyStr.mem (fst e) (map fst r))
             && wf (snd e) && wf_entries r
         end) es
  end.

(** The tree without the entry at [p], whatever that entry holds. *)
Definition unlink (p : path) (root : node) : option node :=
  match p with
  | [] => None
  | _ => with_dir (removelast p) (fun es => Some (del_entry (last p "") es)) root
  end.

End Fs.

(** ** JSON documents (ujson) *)

(** The values [ujson.loads] builds.  Numbers are integers: a literal with a
    fraction or an exponent denotes a float and is not represented. *)
#[warnings="-register-all"]
Inductive json : Type :=
| JNull
| JBool (b : bool)
| JInt (z : Z)
| JStr (s : string)
| JArr (items : list json)
| JObj (members : list (string * json)).

Module Json.

(** The double quote, code 34. *)
Definition dq : ascii := Ascii false true false false false true false false.
(** The backslash, code 92. *)
Definition bs : ascii := Ascii false false true true true false true false.

(** Writes a document with apostrophes where JSON has double quotes. *)
Fixpoint quoted (s : string) : string :=
  match s with
  | EmptyString => EmptyString
  | String c r => String (if Ascii.eqb c "'" then dq else c) (quoted r)
  end.

(** A dict assignment [d[k] = v]: an existing key keeps its position. *)
Fixpoint dict_set (k : string) (v : json) (d : list (string * json))
  : list (string * json) :=
  match d with
  | [] => [(k, v)]
  | (k', v') :: r =>
      if String.eqb k k' then (k, v) :: r else (k', v') :: dict_set k v r
  end.

(** *** Serialising *)

Definition hex_digit (n : N) : ascii :=
  if (n <? 10)%N then ascii_of_N (48 + n) else ascii_of_N (87 + n).

(** One character of a string literal, as ujson prints it. *)
Definition escape_char (c : ascii) : string :=
  if Ascii.eqb c dq then String bs (String dq EmptyString)
  else if Ascii.eqb c bs then String bs (String bs EmptyString)
  else if (32 <=? N_of_ascii c)%N then String c EmptyString
  else if (N_of_ascii c =? 10)%N then String bs "n"
  else if (N_of_ascii c =? 13)%N then String bs "r"
  else if (N_of_ascii c =? 9)%N then String bs "t"
  else String bs (String "u" (String "0" (String "0"
         (String (hex_digit (N_of_ascii c / 16))
            (String (hex_digit (N_of_ascii c mod 16)) EmptyString))))).

Fixpoint escape (s : string) : string :=
  match s with
  | EmptyString => EmptyString
  | String c r => escape_char c ++ escape r
  end.

Definition dumps_str (s : string) : string :=
  String dq (escape s ++ String dq EmptyString).

Definition dumps_int (z : Z) : string :=
  DecimalString.NilZero.string_of_int (Z.to_int z).

(** [ujson.dumps]: items are separated by a comma and a space, a key from
    its value by a colon and a space. *)
Fixpoint dumps (j : json) : string :=
  match j with
  | JNull => "null"
  | JBool true => "true"
  | JBool false => "false"
  | JInt z => dumps_int z
  | JStr s => dumps_str s
  | JArr l =>
      "[" ++ (fix items (l : list json) : string :=
                match l with
                | [] => EmptyString
                | [x] => dumps x
                | x :: r => dumps x ++ ", " ++ items r
                end) l ++ "]"
  | JObj d =>
      "{" ++ (fix members (d : list (string * json)) : string :=
                match d with
                | [] => EmptyString
                | [(k, v)] => dumps_str k ++ ": " ++ dumps v
                | (k, v) :: r => dumps_str k ++ ": " ++ dumps v ++ ", " ++ members r
                end) d ++ "}"
  end.

(** *** Parsing *)

Definition is_ws (c : ascii) : bool :=
  let n := N_of_ascii c in
  ((n =? 32) || (n =? 9) || (n =? 10) || (n =? 13))%N.

Fixpoint skip_ws (s : string) : string :=
  match s with
  | String c r => if is_ws c then skip_ws r else s
  | EmptyString => s
  end.

Definition hex_val (c : ascii) : option N :=
  let n := N_of_ascii c in
  if ((48 <=? n) && (n <=? 57))%N then Some (n - 48)%N
  else if ((97 <=? n) && (n <=? 102))%N then Some (n - 87)%N
  else if ((65 <=? n) && (n <=? 70))%N then Some (n - 55)%N
  else None.

Definition hex4 (a b c d : ascii) : option N :=
  match hex_val a, hex_val b, hex_val c, hex_val d with
  | Some x, Some y, Some z, Some w => Some (((x * 16 + y) * 16 + z) * 16 + w)%N
  | _, _, _, _ => None
  end.

(** The UTF-8 bytes of a code point below 65536. *)
Definition utf8 (cp : N) : string :=
  if (cp <? 128)%N then String (ascii_of_N cp) EmptyString
  else if (cp <? 2048)%N then
    String (ascii_of_N (192 + cp / 64))
      (String (ascii_of_N (128 + cp mod 64)) EmptyString)
  else
    String (ascii_of_N (224 + cp / 4096))
      (String (ascii_of_N (128 + (cp / 64) mod 64))
         (String (ascii_of_N (128 + cp mod 64)) EmptyString)).

(** What a backslash followed by [e] stands for, when it is one character. *)
Definition unescape (e : ascii) : option ascii :=
  if Ascii.eqb e dq then Some dq
  else if Ascii.eqb e bs then Some bs
  else if Ascii.eqb e "/" then Some "/"%char
  else if Ascii.eqb e "b" then Some (ascii_of_N 8)
  else if Ascii.eqb e "f" then Some (ascii_of_N 12)
  else if Ascii.eqb e "n" then Some (ascii_of_N 10)
  else if Ascii.eqb e "r" then Some (ascii_of_N 13)
  else if Ascii.eqb e "t" then Some (ascii_of_N 9)
  else None.

(** The rest of a string literal after its opening quote: the text and what
    follows the closing quote. *)
Fixpoint parse_str_body (s : string) : option (string * string) :=
  match s with
  | EmptyString => None
  | String c r =>
      if Ascii.eqb c dq then Some (EmptyString, r)
      else if Ascii.eqb c bs then
        match r with
        | EmptyString => None
        | String e r1 =>
            if Ascii.eqb e "u" then
              match r1 with
              | String h1 (String h2 (String h3 (String h4 r2))) =>
                  match hex4 h1 h2 h3 h4, parse_str_body r2 with
                  | Some cp, Some (t, rest) => Some (utf8 cp ++ t, rest)
                  | _, _ => None
                  end
              | _ => None
              end
            else
              match unescape e, parse_str_body r1 with
              | Some x, Some (t, rest) => Some (String x t, rest)
              | _, _ => None
              end
        end
      else
        match parse_str_body r with
        | Some (t, rest) => Some (String c t, rest)
        | None => None
        end
  end.

Definition is_digit (c : ascii) : bool :=
  ((48 <=? N_of_ascii c) && (N_of_ascii c <=? 57))%N.

Fixpoint parse_digits (acc : Z) (s : string) : Z * string :=
  match s with
  | String c r =>
      if is_digit c
      then parse_digits (10 * acc + Z.of_N (N_of_ascii c - 48)) r
      else (acc, s)
  | EmptyString => (acc, s)
  end.

(** A number starts a float when a point or an exponent follows its digits. *)
Definition float_follows (s : string) : bool :=
  match s with
  | String c _ => Ascii.eqb c "." || Ascii.eqb c "e" || Ascii.eqb c "E"
  | EmptyString => false
  end.

Definition parse_int (s : string) : option (json * string) :=
  match s with
  | String c r =>
      if Ascii.eqb c "-" then
        match r with
        | String d _ =>
            if is_digit d then
              let (z, rest) := parse_digits 0 r in
              if float_follows rest then None else Some (JInt (- z), rest)
            else None
        | EmptyString => None
        end
      else if is_digit c then
        let (z, rest) := parse_digits 0 s in
        if float_follows rest then None else Some (JInt z, rest)
      else None
  | EmptyString => None
  end.

Fixpoint drop (n : nat) (s : string) : string :=
  match n, s with
  | S k, String _ r => drop k r
  | _, _ => s
  end.

Definition parse_literal (s : string) : option (json * string) :=
  if prefix "null" s then Some (JNull, drop 4 s)
  else if prefix "true" s then Some (JBool true, drop 4 s)
  else if prefix "false" s then Some (JBool false, drop 5 s)
  else parse_int s.

(** One value, its items or its members; [fuel] bounds the nesting. *)
Fixpoint parse_value (fuel : nat) (s : string) {struct fuel}
  : option (json * string) :=
  match fuel with
  | O => None
  | S k =>
      match skip_ws s with
      | EmptyString => None
      | String c r =>
          if Ascii.eqb c "{" then
            match skip_ws r with
            | String "}" r' => Some (JObj [], r')
            | _ => parse_members k [] r
            end
          else if Ascii.eqb c "[" then
            match skip_ws r with
            | String "]" r' => Some (JArr [], r')
            | _ => parse_items k [] r
            end
          else if Ascii.eqb c dq then
            match parse_str_body r with
            | Some (t, rest) => Some (JStr t, rest)
            | None => None
            end
          else parse_literal (String c r)
      end
  end
with parse_items (fuel : nat) (acc : list json) (s : string) {struct fuel}
  : option (json * string) :=
  match fuel with
  | O => None
  | S k =>
      match parse_value k s with
      | Some (v, r) =>
          match skip_ws r with
          | String "," r' => parse_items k (acc ++ [v])%list r'
          | String "]" r' => Some (JArr (acc ++ [v])%list, r')
          | _ => None
          end
      | None => None
      end
  end
with parse_members (fuel : nat) (acc : list (string * json)) (s : string)
  {struct fuel} : option (json * string) :=
  match fuel with
  | O => None
  | S k =>
      match skip_ws s with
      | String c r =>
          if Ascii.eqb c dq then
            match parse_str_body r with
            | Some (key, r1) =>
                match skip_ws r1 with
                | String ":" r2 =>
                    match parse_value k r2 with
                    | Some (v, r3) =>
                        match skip_ws r3 with
                        | String "," r4 => parse_members k (dict_set key v acc) r4
                        | String "}" r4 => Some (JObj (dict_set key v acc), r4)
                        | _ => None
                        end
                    | None => None
                    end
                | _ => None
                end
            | None => None
            end
          else None
      | EmptyString => None
      end
  end.

(** [ujson.loads]: one value and nothing but blanks after it; [None] is the
    ValueError of a malformed document.  A value spends at most two units
    of fuel for each character it reads, so twice the length of the text
    is fuel enough. *)
Definition loads (s : string) : option json :=
  match parse_value (S (S (String.length s + String.length s))) s with
  | Some (j, rest) =>
      match skip_ws rest with
      | EmptyString => Some j
      | _ => None
      end
  | None => None
  end.

End Json.

(** ** Python values and exceptions *)

Module Py.

Inductive exn : Type :=
| OSError
| ValueError
| KeyError
| TypeError
| RuntimeError.

(** [a == b] *)
Fixpoint eq (a b : json) {struct a} : bool :=
  match a, b with
  | JNull, JNull => true
  | JBool x, JBool y => Bool.eqb x y
  | JBool x, JInt y => Z.eqb (Z.b2z x) y
  | JInt x, JBool y => Z.eqb x (Z.b2z y)
  | JInt x, JInt y => Z.eqb x y
  | JStr x, JStr y => String.eqb x y
  | JArr l, JArr m =>
      (fix eq_items (l m : list json) {struct l} : bool :=
         match l, m with
         | [], [] => true
         | x :: l', y :: m' => eq x y && eq_items l' m'
         | _, _ => false
         end) l m
  | JObj d, JObj e =>
      Nat.eqb (List.length d) (List.length e) &&
      (fix eq_members (d : list (string * json)) {struct d} : bool :=
         match d with
         | [] => true
         | (k, v) :: d' =>
             match Fs.assoc k e with
             | Some v' => eq v v' && eq_members d'
             | None => false
             end
         end) d
  | _, _ => false
  end.

(** [a > b]; [None] is the TypeError of operands that have no order. *)
Fixpoint gt (a b : json) {struct a} : option bool :=
  match a, b with
  | JStr x, JStr y => Some (PyStr.gt x y)
  | JInt x, JInt y => Some (Z.gtb x y)
  | JInt x, JBool y => Some (Z.gtb x (Z.b2z y))
  | JBool x, JInt y => Some (Z.gtb (Z.b2z x) y)
  | JBool x, JBool y => Some (Z.gtb (Z.b2z x) (Z.b2z y))
  | JArr l, JArr m =>
      (fix gt_items (l m : list json) {struct l} : option bool :=
         match l, m with
         | [], _ => Some false
         | _ :: _, [] => Some true
         | x :: l', y :: m' => if eq x y then gt_items l' m' else gt x y
         end) l m
  | _, _ => None
  end.

(** [d[key]] for a str key: KeyError on a dict without it, TypeError on
    anything that is not a dict. *)
Definition getitem (j : json) (key : string) : exn + json :=
  match j with
  | JObj d => match Fs.assoc key d with
              | Some v => inr v
              | None => inl KeyError
              end
  | _ => inl TypeError
  end.

(** A byte that continues a UTF-8 character. *)
Definition is_cont (c : ascii) : bool :=
  ((128 <=? N_of_ascii c) && (N_of_ascii c <? 192))%N.

(** The characters of a str, each with its continuation bytes. *)
Fixpoint chars (s : string) : list string :=
  match s with
  | EmptyString => []
  | String c r =>
      match chars r with
      | (String d _ as h) :: t =>
          if is_cont d then String c h :: t else String c EmptyString :: h :: t
      | l => String c EmptyString :: l
      end
  end.

(** What [for x in j] ranges over; [None] is the TypeError of a value that
    is not iterable. *)
Definition iter (j : json) : option (list json) :=
  match j with
  | JArr l => Some l
  | JObj d => Some (map (fun kv => JStr (fst kv)) d)
  | JStr s => Some (map JStr (chars s))
  | _ => None
  end.

End Py.

(** ** The device: storage, network and restart *)

Record response : Type := mkResponse {
  status_code : Z;
  text : string
}.

(** What the device does to the outside, in the order it does it. *)
Inductive event : Type :=
| HttpGet (url : string)
| FsMakedirs (p : string)
| FsWrite (p : string)
| FsRemove (p : string)
| FsRmdir (p : string)
| FsRename (src dst : string).

(** The root directory of the flash, the server ([None]: the request fails
    in transport) and the events so far. *)
Record world : Type := mkWorld {
  root : node;
  server : string -> option response;
  log : list event
}.

Definition set_root (w : world) (r : node) (e : event) : world :=
  mkWorld r (server w) (log w ++ [e])%list.

Definition add_event (w : world) (e : event) : world :=
  mkWorld (root w) (server w) (log w ++ [e])%list.

(** A call returns, raises, or never returns because the device restarts. *)
Inductive outcome (A : Type) : Type :=
| Ret (a : A) (w : world)
| Raise (e : Py.exn) (w : world)
| Reboot (w : world).

Arguments Ret {A} a w.
Arguments Raise {A} e w.
Arguments Reboot {A} w.

Definition M (A : Type) : Type := world -> outcome A.

Definition ret {A : Type} (a : A) : M A := fun w => Ret a w.

Definition raise {A : Type} (e : Py.exn) : M A := fun w => Raise e w.

Definition bind {A B : Type} (m : M A) (k : A -> M B) : M B :=
  fun w =>
    match m w with
    | Ret a w' => k a w'
    | Raise e w' => Raise e w'
    | Reboot w' => Reboot w'
    end.

Declare Scope ota_scope.
Delimit Scope ota_scope with ota.
Notation "x <- m ;; k" := (bind m (fun x => k))
  (at level 61, m at next level, right associativity) : ota_scope.
Notation "m ;; k" := (bind m (fun _ => k))
  (at level 61, right associativity) : ota_scope.
Open Scope ota_scope.

(** [try: body except: handler]: a bare except takes every exception; a
    restart is not one. *)
Definition try_except {A : Type} (body handler : M A) : M A :=
  fun w =>
    match body w with
    | Raise _ w' => handler w'
    | o => o
    end.

(** [for x in l: body(x)] *)
Fixpoint for_each {A : Type} (l : list A) (body : A -> M unit) : M unit :=
  match l with
  | [] => ret tt
  | x :: r => body x ;; for_each r body
  end.

Definition world_of {A : Type} (o : outcome A) : world :=
  match o with
  | Ret _ w | Raise _ w | Reboot w => w
  end.

Definition of_option {A : Type} (e : Py.exn) (o : option A) : M A :=
  match o with
  | Some a => ret a
  | None => raise e
  end.

Definition of_sum {A : Type} (o : Py.exn + A) : M A :=
  match o with
  | inr a => ret a
  | inl e => raise e
  end.

Module Os.

Definition names (n : node) : option (list string) :=
  match n with
  | Dir es => Some (map fst es)
  | File _ => None
  end.

(** [os.listdir()] *)
Definition listdir0 : M (list string) :=
  fun w => of_option Py.OSError (names (root w)) w.

(** [os.listdir(p)] *)
Definition listdir (p : string) : M (list string) :=
  fun w =>
    match Fs.get (root w) (Fs.norm_path p) with
    | Some (Dir es) => Ret (map fst es) w
    | _ => Raise Py.OSError w
    end.

(** [os.ilistdir(p)]: each entry with its kind, as the directory lists them
    when the call is made *)
Definition ilistdir (p : string) : M (list (string * Z)) :=
  fun w =>
    match Fs.get (root w) (Fs.norm_path p) with
    | Some (Dir es) => Ret (map (fun e => (fst e, Fs.kind (snd e))) es) w
    | _ => Raise Py.OSError w
    end.

(** [with open(p, 'r') as f: f.read()] *)
Definition read (p : string) : M string :=
  fun w =>
    match Fs.get (root w) (Fs.norm_path p) with
    | Some (File data) => Ret data w
    | _ => Raise Py.OSError w
    end.

(** A call that changes the flash: the new root and its event, or OSError. *)
Definition change (f : node -> option node) (e : event) : M unit :=
  fun w =>
    match f (root w) with
    | Some r => Ret tt (set_root w r e)
    | None => Raise Py.OSError w
    end.

(** [with open(p, 'w') as f: f.write(data)] *)
Definition write (p data : string) : M unit :=
  change (Fs.write (Fs.norm_path p) data) (FsWrite p).

(** [os.makedirs(p, exist_ok=True)] *)
Definition makedirs (p : string) : M unit :=
  change (Fs.mkdirs (Fs.norm_path p)) (FsMakedirs p).

(** [os.remove(p)] *)
Definition remove (p : string) : M unit :=
  change (Fs.remove (Fs.norm_path p)) (FsRemove p).

(** [os.rmdir(p)] *)
Definition rmdir (p : string) : M unit :=
  change (Fs.rmdir (Fs.norm_path p)) (FsRmdir p).

(** [os.rename(src, dst)] *)
Definition rename (src dst : string) : M unit :=
  change (Fs.rename (Fs.norm_path src) (Fs.norm_path dst)) (FsRename src dst).

End Os.

(** [requests.get(url)]: the request is made, then the response comes back
    or the transport raises. *)
Definition requests_get (url : string) : M response :=
  fun w =>
    let w' := add_event w (HttpGet url) in
    match server w url with
    | Some r => Ret r w'
    | None => Raise Py.OSError w'
    end.

(** [response.json()] *)
Definition response_json (r : response) : M json :=
  of_option Py.ValueError (Json.loads (text r)).

(** [ujson.loads(s)] *)
Definition ujson_loads (s : string) : M json :=
  of_option Py.ValueError (Json.loads s).

(** [machine.reset()]: the device restarts and the call never returns. *)
Definition machine_reset {A : Type} : M A := fun w => Reboot w.

(** [a > b] *)
Definition py_gt (a b : json) : M bool := of_option Py.TypeError (Py.gt a b).

(** ** class OTAUpdater *)

Record OTAUpdater : Type := mkOTAUpdater {
  ssid : string;
  password : string;
  github_repo : string;
  github_src_dir : string;
  main_dir : string;
  new_version_dir : string;
  version_url : string;
  firmware_url : string;
  version_file : string;
  version_file_new : string
}.

Module OTA.

(** [__init__] *)
Definition init (ssid password github_repo github_src_dir main_dir
                 new_version_dir : string) : OTAUpdater :=
  let repo :=
    PyStr.replace "https://github.com/" "" (PyStr.rstrip_slash github_repo) in
  {| ssid := ssid;
     password := password;
     github_repo := repo;
     github_src_dir :=
       if (String.length github_src_dir <? 1)%nat then EmptyString
       else PyStr.rstrip_slash github_src_dir ++ "/";
     main_dir := main_dir;
     new_version_dir := new_version_dir;
     version_url :=
       "https://raw.githubusercontent.com/" ++ repo ++ "/main/version.json";
     firmware_url := "https://raw.githubusercontent.com/" ++ repo ++ "/main/";
     version_file := "version.json";
     version_file_new := new_version_dir ++ "/version.json" |}.

(** The defaults of the keyword arguments of [__init__]. *)
Definition default_src_dir : string := EmptyString.
Definition default_main_dir : string := "main".
Definition default_new_version_dir : string := "next".

(** The token [get_version] falls back to. *)
Definition min_version : json := JStr "0.0.0".

(** The name of the staging marker inside the staging directory. *)
Definition marker : string := ".version".

Section Methods.

Variable self : OTAUpdater.

Definition staging_marker : string := new_version_dir self ++ "/" ++ marker.

Definition get_version (file : string) : M json :=
  try_except
    (f <- Os.read file ;;
     version_json <- ujson_loads f ;;
     of_sum (Py.getitem version_json "version"))
    (ret min_version).

Definition get_latest_version : M json :=
  response <- requests_get (version_url self) ;;
  doc <- response_json response ;;
  of_sum (Py.getitem doc "version").

(** Where the manifest and a file of the release are fetched from. *)
Definition file_list_url : string := firmware_url self ++ "file_list.json".

Definition file_url (file : string) : string :=
  firmware_url self ++ github_src_dir self ++ file.

Definition get_file_list : M json :=
  response <- requests_get file_list_url ;;
  response_json response.

Definition create_version_file (version : json) : M unit :=
  let version_json := JObj [("version", version)] in
  Os.makedirs (new_version_dir self) ;;
  Os.write staging_marker (Json.dumps version_json).

(** The two print calls write to the console only; the first one builds its
    line with ['Downloading: ' + file], which raises TypeError unless [file]
    is a str. *)
Definition download_file (file : json) : M unit :=
  match file with
  | JStr file =>
      response <- requests_get (file_url file) ;;
      if (status_code response =? 200)%Z then
        Os.makedirs (new_version_dir self ++ "/" ++ PyStr.dirname file) ;;
        Os.write (new_version_dir self ++ "/" ++ file) (text response)
      else
        ret tt
  | _ => raise Py.TypeError
  end.

Definition download_all_files (version : json) : M unit :=
  file_list <- get_file_list ;;
  files <- of_option Py.TypeError (Py.iter file_list) ;;
  for_each files download_file ;;
  create_version_file version.

Definition download_latest_version : M json :=
  latest_version <- get_latest_version ;;
  download_all_files latest_version ;;
  ret latest_version.

(** [rmtree], with the depth of the recursion bounded by [depth]: past it
    the interpreter raises RuntimeError. *)
Fixpoint rmtree_rec (depth : nat) (directory : string) : M unit :=
  match depth with
  | O => raise Py.RuntimeError
  | S d =>
      entries <- Os.ilistdir directory ;;
      for_each entries
        (fun entry =>
           let is_dir := (snd entry =? 0x4000)%Z in
           if is_dir then rmtree_rec d (directory ++ "/" ++ fst entry)
           else Os.remove (directory ++ "/" ++ fst entry)) ;;
      Os.rmdir directory
  end.

(** On a well-formed flash no directory is nested deeper than the root is
    high, so this bound is never the one that stops [rmtree]. *)
Definition rmtree (directory : string) : M unit :=
  fun w => rmtree_rec (Fs.height (root w)) directory w.

Definition install_update_if_available : M unit :=
  names <- Os.listdir0 ;;
  if PyStr.mem (new_version_dir self) names then
    staged <- Os.listdir (new_version_dir self) ;;
    if PyStr.mem marker staged then
      latest_version <- get_version staging_marker ;;
      current_version <- get_version (version_file self) ;;
      newer <- py_gt latest_version current_version ;;
      if newer then
        rmtree (main_dir self) ;;
        Os.rename (new_version_dir self) (main_dir self) ;;
        machine_reset
      else ret tt
    else ret tt
  else ret tt.

Definition check_for_update_to_install_during_next_reboot : M bool :=
  names <- Os.listdir0 ;;
  if PyStr.mem (new_version_dir self) names then
    staged <- Os.listdir (new_version_dir self) ;;
    if PyStr.mem marker staged then
      latest_version <- get_version staging_marker ;;
      current_version <- get_version (version_file self) ;;
      newer <- py_gt latest_version current_version ;;
      if newer then
        install_update_if_available ;;
        ret true
      else ret false
    else ret false
  else ret false.

Definition download_and_install_update_if_available : M bool :=
  current_version <- get_version (version_file self) ;;
  latest_version <- download_latest_version ;;
  newer <- py_gt latest_version current_version ;;
  if newer then
    install_update_if_available ;;
    ret true
  else ret false.

Definition check_for_update : M bool :=
  current_version <- get_version (version_file self) ;;
  latest_version <- get_latest_version ;;
  py_gt latest_version current_version.

End Methods.

(** The token the version document [file] holds on the flash, and the
    minimum token when there is no such document. *)
Definition stored_version (w : world) (file : string) : json :=
  match Fs.get (root w) (Fs.norm_path file) with
  | Some (File data) =>
      match Json.loads data with
      | Some doc =>
          match Py.getitem doc "version" with
          | inr v => v
          | inl _ => min_version
          end
      | None => min_version
      end
  | _ => min_version
  end.

(** A staging area is complete when its directory is listed in the root and
    lists the marker; it is installable when moreover the version of its
    marker is greater than the active one. *)
Definition complete (self : OTAUpdater) (w : world) : bool :=
  match Os.names (root w),
        Fs.get (root w) (Fs.norm_path (new_version_dir self)) with
  | Some names, Some (Dir es) =>
      PyStr.mem (new_version_dir self) names && PyStr.mem marker (map fst es)
  | _, _ => false
  end.

Definition newer (self : OTAUpdater) (w : world) : option bool :=
  Py.gt (stored_version w (staging_marker self))
        (stored_version w (version_file self)).

Definition installable (self : OTAUpdater) (w : world) : bool :=
  complete self w &&
  match newer self w with
  | Some true => true
  | _ => false
  end.

(** How many times the staging directory was renamed so far. *)
Definition is_rename (e : event) : bool :=
  match e with
  | FsRename _ _ => true
  | _ => false
  end.

Definition swaps (w : world) : nat := List.length (filter is_rename (log w)).

(** What a deletion keeps: the tree well formed, the server, the renames. *)
Definition keeps (w w' : world) : Prop :=
  Fs.wf (root w') = true /\ server w' = server w /\ swaps w' = swaps w.

(** The swap itself: the three calls behind the version test. *)
Definition swap (self : OTAUpdater) : M unit :=
  rmtree (main_dir self) ;;
  Os.rename (new_version_dir self) (main_dir self) ;;
  machine_reset.

(** The deletions of a post-order walk of the directory [directory] with
    the entries [es]: each entry in listing order, a file by one removal, a
    directory by the walk of its own entries, and the directory itself last. *)
Fixpoint post_order_node (path : string) (n : node) : list event :=
  match n with
  | File _ => [FsRemove path]
  | Dir es =>
      ((fix walk (es : entries_t) : list event :=
          match es with
          | [] => []
          | e :: r => post_order_node (path ++ "/" ++ fst e) (snd e) ++ walk r
          end) es ++ [FsRmdir path])%list
  end.

Definition post_order (directory : string) (es : entries_t) : list event :=
  post_order_node directory (Dir es).

(** The deletions below a directory, without its final [rmdir]. *)
Definition walk (directory : string) (es : entries_t) : list event :=
  flat_map (fun e => post_order_node (directory ++ "/" ++ fst e) (snd e)) es.

End OTA.

(** ** Dotted-integer order of version tokens

    The comparison the specification names as the sound one: a token is cut
    at its dots, each part is read as a decimal number, and the lists of
    numbers are compared from the left. *)

Module Dotted.

Fixpoint split_dot (s : string) : list string :=
  match s with
  | EmptyString => [EmptyString]
  | String c r =>
      if Ascii.eqb c "." then EmptyString :: split_dot r
      else match split_dot r with
           | h :: t => String c h :: t
           | [] => [String c EmptyString]
           end
  end.

Definition number (s : string) : Z := fst (Json.parse_digits 0 s).

Definition parts (s : string) : list Z := map number (split_dot s).

Fixpoint gt_parts (a b : list Z) : bool :=
  match a, b with
  | [], _ => false
  | _ :: _, [] => true
  | x :: a', y :: b' => (y <? x)%Z || ((x =? y)%Z && gt_parts a' b')
  end.

Definition gt (a b : string) : bool := gt_parts (parts a) (parts b).

End Dotted.

(** ** The device of main.py and the scenarios of the specification *)

Module Scenario.

(** The updater [trigger_ota_update] builds. *)
Definition device : OTAUpdater :=
  OTA.init "UE-DT" "UE-DT@2023" "https://github.com/mahmoudrizkk/C3AG/"
    "main.py" OTA.default_main_dir OTA.default_new_version_dir.

Definition version_doc (token : string) : string :=
  Json.dumps (JObj [("version", JStr token)]).

(** A server that answers from a table of URLs; any other request fails in
    transport. *)
Definition serve (table : list (string * response)) (url : string)
  : option response := Fs.assoc url table.

Definition release_url (file : string) : string :=
  firmware_url device ++ github_src_dir device ++ file.

(** A release of two files, both answered with status 200. *)
Definition release (token : string) : list (string * response) :=
  [ (version_url device, mkResponse 200 (version_doc token));
    (firmware_url device ++ "file_list.json",
     mkResponse 200 (Json.quoted "['a.txt','dir/b.txt']"));
    (release_url "a.txt", mkResponse 200 "print('a')");
    (release_url "dir/b.txt", mkResponse 200 "print('b')") ].

(** The flash of a device that runs release [token]: the active marker and
    an active directory with a nested tree. *)
Definition flash (token : string) : node :=
  Dir [ ("version.json", File (version_doc token));
        ("main", Dir [ ("old.py", File "print('old')");
                       ("lib", Dir [ ("util.py", File "pass");
                                     ("data", Dir []) ]) ]) ].

(** What the staged download of the release leaves under the staging root. *)
Definition staged (token : string) : entries_t :=
  [ ("a.txt", File "print('a')");
    ("dir", Dir [("b.txt", File "print('b')")]);
    (".version", File (version_doc token)) ].

(** End to end: the device runs 1.0.0 and the server offers 1.1.0. *)
Definition end_to_end : world :=
  mkWorld (flash "1.0.0") (serve (release "1.1.0")) [].

(** Stale server: the device runs 2.0.0 and the server offers 1.9.0. *)
Definition stale_server : world :=
  mkWorld (flash "2.0.0") (serve (release "1.9.0")) [].

(** Two digits against one: the device runs 2.0.0, the server offers 10.0.0. *)
Definition two_digits : world :=
  mkWorld (flash "2.0.0") (serve (release "10.0.0")) [].

(** A download finished and the device lost power before the swap. *)
Definition interrupted : world :=
  mkWorld
    (Dir [ ("version.json", File (version_doc "1.0.0"));
           ("main", Dir [ ("old.py", File "print('old')");
                          ("lib", Dir [ ("util.py", File "pass");
                                        ("data", Dir []) ]) ]);
           ("next", Dir (staged "1.1.0")) ])
    (serve []) [].

(** A staged release on a device whose flash holds no active directory. *)
Definition no_main : world :=
  mkWorld
    (Dir [ ("version.json", File (version_doc "1.0.0"));
           ("next", Dir (staged "1.1.0")) ])
    (serve []) [].

(** A download that stopped before the marker was written. *)
Definition incomplete : world :=
  mkWorld
    (Dir [ ("version.json", File (version_doc "1.0.0"));
           ("main", Dir [("old.py", File "print('old')")]);
           ("next", Dir [("a.txt", File "print('a')")]) ])
    (serve []) [].

(** The server answers the manifest, 404 for its first file and nothing at
    all (a transport failure) when [lost] for its second file. *)
Definition flaky (lost : bool) : list (string * response) :=
  [ (version_url device, mkResponse 200 (version_doc "1.1.0"));
    (firmware_url device ++ "file_list.json",
     mkResponse 200 (Json.quoted "['a.txt','dir/b.txt']"));
    (release_url "a.txt", mkResponse 404 "Not Found") ]
  ++ (if lost then []
      else [(release_url "dir/b.txt", mkResponse 200 "print('b')")])%list.

Definition flaky_world (lost : bool) : world :=
  mkWorld (flash "1.0.0") (serve (flaky lost)) [].


(** The manifest lists the marker itself, answered with status 200, and a
    file whose request fails in transport. *)
Definition marker_listed : world :=
  mkWorld (flash "1.0.0")
    (serve [ (version_url device, mkResponse 200 (version_doc "1.1.0"));
             (firmware_url device ++ "file_list.json",
              mkResponse 200 (Json.quoted "['.version','b.txt']"));
             (release_url ".version", mkResponse 200 (version_doc "9.9.9")) ])
    [].

(** The server answers the manifest and 404 for each of its files. *)
Definition refusing : world :=
  mkWorld (flash "1.0.0")
    (serve [ (version_url device, mkResponse 200 (version_doc "1.1.0"));
             (firmware_url device ++ "file_list.json",
              mkResponse 200 (Json.quoted "['a.txt','dir/b.txt']"));
             (release_url "a.txt", mkResponse 404 "Not Found");
             (release_url "dir/b.txt", mkResponse 404 "Not Found") ])
    [].

(** The events of the staged download of [release]. *)
Definition download_events : list event :=
  [ HttpGet (version_url device);
    HttpGet (firmware_url device ++ "file_list.json");
    HttpGet (release_url "a.txt");
    FsMakedirs "next/"; FsWrite "next/a.txt";
    HttpGet (release_url "dir/b.txt");
    FsMakedirs "next/dir"; FsWrite "next/dir/b.txt";
    FsMakedirs "next"; FsWrite "next/.version" ].

(** The events of the swap on [flash]. *)
Definition swap_events : list event :=
  [ FsRemove "main/old.py"; FsRemove "main/lib/util.py";
    FsRmdir "main/lib/data"; FsRmdir "main/lib"; FsRmdir "main";
    FsRename "next" "main" ].

End Scenario.

(** ** What a call may do to the outside *)

Module Effects.

(** The events of a download: a request, a directory made, a file written. *)
Definition is_staging_event (e : event) : bool :=
  match e with
  | HttpGet _ | FsMakedirs _ | FsWrite _ => true
  | _ => false
  end.

(** From [w] to [w'] the server is the same and the log grew by events that
    all pass [ok]. *)
Definition extends_by (ok : event -> bool) (w w' : world) : Prop :=
  server w' = server w /\
  exists evs, log w' = (log w ++ evs)%list /\ forallb ok evs = true.

(** [old in s] on str, for a non-empty [old] *)
Fixpoint contains (old s : string) : bool :=
  prefix old s ||
  match s with
  | EmptyString => false
  | String _ r => contains old r
  end.

(** A relative path with no component [..]. *)
Definition plain (file : string) : bool :=
  negb (PyStr.mem ".." (PyStr.split_slash file)).


(** From [w] to [w'] every entry of the root but [name] is what it was. *)
Definition same_outside (name : string) (w w' : world) : Prop :=
  forall k, k <> name -> Fs.get (root w') [k] = Fs.get (root w) [k].

End Effects.

(** ** The module-level helpers of main.py *)

Module Main.

(** [str(v)] for a value of a JSON document.  The text of a list or a dict
    is the one of their [repr], which is left to [container]. *)
Definition str (container : json -> string) (v : json) : string :=
  match v with
  | JStr s => s
  | JInt z => Json.dumps_int z
  | JBool true => "True"
  | JBool false => "False"
  | JNull => "None"
  | _ => container v
  end.

(** [get_current_version]: the version for the display. *)
Definition get_current_version (container : json -> string) : M string :=
  try_except
    (f <- Os.read "version.json" ;;
     version_json <- ujson_loads f ;;
     v <- of_sum (Py.getitem version_json "version") ;;
     ret (str container v))
    (ret "0").

End Main.

(** ** The keypad *)

Module Keypad.

Definition DEBOUNCE_TIME_MS : Z := 150.

Definition COL_PINS : list Z := [6; 7; 8; 9]%Z.
Definition ROW_PINS : list Z := [10; 11; 12; 13]%Z.

Definition KEYS : list (list string) :=
  [ ["1"; "4"; "7"; "M"];
    ["2"; "5"; "8"; "0"];
    ["3"; "6"; "9"; "C"];
    ["F1"; "F2"; "F3"; "E"] ].

(** The indices [enumerate(rows)] and [enumerate(cols)] give. *)
Definition rows : list nat := seq 0 (List.length ROW_PINS).
Definition cols : list nat := seq 0 (List.length COL_PINS).

(** [KEYS[c_idx][r_idx]]; the indices of the scan are in range. *)
Definition key_at (c_idx r_idx : nat) : string :=
  nth r_idx (nth c_idx KEYS []) "".

(** The period of [time.ticks_ms()] on the rp2 port of MicroPython: the
    counter runs from [0] to [TICKS_PERIOD - 1] and wraps. *)
Definition TICKS_PERIOD : Z := 2 ^ 30.

(** [time.ticks_diff(a, b)]: the difference on the ring of the ticks, in
    [-TICKS_PERIOD/2 .. TICKS_PERIOD/2 - 1]. *)
Definition ticks_diff (a b : Z) : Z :=
  ((a - b + TICKS_PERIOD / 2) mod TICKS_PERIOD - TICKS_PERIOD / 2)%Z.

(** What one pass over the keypad gets from the hardware: the value of
    [time.ticks_ms()], and for the row [r_idx] driven low and the others
    high, whether the column [c_idx] reads [0].  A pass reads a column of a
    row at most once. *)
Record sample : Type := mkSample {
  ticks_ms : Z;
  col_low : nat -> nat -> bool
}.

(** The globals [last_key_time] and [last_key_pressed]. *)
Record state : Type := mkState {
  last_key_time : Z;
  last_key_pressed : option string
}.

Definition initial : state := mkState 0 None.

(** [if key:] on a str or None *)
Definition truthy (key : option string) : bool :=
  match key with
  | Some (String _ _) => true
  | _ => false
  end.

(** [a == b] on a str or None *)
Definition key_eqb (a b : option string) : bool :=
  match a, b with
  | Some x, Some y => String.eqb x y
  | None, None => true
  | _, _ => false
  end.

(** The loop over the columns of the row [r_idx], left at the first column
    that reads [0]. *)
Fixpoint scan_cols (low : nat -> bool) (r_idx : nat) (cs : list nat)
         (pressed_key : option string) : option string :=
  match cs with
  | [] => pressed_key
  | c_idx :: rest =>
      if low c_idx then Some (key_at c_idx r_idx)
      else scan_cols low r_idx rest pressed_key
  end.

(** The loop over the rows, left when [pressed_key] is true. *)
Fixpoint scan_rows (low : nat -> nat -> bool) (rs : list nat)
         (pressed_key : option string) : option string :=
  match rs with
  | [] => pressed_key
  | r_idx :: rest =>
      let pressed_key := scan_cols (low r_idx) r_idx cols pressed_key in
      if truthy pressed_key then pressed_key
      else scan_rows low rest pressed_key
  end.

Definition scan (low : nat -> nat -> bool) : option string :=
  scan_rows low rows None.

(** [scan_keypad_debounced()]: the key and the globals after the call. *)
Definition scan_keypad_debounced (s : sample) (st : state)
  : option string * state :=
  let current_time := ticks_ms s in
  if (ticks_diff current_time (last_key_time st) <? DEBOUNCE_TIME_MS)%Z
  then (None, st)
  else
    let pressed_key := scan (col_low s) in
    match pressed_key with
    | None => (None, mkState (last_key_time st) None)
    | Some k =>
        if key_eqb pressed_key (last_key_pressed st) then (None, st)
        else (Some k, mkState current_time (Some k))
    end.

(** The two loops of [wait_for_key_release]. *)
Fixpoint any_cols (low : nat -> bool) (cs : list nat) (any_pressed : bool)
  : bool :=
  match cs with
  | [] => any_pressed
  | c_idx :: rest => if low c_idx then true else any_cols low rest any_pressed
  end.

Fixpoint any_rows (low : nat -> nat -> bool) (rs : list nat)
         (any_pressed : bool) : bool :=
  match rs with
  | [] => any_pressed
  | r_idx :: rest =>
      let any_pressed := any_cols (low r_idx) cols any_pressed in
      if any_pressed then any_pressed else any_rows low rest any_pressed
  end.

Definition any_pressed (low : nat -> nat -> bool) : bool :=
  any_rows low rows false.

(** A loop that calls [scan_keypad_debounced] once for each sample. *)
Fixpoint poll (samples : list sample) (st : state)
  : list (option string) * state :=
  match samples with
  | [] => ([], st)
  | s :: rest =>
      let (key, st1) := scan_keypad_debounced s st in
      let (keys, st2) := poll rest st1 in
      (key :: keys, st2)
  end.

(** The sample reads the position of the key [k] closed. *)
Definition closed (k : string) (s : sample) : bool :=
  existsb (fun r_idx =>
             existsb (fun c_idx =>
                        col_low s r_idx c_idx
                        && String.eqb (key_at c_idx r_idx) k) cols) rows.

(** The keys [ks] are read closed in this order, each by a sample of its
    own. *)
Fixpoint closed_in_order (ks : list string) (samples : list sample) : bool :=
  match ks, samples with
  | [], _ => true
  | _ :: _, [] => false
  | k :: ks', s :: rest =>
      (closed k s && closed_in_order ks' rest) || closed_in_order ks rest
  end.

End Keypad.

(** ** The screens of main.py that wait for a key *)

Module Ui.

Import Keypad.

Definition WIFI_SSID : string := "UE-DT".
Definition WIFI_PASSWORD : string := "UE-DT@2023".

(** What [display_message] puts on the display. *)
Inductive frame : Type :=
| Frame (line1 line2 line3 line4 : string).

(** The device, the globals of the keypad and the frames shown so far. *)
Record console : Type := mkConsole {
  device : world;
  keys : Keypad.state;
  oled : list frame
}.

Definition set_device (c : console) (w : world) : console :=
  mkConsole w (keys c) (oled c).

Definition set_keys (c : console) (st : Keypad.state) : console :=
  mkConsole (device c) st (oled c).

(** [display_message(line1, line2, line3, line4, duration_ms)].  The sleep
    of [duration_ms] shows in the ticks of the samples that follow. *)
Definition display_message (line1 line2 line3 line4 : string)
           (duration_ms : Z) (c : console) : console :=
  mkConsole (device c) (keys c) (oled c ++ [Frame line1 line2 line3 line4])%list.

(** A screen returns (with the samples it has not used), raises, restarts
    the device, or is still in its loop when the samples end. *)
Inductive result : Type :=
| Returns (rest : list sample) (c : console)
| Raises (e : Py.exn) (c : console)
| Resets (c : console)
| Waits (c : console).

Definition console_of (r : result) : console :=
  match r with
  | Returns _ c | Raises _ c | Resets c | Waits c => c
  end.

(** [wait_for_key_release()]: one pass over the keypad for each turn of
    the loop. *)
Fixpoint wait_for_key_release (samples : list sample) (c : console) : result :=
  match samples with
  | [] => Waits c
  | s :: rest =>
      if Keypad.any_pressed (col_low s) then wait_for_key_release rest c
      else Returns rest c
  end.

(** [s * n] on str *)
Fixpoint times (s : string) (n : nat) : string :=
  match n with
  | O => ""
  | S m => s ++ times s m
  end.

Definition ota_updater : OTAUpdater :=
  OTA.init WIFI_SSID WIFI_PASSWORD "https://github.com/mahmoudrizkk/C3AG/"
    "main.py" OTA.default_main_dir OTA.default_new_version_dir.

(** The frame shown after a digit: a star for each character of the buffer,
    sixteen at most. *)
Definition enter_password (password_buffer : string) : console -> console :=
  display_message "Enter Password:"
    (times "*" (Nat.min (String.length password_buffer) 16))
    "Press 'E' to confirm" "Press 'C' to cancel" 0.

Section Screens.

(** [str(e)] for an exception. *)
Variable exn_text : Py.exn -> string.

(** The [try] of [trigger_ota_update]: every exception of the model is an
    [Exception] and is caught; a restart is not. *)
Definition run_update (rest : list sample) (c : console) : result :=
  let c := display_message "Starting OTA..." "Please wait" "" "" 0 c in
  match OTA.download_and_install_update_if_available ota_updater (device c) with
  | Ret _ w =>
      Returns rest
        (display_message "OTA Success" "Update completed" "" "" 3000
           (set_device c w))
  | Raise e w =>
      Returns rest
        (display_message "OTA Failed" (substring 0 20 (exn_text e)) "" "" 3000
           (set_device c w))
  | Reboot w => Resets (set_device c w)
  end.

(** The [while True] of [trigger_ota_update], one turn for each sample. *)
Fixpoint trigger_loop (samples : list sample) (password_buffer : string)
         (last_key : option string) (c : console) : result :=
  match samples with
  | [] => Waits c
  | s :: rest =>
      let (key, st) := scan_keypad_debounced s (keys c) in
      let c := set_keys c st in
      if truthy key && negb (key_eqb key last_key) then
        match key with
        | Some k =>
            if String.eqb k "E" then
              if String.eqb password_buffer "1234" then run_update rest c
              else
                let c := display_message "Wrong Password!" "Try again" "" ""
                           2000 c in
                let password_buffer := "" in
                let c := display_message "Enter Password:" "*"
                           "Press 'E' to confirm" "Press 'C' to cancel" 0 c in
                trigger_loop rest password_buffer key c
            else if String.eqb k "C" then
              Returns rest
                (display_message "Update Cancelled" "Returning to" "main menu"
                   "" 2000 c)
            else if Effects.contains k "0123456789" then
              let password_buffer := password_buffer ++ k in
              let c := enter_password password_buffer c in
              trigger_loop rest password_buffer key c
            else trigger_loop rest password_buffer key c
        | None => trigger_loop rest password_buffer key c
        end
      else if negb (truthy key) then trigger_loop rest password_buffer None c
      else trigger_loop rest password_buffer last_key c
  end.

(** [trigger_ota_update()] *)
Definition trigger_ota_update (samples : list sample) (c : console) : result :=
  let c := display_message "Enter Password:" "*" "Press 'E' to confirm"
             "Press 'C' to cancel" 0 c in
  trigger_loop samples "" None c.

End Screens.

(** The [try] of [delete_all_data]: only OSError is caught. *)
Definition remove_data (rest : list sample) (c : console) : result :=
  match Os.remove "data.json" (device c) with
  | Ret _ w =>
      Returns rest
        (display_message "DATA DELETED!" "All readings" "have been removed."
           "" 2000 (set_device c w))
  | Raise Py.OSError w =>
      Returns rest
        (display_message "Delete Failed" "File may not exist"
           "or is protected." "" 2000 (set_device c w))
  | Raise e w => Raises e (set_device c w)
  | Reboot w => Resets (set_device c w)
  end.

(** The [while True] of [delete_all_data]. *)
Fixpoint delete_loop (samples : list sample) (c : console) : result :=
  match samples with
  | [] => Waits c
  | s :: rest =>
      let (key, st) := scan_keypad_debounced s (keys c) in
      let c := set_keys c st in
      if key_eqb key (Some "E") then
        match wait_for_key_release rest c with
        | Returns rest c => remove_data rest c
        | r => r
        end
      else if key_eqb key (Some "C") then
        match wait_for_key_release rest c with
        | Returns rest c =>
            Returns rest (display_message "Cancelled" "Data preserved." "" ""
                            1500 c)
        | r => r
        end
      else delete_loop rest c
  end.

(** [delete_all_data()] *)
Definition delete_all_data (samples : list sample) (c : console) : result :=
  let c := display_message "DELETE ALL DATA?" "" "Press 'E' to confirm"
             "Press 'C' to cancel" 0 c in
  match wait_for_key_release samples c with
  | Returns rest c => delete_loop rest c
  | r => r
  end.

End Ui.

(** ** Keys typed on a device *)

Module Typing.

Import Keypad.

(** The key [k] alone is down at the tick [t]. *)
Definition press (t : Z) (k : string) : sample :=
  mkSample t (fun r_idx c_idx => String.eqb (key_at c_idx r_idx) k).

(** No key is down at the tick [t]. *)
Definition idle (t : Z) : sample := mkSample t (fun _ _ => false).

(** The password and [E], a key every 200 ms. *)
Definition password : list sample :=
  [press 200 "1"; press 400 "2"; press 600 "3"; press 800 "4"; press 1000 "E"].

(** A device after boot: nothing shown, no key seen. *)
Definition console (w : world) : Ui.console :=
  Ui.mkConsole w Keypad.initial [].

(** A flash with readings stored. *)
Definition with_data (readings : string) : world :=
  mkWorld (Dir [("version.json", File (Scenario.version_doc "1.0.0"));
                ("data.json", File readings)])
          (fun _ => None) [].

End Typing.

(** * Facts *)

(** ** Directory listings *)

Module FsFacts.

Import Fs.

Lemma assoc_set_same (k : string) (v : node) (es : entries_t) :
  assoc k (set_entry k v es) = Some v.
Proof.
  induction es as [|[k' v'] r IH]; simpl.
  - now rewrite String.eqb_refl.
  - destruct (String.eqb k k') eqn:E; simpl.
    + now rewrite String.eqb_refl.
    + now rewrite E.
Qed.

Lemma assoc_set_other (k k' : string) (v : node) (es : entries_t) :
  k <> k' -> assoc k (set_entry k' v es) = assoc k es.
Proof.
  intros Hne. induction es as [|[k2 v2] r IH]; simpl.
  - apply String.eqb_neq in Hne. now rewrite Hne.
  - destruct (String.eqb k' k2) eqn:E; simpl.
    + apply String.eqb_eq in E. subst k2.
      apply String.eqb_neq in Hne. now rewrite Hne.
    + destruct (String.eqb k k2); auto.
Qed.

Lemma set_entry_twice (k : string) (v1 v2 : node) (es : entries_t) :
  set_entry k v2 (set_entry k v1 es) = set_entry k v2 es.
Proof.
  induction es as [|[k' v'] r IH]; simpl.
  - now rewrite String.eqb_refl.
  - destruct (String.eqb k k') eqn:E; simpl.
    + now rewrite String.eqb_refl.
    + now rewrite E, IH.
Qed.

Lemma set_entry_same (k : string) (v : node) (es : entries_t) :
  assoc k es = Some v -> set_entry k v es = es.
Proof.
  induction es as [|[k' v'] r IH]; simpl; [discriminate|].
  destruct (String.eqb k k') eqn:E.
  - apply String.eqb_eq in E. subst. now intros [= ->].
  - intros H. now rewrite IH.
Qed.

Lemma del_set_entry (k : string) (v : node) (es : entries_t) :
  del_entry k (set_entry k v es) = del_entry k es.
Proof.
  induction es as [|[k' v'] r IH]; simpl.
  - now rewrite String.eqb_refl.
  - destruct (String.eqb k k') eqn:E; simpl.
    + now rewrite String.eqb_refl.
    + now rewrite E, IH.
Qed.

Lemma names_set_present (k : string) (v m : node) (es : entries_t) :
  assoc k es = Some m -> map fst (set_entry k v es) = map fst es.
Proof.
  induction es as [|[k' v'] r IH]; simpl; [discriminate|].
  destruct (String.eqb k k') eqn:E; simpl.
  - apply String.eqb_eq in E. now subst.
  - intros H. now rewrite IH.
Qed.

Lemma names_set_absent (k : string) (v : node) (es : entries_t) :
  assoc k es = None -> map fst (set_entry k v es) = (map fst es ++ [k])%list.
Proof.
  induction es as [|[k' v'] r IH]; simpl; [reflexivity|].
  destruct (String.eqb k k') eqn:E; [discriminate|].
  intros H. simpl. now rewrite IH.
Qed.

Lemma mem_In (x : string) (l : list string) :
  PyStr.mem x l = true <-> In x l.
Proof.
  unfold PyStr.mem. rewrite existsb_exists. split.
  - intros [y [Hy E]]. apply String.eqb_eq in E. now subst.
  - intros H. exists x. split; [assumption | apply String.eqb_refl].
Qed.

Lemma mem_false (x : string) (l : list string) :
  PyStr.mem x l = false <-> ~ In x l.
Proof.
  rewrite <- mem_In. destruct (PyStr.mem x l); split; intros H;
    congruence || (exfalso; now apply H).
Qed.

Lemma assoc_In (k : string) (es : entries_t) :
  In k (map fst es) <-> exists m, assoc k es = Some m.
Proof.
  induction es as [|[k' v'] r IH]; simpl.
  - split; [tauto | intros [m H]; discriminate].
  - destruct (String.eqb k k') eqn:E.
    + apply String.eqb_eq in E. subst. split; eauto.
    + apply String.eqb_neq in E. rewrite <- IH. split.
      * intros [H|H]; [congruence | assumption].
      * auto.
Qed.

Lemma assoc_None (k : string) (es : entries_t) :
  ~ In k (map fst es) <-> assoc k es = None.
Proof.
  rewrite assoc_In. destruct (assoc k es); split; intros H.
  - exfalso. apply H. eauto.
  - discriminate.
  - reflexivity.
  - intros [m Hm]. discriminate.
Qed.

Lemma In_del_entry (k x : string) (es : entries_t) :
  In x (map fst (del_entry k es)) -> In x (map fst es).
Proof.
  induction es as [|[k' v'] r IH]; simpl; [tauto|].
  destruct (String.eqb k k'); simpl; tauto.
Qed.

Lemma In_set_entry (k x : string) (v : node) (es : entries_t) :
  In x (map fst (set_entry k v es)) -> x = k \/ In x (map fst es).
Proof.
  induction es as [|[k' v'] r IH]; simpl.
  - intros [H|[]]. now left.
  - destruct (String.eqb k k') eqn:E; simpl.
    + apply String.eqb_eq in E. subst. intros [H|H]; auto.
    + intros [H|H]; auto. destruct (IH H); auto.
Qed.

(** *** Well-formed trees *)

Lemma wf_cons (e : string * node) (r : entries_t) :
  wf (Dir (e :: r)) =
  valid_name (fst e) && negb (PyStr.mem (fst e) (map fst r))
  && wf (snd e) && wf (Dir r).
Proof. reflexivity. Qed.

Lemma wf_cons_inv (k : string) (m : node) (r : entries_t) :
  wf (Dir ((k, m) :: r)) = true ->
  valid_name k = true /\ ~ In k (map fst r) /\ wf m = true /\ wf (Dir r) = true.
Proof.
  rewrite wf_cons. simpl. rewrite !andb_true_iff, negb_true_iff, mem_false.
  tauto.
Qed.

Lemma wf_cons_intro (k : string) (m : node) (r : entries_t) :
  valid_name k = true -> ~ In k (map fst r) -> wf m = true ->
  wf (Dir r) = true -> wf (Dir ((k, m) :: r)) = true.
Proof.
  intros. rewrite wf_cons. simpl.
  rewrite !andb_true_iff, negb_true_iff, mem_false. tauto.
Qed.

Lemma wf_assoc (k : string) (m : node) (es : entries_t) :
  wf (Dir es) = true -> assoc k es = Some m ->
  wf m = true /\ valid_name k = true.
Proof.
  induction es as [|[k' v'] r IH]; simpl assoc; [discriminate|].
  intros Hwf. apply wf_cons_inv in Hwf. destruct Hwf as (Hv & _ & Hm & Hr).
  destruct (String.eqb k k') eqn:E.
  - apply String.eqb_eq in E. subst. intros [= ->]. auto.
  - auto.
Qed.

Lemma wf_set (k : string) (v : node) (es : entries_t) :
  wf (Dir es) = true -> valid_name k = true -> wf v = true ->
  wf (Dir (set_entry k v es)) = true.
Proof.
  intros Hwf Hk Hv. induction es as [|[k' v'] r IH]; simpl set_entry.
  - now apply wf_cons_intro.
  - apply wf_cons_inv in Hwf. destruct Hwf as (Hv' & Hn & Hm & Hr).
    destruct (String.eqb k k') eqn:E.
    + apply String.eqb_eq in E. subst. now apply wf_cons_intro.
    + apply String.eqb_neq in E. apply wf_cons_intro; auto.
      intros Hin. apply In_set_entry in Hin. destruct Hin; congruence.
Qed.

Lemma wf_del (k : string) (es : entries_t) :
  wf (Dir es) = true -> wf (Dir (del_entry k es)) = true.
Proof.
  induction es as [|[k' v'] r IH]; simpl del_entry; [auto|].
  intros Hwf. apply wf_cons_inv in Hwf. destruct Hwf as (Hv' & Hn & Hm & Hr).
  destruct (String.eqb k k'); [assumption|].
  apply wf_cons_intro; auto.
  intros Hin. now apply In_del_entry in Hin.
Qed.

Lemma wf_del_absent (k : string) (es : entries_t) :
  wf (Dir es) = true -> ~ In k (map fst (del_entry k es)).
Proof.
  induction es as [|[k' v'] r IH]; simpl del_entry; [auto|].
  intros Hwf. apply wf_cons_inv in Hwf. destruct Hwf as (Hv' & Hn & Hm & Hr).
  destruct (String.eqb k k') eqn:E.
  - apply String.eqb_eq in E. now subst.
  - apply String.eqb_neq in E. simpl. intros [H|H]; [congruence|].
    now apply IH.
Qed.

Lemma wf_get (p : path) : forall (n m : node),
  wf n = true -> get n p = Some m -> wf m = true.
Proof.
  induction p as [|c r IH]; simpl; intros n m Hwf H.
  - now injection H as <-.
  - destruct n as [|es]; [discriminate|].
    destruct (assoc c es) as [x|] eqn:E; [|discriminate].
    apply (IH x); [|assumption]. now apply (wf_assoc c x es).
Qed.

(** An update of one listing keeps the tree well formed when it keeps the
    listing well formed. *)
Lemma wf_with_dir (f : entries_t -> option entries_t) :
  (forall es es', wf (Dir es) = true -> f es = Some es' ->
                  wf (Dir es') = true) ->
  forall (p : path) (n n' : node),
    wf n = true -> with_dir p f n = Some n' -> wf n' = true.
Proof.
  intros Hf. induction p as [|c r IH]; intros n n' Hwf H;
    destruct n as [|es]; simpl in H; try discriminate.
  - destruct (f es) as [es'|] eqn:E; [|discriminate].
    injection H as <-. now apply (Hf es).
  - destruct (assoc c es) as [m|] eqn:E; [|discriminate].
    destruct (with_dir r f m) as [m'|] eqn:E'; [|discriminate].
    injection H as <-.
    destruct (wf_assoc c m es Hwf E) as [Hm Hc].
    apply wf_set; auto. now apply (IH m).
Qed.

(** *** Paths *)

Lemma split_slash_nonempty (s : string) : PyStr.split_slash s <> [].
Proof.
  destruct s as [|c r]; simpl; [discriminate|].
  destruct (Ascii.eqb c "/"); [discriminate|].
  destruct (PyStr.split_slash r); discriminate.
Qed.

Lemma split_slash_app (a b : string) :
  PyStr.split_slash (a ++ "/" ++ b) =
  (PyStr.split_slash a ++ PyStr.split_slash b)%list.
Proof.
  induction a as [|c r IH]; [reflexivity|].
  simpl in *. rewrite IH.
  destruct (Ascii.eqb c "/"); [reflexivity|].
  pose proof (split_slash_nonempty r) as Hne.
  destruct (PyStr.split_slash r) as [|h t]; [congruence | reflexivity].
Qed.

Lemma split_slash_plain (k : string) :
  PyStr.has_char "/" k = false -> PyStr.split_slash k = [k].
Proof.
  induction k as [|c r IH]; [reflexivity|].
  cbn [PyStr.has_char PyStr.split_slash].
  rewrite (Ascii.eqb_sym c "/").
  destruct (Ascii.eqb "/" c) eqn:E; [intros H; discriminate H|].
  cbn [orb]. intros H. now rewrite IH.
Qed.

Lemma split_slash_no_slash (s : string) :
  Forall (fun c => PyStr.has_char "/" c = false) (PyStr.split_slash s).
Proof.
  induction s as [|c r IH]; cbn [PyStr.split_slash].
  - constructor; [reflexivity | constructor].
  - destruct (Ascii.eqb c "/") eqn:E.
    + constructor; [reflexivity | assumption].
    + assert (Hc : forall h, PyStr.has_char "/" h = false ->
                             PyStr.has_char "/" (String c h) = false).
      { intros h Hh. cbn [PyStr.has_char]. now rewrite Ascii.eqb_sym, E. }
      destruct (PyStr.split_slash r) as [|h t].
      * constructor; [now apply Hc | constructor].
      * inversion IH; subst. constructor; [now apply Hc | assumption].
Qed.

Lemma valid_name_inv (k : string) :
  valid_name k = true ->
  String.eqb k EmptyString = false /\ String.eqb k "." = false /\
  String.eqb k ".." = false /\ PyStr.has_char "/" k = false.
Proof.
  unfold valid_name. rewrite !andb_true_iff, !negb_true_iff. tauto.
Qed.

Lemma norm_step_valid (acc : path) (k : string) :
  valid_name k = true -> norm_step acc k = (acc ++ [k])%list.
Proof.
  intros H. apply valid_name_inv in H. destruct H as (H1 & H2 & H3 & _).
  unfold norm_step. now rewrite H1, H2, H3.
Qed.

Lemma norm_path_name (k : string) :
  valid_name k = true -> norm_path k = [k].
Proof.
  intros H. unfold norm_path.
  rewrite split_slash_plain by (now apply valid_name_inv in H).
  simpl. now rewrite norm_step_valid.
Qed.

(** The path of an entry of the directory [d]. *)
Lemma norm_path_child (d k : string) :
  valid_name k = true ->
  norm_path (d ++ "/" ++ k) = (norm_path d ++ [k])%list.
Proof.
  intros H. unfold norm_path. rewrite split_slash_app, fold_left_app.
  rewrite split_slash_plain by (now apply valid_name_inv in H).
  simpl. now rewrite norm_step_valid.
Qed.

Lemma Forall_removelast {A : Type} (P : A -> Prop) (l : list A) :
  Forall P l -> Forall P (removelast l).
Proof.
  induction 1 as [|x l Hx Hl IH]; simpl; [constructor|].
  destruct l; [constructor | now constructor].
Qed.

Lemma norm_path_valid (s : string) :
  Forall (fun c => valid_name c = true) (norm_path s).
Proof.
  unfold norm_path.
  assert (G : forall cs acc,
             Forall (fun c => PyStr.has_char "/" c = false) cs ->
             Forall (fun c => valid_name c = true) acc ->
             Forall (fun c => valid_name c = true) (fold_left norm_step cs acc)).
  { induction cs as [|c cs IH]; intros acc Hcs Hacc; [assumption|].
    inversion Hcs; subst. simpl. apply IH; [assumption|].
    unfold norm_step.
    destruct (String.eqb c EmptyString) eqn:E1; [assumption|].
    destruct (String.eqb c ".") eqn:E2; [assumption|].
    destruct (String.eqb c "..") eqn:E3; [now apply Forall_removelast|].
    apply Forall_app. split; [assumption|].
    constructor; [|constructor].
    unfold valid_name. now rewrite E1, E2, E3, H1. }
  apply G; [apply split_slash_no_slash | constructor].
Qed.

(** *** Reading and rewriting a directory *)

Lemma get_app (p q : path) : forall n : node,
  get n (p ++ q)%list = match get n p with
                   | Some m => get m q
                   | None => None
                   end.
Proof.
  induction p as [|c r IH]; intros n; [reflexivity|].
  simpl. destruct n as [|es]; [reflexivity|].
  destruct (assoc c es); [apply IH | reflexivity].
Qed.

Lemma with_dir_get (f : entries_t -> option entries_t) (es : entries_t)
      (p : path) : forall n : node,
  get n p = Some (Dir es) -> with_dir p f n = with_dir p (fun _ => f es) n.
Proof.
  induction p as [|c r IH]; intros n H; destruct n as [|es0]; simpl in *;
    try discriminate.
  - now injection H as ->.
  - destruct (assoc c es0) as [m|]; [|discriminate].
    now rewrite (IH m H).
Qed.

Lemma with_dir_inv (f : entries_t -> option entries_t) (p : path) :
  forall n n' : node,
  with_dir p f n = Some n' ->
  exists es es',
    get n p = Some (Dir es) /\ f es = Some es' /\
    with_dir p (fun _ => Some es') n = Some n' /\
    get n' p = Some (Dir es').
Proof.
  induction p as [|c r IH]; intros n n' H; destruct n as [|es0]; simpl in *;
    try discriminate.
  - destruct (f es0) as [es'|] eqn:E; [|discriminate].
    injection H as <-. exists es0, es'. auto.
  - destruct (assoc c es0) as [m|] eqn:E; [|discriminate].
    destruct (with_dir r f m) as [m'|] eqn:E'; [|discriminate].
    injection H as <-.
    destruct (IH m m' E') as (es & es' & Hg & Hf & Hw & Hg').
    exists es, es'. rewrite Hw, assoc_set_same. auto.
Qed.

Lemma with_dir_const (es es' : entries_t) (p : path) : forall n : node,
  get n p = Some (Dir es) ->
  exists n', with_dir p (fun _ => Some es') n = Some n' /\
             get n' p = Some (Dir es').
Proof.
  induction p as [|c r IH]; intros n H; destruct n as [|es0]; simpl in *;
    try discriminate.
  - eexists. split; reflexivity.
  - destruct (assoc c es0) as [m|] eqn:E; [|discriminate].
    destruct (IH m H) as (m' & Hw & Hg). rewrite Hw.
    eexists. split; [reflexivity|]. simpl. now rewrite assoc_set_same.
Qed.

Lemma with_dir_twice (g : entries_t -> option entries_t) (es1 : entries_t)
      (p : path) : forall n n1 : node,
  with_dir p (fun _ => Some es1) n = Some n1 ->
  with_dir p g n1 = with_dir p (fun _ => g es1) n.
Proof.
  induction p as [|c r IH]; intros n n1 H; destruct n as [|es0]; simpl in *;
    try discriminate.
  - now injection H as <-.
  - destruct (assoc c es0) as [m|] eqn:E; [|discriminate].
    destruct (with_dir r (fun _ => Some es1) m) as [m1|] eqn:E1; [|discriminate].
    injection H as <-. simpl. rewrite assoc_set_same, (IH m m1 E1).
    destruct (with_dir r (fun _ => g es1) m); [|reflexivity].
    now rewrite set_entry_twice.
Qed.

Lemma with_dir_id (es : entries_t) (p : path) : forall n : node,
  get n p = Some (Dir es) -> with_dir p (fun _ => Some es) n = Some n.
Proof.
  induction p as [|c r IH]; intros n H; destruct n as [|es0]; simpl in *;
    try discriminate.
  - now injection H as ->.
  - destruct (assoc c es0) as [m|] eqn:E; [|discriminate].
    rewrite (IH m H). now rewrite set_entry_same.
Qed.

Lemma with_dir_is_dir (f : entries_t -> option entries_t) (p : path)
      (n n' : node) :
  with_dir p f n = Some n' -> exists es', n' = Dir es'.
Proof.
  destruct p as [|c r]; destruct n as [|es0]; simpl; try discriminate.
  - destruct (f es0); [|discriminate]. intros [= <-]. eauto.
  - destruct (assoc c es0); [|discriminate].
    destruct (with_dir r f n); [|discriminate]. intros [= <-]. eauto.
Qed.

Lemma with_dir_app (f : entries_t -> option entries_t) (p q : path) :
  forall n : node,
  with_dir (p ++ q)%list f n =
  with_dir p (fun es => match with_dir q f (Dir es) with
                        | Some (Dir es') => Some es'
                        | _ => None
                        end) n.
Proof.
  induction p as [|c r IH]; intros n.
  - destruct n as [|es0]; [now destruct q|].
    cbn [app with_dir].
    destruct (with_dir q f (Dir es0)) as [x|] eqn:E; [|reflexivity].
    destruct (with_dir_is_dir f q _ _ E) as [es' ->]. reflexivity.
  - destruct n as [|es0]; [reflexivity|]. simpl.
    destruct (assoc c es0); [|reflexivity]. now rewrite IH.
Qed.

(** *** The calls on an entry [k] of the directory at [p] *)

#[local] Open Scope list_scope.

Lemma snoc_not_nil (p : path) (k : string) : (p ++ [k])%list <> [].
Proof. destruct p; discriminate. Qed.

Lemma path_snoc (q : path) :
  q <> [] -> q = (removelast q ++ [last q EmptyString])%list.
Proof. intros H. now apply app_removelast_last. Qed.

Lemma remove_snoc (p : path) (k : string) (r : node) :
  remove (p ++ [k]) r =
  with_dir p (fun es => match assoc k es with
                        | Some (File _) => Some (del_entry k es)
                        | _ => None
                        end) r.
Proof.
  unfold remove. rewrite removelast_last, last_last.
  pose proof (snoc_not_nil p k). now destruct (p ++ [k])%list.
Qed.

Lemma rmdir_snoc (p : path) (k : string) (r : node) :
  rmdir (p ++ [k]) r =
  with_dir p (fun es => match assoc k es with
                        | Some (Dir []) => Some (del_entry k es)
                        | _ => None
                        end) r.
Proof.
  unfold rmdir. rewrite removelast_last, last_last.
  pose proof (snoc_not_nil p k). now destruct (p ++ [k])%list.
Qed.

Lemma unlink_snoc (p : path) (k : string) (r : node) :
  unlink (p ++ [k]) r = with_dir p (fun es => Some (del_entry k es)) r.
Proof.
  unfold unlink. rewrite removelast_last, last_last.
  pose proof (snoc_not_nil p k). now destruct (p ++ [k])%list.
Qed.

Lemma write_snoc (p : path) (k data : string) (r : node) :
  write (p ++ [k]) data r =
  with_dir p (fun es => match assoc k es with
                        | Some (Dir _) => None
                        | _ => Some (set_entry k (File data) es)
                        end) r.
Proof.
  unfold write. rewrite removelast_last, last_last.
  pose proof (snoc_not_nil p k). now destruct (p ++ [k])%list.
Qed.

(** Removing the first entry of a listing when it is a file. *)
Lemma remove_first (p : path) (k data : string) (rest : entries_t) (r : node) :
  get r p = Some (Dir ((k, File data) :: rest)) ->
  remove (p ++ [k]) r = with_dir p (fun _ => Some rest) r.
Proof.
  intros H. rewrite remove_snoc, (with_dir_get _ _ _ _ H).
  simpl. now rewrite String.eqb_refl.
Qed.

Lemma unlink_first (p : path) (k : string) (m : node) (rest : entries_t)
      (r : node) :
  get r p = Some (Dir ((k, m) :: rest)) ->
  unlink (p ++ [k]) r = with_dir p (fun _ => Some rest) r.
Proof.
  intros H. rewrite unlink_snoc, (with_dir_get _ _ _ _ H).
  simpl. now rewrite String.eqb_refl.
Qed.

(** Once the directory at [q] has been emptied, [rmdir] takes it away: the
    tree is the first one without the entry at [q]. *)
Lemma rmdir_emptied (q : path) (r r1 : node) :
  q <> [] ->
  with_dir q (fun _ => Some []) r = Some r1 ->
  rmdir q r1 = unlink q r /\ exists r2, unlink q r = Some r2.
Proof.
  intros Hq H. rewrite (path_snoc q Hq) in *.
  set (p := removelast q) in *. set (k := last q EmptyString) in *.
  clearbody p k. clear Hq q.
  rewrite rmdir_snoc, unlink_snoc. rewrite with_dir_app in H.
  destruct (with_dir_inv _ _ _ _ H) as (es & es' & Hg & Hf & Hw & Hg').
  rewrite (with_dir_twice _ _ _ _ _ Hw).
  rewrite (with_dir_get (fun es => Some (del_entry k es)) _ _ _ Hg).
  simpl in Hf. destruct (assoc k es) as [[|sub]|] eqn:E; try discriminate.
  injection Hf as <-. rewrite assoc_set_same, del_set_entry.
  split; [reflexivity|].
  destruct (with_dir_const es (del_entry k es) p r Hg) as (r2 & Hr2 & _).
  eauto.
Qed.

Lemma get_snoc_dir (p : path) (k : string) (r : node) (es : entries_t) :
  get r p = Some (Dir es) -> get r (p ++ [k]) = assoc k es.
Proof.
  intros H. rewrite get_app, H. simpl. now destruct (assoc k es).
Qed.

(** In a well-formed tree the unlinked entry is gone. *)
Lemma unlink_gone (q : path) (r r' : node) :
  wf r = true -> unlink q r = Some r' ->
  wf r' = true /\ get r' q = None.
Proof.
  intros Hwf H.
  assert (Hq : q <> []) by (destruct q; [discriminate H | discriminate]).
  rewrite (path_snoc q Hq) in *.
  set (p := removelast q) in *. set (k := last q EmptyString) in *.
  clearbody p k. clear Hq q.
  rewrite unlink_snoc in H. split.
  - apply (wf_with_dir (fun es => Some (del_entry k es))) with (p := p) (n := r);
      auto.
    intros es es' Hes [= <-]. now apply wf_del.
  - destruct (with_dir_inv _ _ _ _ H) as (es & es' & Hg & Hf & Hw & Hg').
    injection Hf as <-. rewrite (get_snoc_dir _ _ _ _ Hg').
    apply assoc_None, wf_del_absent.
    now apply (wf_get p r (Dir es)).
Qed.

End FsFacts.

(** ** The recursive delete *)

Module RmtreeFacts.

Import Fs FsFacts.
#[local] Open Scope list_scope.

Lemma bind_ret {A B : Type} (m : M A) (k : A -> M B) (w w' : world) (a : A) :
  m w = Ret a w' -> bind m k w = k a w'.
Proof. unfold bind. now intros ->. Qed.

Lemma bind_raise {A B : Type} (m : M A) (k : A -> M B) (w w' : world)
      (e : Py.exn) :
  m w = Raise e w' -> bind m k w = Raise e w'.
Proof. unfold bind. now intros ->. Qed.

Lemma world_eta (w : world) : mkWorld (root w) (server w) (log w) = w.
Proof. now destruct w. Qed.

Lemma height_cons (e : string * node) (r : entries_t) :
  height (Dir (e :: r)) = Nat.max (S (height (snd e))) (height (Dir r)).
Proof. reflexivity. Qed.

Lemma post_order_walk (directory : string) (es : entries_t) :
  OTA.post_order directory es = OTA.walk directory es ++ [FsRmdir directory].
Proof.
  unfold OTA.post_order. cbn [OTA.post_order_node]. f_equal.
Qed.

Lemma change_ok (f : node -> option node) (e : event) (w : world) (r : node) :
  f (root w) = Some r -> Os.change f e w = Ret tt (set_root w r e).
Proof. unfold Os.change. now intros ->. Qed.

(** On a well-formed directory that exists, [rmtree] returns, the tree is
    the old one without that directory, and the calls it made are the
    post-order walk.  Any depth bound not below the height of the directory
    gives this result. *)
Lemma rmtree_rec_ok : forall (depth : nat) (d : string) (es : entries_t)
                             (w : world),
  norm_path d <> [] ->
  get (root w) (norm_path d) = Some (Dir es) ->
  wf (Dir es) = true ->
  height (Dir es) <= depth ->
  exists r',
    unlink (norm_path d) (root w) = Some r' /\
    OTA.rmtree_rec depth d w =
      Ret tt (mkWorld r' (server w) (log w ++ OTA.post_order d es)).
Proof.
  induction depth as [|n IHn]; intros d es w Hne Hget Hwf Hh.
  { simpl in Hh. lia. }
  set (p := norm_path d) in *.
  assert (Loop : forall (rem : entries_t) (w1 : world),
             get (root w1) p = Some (Dir rem) ->
             wf (Dir rem) = true ->
             height (Dir rem) <= S n ->
             exists r1,
               with_dir p (fun _ => Some []) (root w1) = Some r1 /\
               for_each (map (fun e => (fst e, kind (snd e))) rem)
                 (fun entry =>
                    if (snd entry =? 0x4000)%Z
                    then OTA.rmtree_rec n (d ++ "/" ++ fst entry)%string
                    else Os.remove (d ++ "/" ++ fst entry)%string) w1
               = Ret tt (mkWorld r1 (server w1) (log w1 ++ OTA.walk d rem))).
  { induction rem as [|[k m] rest IHrest]; intros w1 Hg Hw Hhr.
    - exists (root w1). split; [now apply with_dir_id|].
      cbn [map for_each OTA.walk flat_map]. unfold ret.
      now rewrite app_nil_r, world_eta.
    - apply wf_cons_inv in Hw. destruct Hw as (Hk & Hnin & Hm & Hrest).
      rewrite height_cons in Hhr. cbn [snd] in Hhr.
      destruct (with_dir_const _ rest p (root w1) Hg) as (ra & Hra & Hga).
      assert (Hchild : norm_path (d ++ "/" ++ k)%string = p ++ [k])
        by (now apply norm_path_child).
      assert (Hstep : exists ev,
                 (if (kind m =? 0x4000)%Z
                  then OTA.rmtree_rec n (d ++ "/" ++ k)%string
                  else Os.remove (d ++ "/" ++ k)%string) w1
                 = Ret tt (mkWorld ra (server w1) (log w1 ++ ev)) /\
                 ev = OTA.post_order_node (d ++ "/" ++ k)%string m).
      { destruct m as [data|sub].
        - exists [FsRemove (d ++ "/" ++ k)%string]. split; [|reflexivity].
          cbn [kind]. change (S_IFREG =? 0x4000)%Z with false. cbv iota.
          unfold Os.remove. erewrite change_ok; [reflexivity|].
          rewrite Hchild, (remove_first _ _ _ _ _ Hg). exact Hra.
        - exists (OTA.post_order (d ++ "/" ++ k)%string sub).
          split; [|reflexivity].
          cbn [kind]. change (S_IFDIR =? 0x4000)%Z with true. cbv iota.
          destruct (IHn (d ++ "/" ++ k)%string sub w1) as (r' & Hu & Hr).
          + rewrite Hchild. apply snoc_not_nil.
          + rewrite Hchild, (get_snoc_dir _ _ _ _ Hg). simpl.
            now rewrite String.eqb_refl.
          + exact Hm.
          + lia.
          + rewrite Hr. rewrite Hchild, (unlink_first _ _ _ _ _ Hg) in Hu.
            congruence. }
      destruct Hstep as (ev & Hstep & Hev).
      destruct (IHrest (mkWorld ra (server w1) (log w1 ++ ev))) as (r1 & Hr1 & Hfor).
      + exact Hga.
      + exact Hrest.
      + lia.
      + exists r1. split.
        * rewrite <- Hr1. symmetry.
          apply (with_dir_twice (fun _ => Some []) rest p _ _ Hra).
        * cbn [map for_each fst snd].
          erewrite bind_ret by exact Hstep.
          rewrite Hfor. cbn [server log root OTA.walk flat_map fst snd].
          now rewrite Hev, app_assoc. }
  destruct (Loop es w Hget Hwf Hh) as (r1 & Hr1 & Hfor).
  destruct (rmdir_emptied p (root w) r1 Hne Hr1) as (Hrm & r2 & Hr2).
  exists r2. split; [exact Hr2|].
  cbn [OTA.rmtree_rec].
  erewrite bind_ret.
  2:{ unfold Os.ilistdir. fold p. rewrite Hget. reflexivity. }
  erewrite bind_ret by exact Hfor.
  unfold Os.rmdir. erewrite change_ok.
  2:{ cbn [root]. fold p. rewrite Hrm. exact Hr2. }
  unfold set_root. cbn [server log].
  now rewrite post_order_walk, app_assoc.
Qed.

End RmtreeFacts.

(** ** The methods, step by step *)

Module OtaFacts.

Import Fs FsFacts RmtreeFacts.
#[local] Open Scope list_scope.

Lemma get_version_stored (file : string) (w : world) :
  OTA.get_version file w = Ret (OTA.stored_version w file) w.
Proof.
  unfold OTA.get_version, OTA.stored_version, try_except, bind, Os.read.
  destruct (get (root w) (norm_path file)) as [[data|es]|]; try reflexivity.
  unfold ujson_loads.
  destruct (Json.loads data) as [doc|]; try reflexivity.
  cbn [of_option ret].
  destruct (Py.getitem doc "version"); reflexivity.
Qed.

(** What [install_update_if_available] does, by the tests it makes. *)
Lemma install_run (self : OTAUpdater) (w : world) :
  OTA.install_update_if_available self w =
  match Os.names (root w) with
  | None => Raise Py.OSError w
  | Some names =>
      if PyStr.mem (new_version_dir self) names then
        match get (root w) (norm_path (new_version_dir self)) with
        | Some (Dir es) =>
            if PyStr.mem OTA.marker (map fst es) then
              match OTA.newer self w with
              | Some true => OTA.swap self w
              | Some false => Ret tt w
              | None => Raise Py.TypeError w
              end
            else Ret tt w
        | _ => Raise Py.OSError w
        end
      else Ret tt w
  end.
Proof.
  unfold OTA.install_update_if_available, bind at 1, Os.listdir0.
  destruct (Os.names (root w)) as [names|]; [|reflexivity].
  cbn [of_option ret].
  destruct (PyStr.mem (new_version_dir self) names); [|reflexivity].
  unfold bind at 1, Os.listdir.
  destruct (get (root w) (norm_path (new_version_dir self))) as [[data|es]|];
    try reflexivity.
  destruct (PyStr.mem OTA.marker (map fst es)); [|reflexivity].
  unfold bind at 1. rewrite get_version_stored.
  unfold bind at 1. rewrite get_version_stored.
  unfold bind at 1, py_gt, OTA.newer.
  destruct (Py.gt _ _) as [[|]|]; reflexivity.
Qed.

Lemma install_installable (self : OTAUpdater) (w : world) :
  OTA.installable self w = true ->
  OTA.install_update_if_available self w = OTA.swap self w.
Proof.
  unfold OTA.installable, OTA.complete. rewrite install_run.
  destruct (Os.names (root w)) as [names|]; [|discriminate].
  destruct (get (root w) (norm_path (new_version_dir self))) as [[data|es]|];
    try discriminate.
  destruct (PyStr.mem (new_version_dir self) names); [|discriminate].
  destruct (PyStr.mem OTA.marker (map fst es)); [|discriminate].
  destruct (OTA.newer self w) as [[|]|]; try discriminate. reflexivity.
Qed.


(** The same for the check at boot: it tests what the installer tests, and
    calls the installer behind the test. *)
Lemma resume_run (self : OTAUpdater) (w : world) :
  OTA.check_for_update_to_install_during_next_reboot self w =
  match Os.names (root w) with
  | None => Raise Py.OSError w
  | Some names =>
      if PyStr.mem (new_version_dir self) names then
        match get (root w) (norm_path (new_version_dir self)) with
        | Some (Dir es) =>
            if PyStr.mem OTA.marker (map fst es) then
              match OTA.newer self w with
              | Some true => (OTA.swap self ;; ret true) w
              | Some false => Ret false w
              | None => Raise Py.TypeError w
              end
            else Ret false w
        | _ => Raise Py.OSError w
        end
      else Ret false w
  end.
Proof.
  unfold OTA.check_for_update_to_install_during_next_reboot, bind at 1,
    Os.listdir0.
  destruct (Os.names (root w)) as [names|] eqn:En; [|reflexivity].
  cbn [of_option ret].
  destruct (PyStr.mem (new_version_dir self) names) eqn:Em; [|reflexivity].
  unfold bind at 1, Os.listdir.
  destruct (get (root w) (norm_path (new_version_dir self))) as [[data|es]|]
    eqn:Eg; try reflexivity.
  destruct (PyStr.mem OTA.marker (map fst es)) eqn:Ek; [|reflexivity].
  unfold bind at 1. rewrite get_version_stored.
  unfold bind at 1. rewrite get_version_stored.
  unfold bind at 1, py_gt. fold (OTA.newer self w).
  destruct (OTA.newer self w) as [[|]|] eqn:Egt; try reflexivity.
  cbn [of_option ret].
  unfold bind at 1. rewrite install_installable; [reflexivity|].
  unfold OTA.installable, OTA.complete. now rewrite En, Eg, Em, Ek, Egt.
Qed.

(** The swap ends in a restart or in an exception; it never returns. *)
Lemma swap_never_returns (self : OTAUpdater) (w w' : world) (u : unit) :
  OTA.swap self w <> Ret u w'.
Proof.
  unfold OTA.swap, bind, machine_reset.
  destruct (OTA.rmtree (main_dir self) w); try discriminate.
  destruct (Os.rename _ _ _); discriminate.
Qed.

(** *** What [rmtree] keeps, whatever its outcome *)

Lemma remove_unlink (q : path) (r r' : node) :
  remove q r = Some r' -> unlink q r = Some r'.
Proof.
  intros H.
  assert (Hq : q <> []) by (destruct q; [discriminate H | discriminate]).
  rewrite (path_snoc q Hq) in *. rewrite remove_snoc in H. rewrite unlink_snoc.
  destruct (with_dir_inv _ _ _ _ H) as (es & es' & Hg & Hf & Hw & _).
  rewrite (with_dir_get _ _ _ _ Hg), <- Hw. f_equal.
  destruct (assoc _ es) as [[|]|]; try discriminate. now injection Hf as <-.
Qed.

Lemma rmdir_unlink (q : path) (r r' : node) :
  rmdir q r = Some r' -> unlink q r = Some r'.
Proof.
  intros H.
  assert (Hq : q <> []) by (destruct q; [discriminate H | discriminate]).
  rewrite (path_snoc q Hq) in *. rewrite rmdir_snoc in H. rewrite unlink_snoc.
  destruct (with_dir_inv _ _ _ _ H) as (es & es' & Hg & Hf & Hw & _).
  rewrite (with_dir_get _ _ _ _ Hg), <- Hw. f_equal.
  destruct (assoc _ es) as [[|[|]]|]; try discriminate. now injection Hf as <-.
Qed.

Lemma swaps_set_root (w : world) (r : node) (e : event) :
  OTA.swaps (set_root w r e) =
  OTA.swaps w + (if OTA.is_rename e then 1 else 0).
Proof.
  unfold OTA.swaps, set_root. cbn [log].
  rewrite filter_app, length_app. simpl. now destruct (OTA.is_rename e).
Qed.

Lemma keeps_refl (w : world) : wf (root w) = true -> OTA.keeps w w.
Proof. unfold OTA.keeps. auto. Qed.

Lemma keeps_trans (w1 w2 w3 : world) :
  OTA.keeps w1 w2 -> OTA.keeps w2 w3 -> OTA.keeps w1 w3.
Proof. unfold OTA.keeps. intros (? & ? & ?) (? & ? & ?). repeat split; congruence. Qed.

Lemma deletion_keeps (f : node -> option node) (e : event) (w : world) :
  wf (root w) = true ->
  (forall r', f (root w) = Some r' -> exists q, unlink q (root w) = Some r') ->
  OTA.is_rename e = false ->
  OTA.keeps w (world_of (Os.change f e w)).
Proof.
  intros Hwf Hf He. unfold Os.change.
  destruct (f (root w)) as [r'|] eqn:E; cbn [world_of]; [|now apply keeps_refl].
  destruct (Hf r' eq_refl) as (q & Hq).
  destruct (unlink_gone q _ _ Hwf Hq) as [Hwf' _].
  unfold OTA.keeps. rewrite swaps_set_root, He. cbn [set_root root server].
  repeat split; auto.
Qed.

Lemma bind_keeps {A B : Type} (m : M A) (k : A -> M B) (w : world) :
  OTA.keeps w (world_of (m w)) ->
  (forall a w', OTA.keeps w w' -> OTA.keeps w' (world_of (k a w'))) ->
  OTA.keeps w (world_of (bind m k w)).
Proof.
  intros Hm Hk. unfold bind.
  destruct (m w) as [a w'|e w'|w']; cbn [world_of] in *; auto.
  apply keeps_trans with w'; auto.
Qed.

Lemma for_each_keeps {A : Type} (body : A -> M unit) (l : list A) :
  (forall x w, wf (root w) = true -> OTA.keeps w (world_of (body x w))) ->
  forall w, wf (root w) = true -> OTA.keeps w (world_of (for_each l body w)).
Proof.
  intros Hb. induction l as [|x r IH]; intros w Hwf.
  - now apply keeps_refl.
  - cbn [for_each]. apply bind_keeps; [now apply Hb|].
    intros _ w' Hk. apply IH. apply Hk.
Qed.

Lemma rmtree_rec_keeps : forall (depth : nat) (d : string) (w : world),
  wf (root w) = true -> OTA.keeps w (world_of (OTA.rmtree_rec depth d w)).
Proof.
  induction depth as [|n IH]; intros d w Hwf; cbn [OTA.rmtree_rec].
  - now apply keeps_refl.
  - apply bind_keeps.
    + unfold Os.ilistdir.
      destruct (get (root w) (norm_path d)) as [[|]|]; now apply keeps_refl.
    + intros entries w1 H1. apply bind_keeps.
      * apply for_each_keeps; [|apply H1].
        intros entry w2 H2. cbv zeta.
        destruct (snd entry =? 16384)%Z; [now apply IH|].
        apply deletion_keeps; auto.
        intros r' Hr'. eauto using remove_unlink.
      * intros _ w2 H2. apply deletion_keeps; auto; [apply H2|].
        intros r' Hr'. eauto using rmdir_unlink.
Qed.

Lemma change_no_restart (f : node -> option node) (e : event) (w w' : world) :
  Os.change f e w <> Reboot w'.
Proof. unfold Os.change. destruct (f (root w)); discriminate. Qed.

Lemma for_each_no_restart {A : Type} (body : A -> M unit) (l : list A) :
  (forall x w w', body x w <> Reboot w') ->
  forall w w', for_each l body w <> Reboot w'.
Proof.
  intros Hb. induction l as [|x r IH]; intros w w'; cbn [for_each].
  - discriminate.
  - unfold bind. specialize (Hb x w).
    destruct (body x w) as [u w1|e w1|w1]; [apply IH | discriminate |].
    exfalso. now apply (Hb w1).
Qed.

(** [rmtree] returns or raises; it does not restart the device. *)
Lemma rmtree_rec_no_restart : forall (depth : nat) (d : string) (w w' : world),
  OTA.rmtree_rec depth d w <> Reboot w'.
Proof.
  induction depth as [|n IH]; intros d w w'; cbn [OTA.rmtree_rec];
    [discriminate|].
  unfold bind at 1, Os.ilistdir.
  destruct (get (root w) (norm_path d)) as [[|es]|]; try discriminate.
  unfold bind.
  match goal with
  | |- match for_each ?l ?b w with _ => _ end <> _ =>
      pose proof (for_each_no_restart b l) as Hl;
      destruct (for_each l b w) as [u w1|e w1|w1] eqn:E
  end.
  - apply change_no_restart.
  - discriminate.
  - exfalso. refine (Hl _ w w1 E).
    intros x w0 w0'. cbv beta zeta.
    destruct (snd x =? 16384)%Z; [apply IH | apply change_no_restart].
Qed.

(** When [rmtree] returns, the directory is gone. *)
Lemma rmtree_rec_gone (depth : nat) (d : string) (w w' : world) :
  wf (root w) = true ->
  OTA.rmtree_rec depth d w = Ret tt w' ->
  get (root w') (norm_path d) = None.
Proof.
  intros Hwf. destruct depth as [|n]; cbn [OTA.rmtree_rec]; [discriminate|].
  unfold bind at 1.
  destruct (Os.ilistdir d w) as [entries w1|e w1|w1] eqn:E1; try discriminate.
  assert (w1 = w) as ->.
  { unfold Os.ilistdir in E1.
    destruct (get (root w) (norm_path d)) as [[|]|]; congruence. }
  unfold bind at 1.
  assert (Hbody : forall (entry : string * Z) (w0 : world),
             wf (root w0) = true ->
             OTA.keeps w0
               (world_of
                  ((fun entry : string * Z =>
                      if (snd entry =? 16384)%Z
                      then OTA.rmtree_rec n (d ++ "/" ++ fst entry)%string
                      else Os.remove (d ++ "/" ++ fst entry)%string) entry w0))).
  { intros entry w0 H0. cbv beta. destruct (snd entry =? 16384)%Z.
    - now apply rmtree_rec_keeps.
    - apply deletion_keeps; auto.
      intros r' Hr'. eauto using remove_unlink. }
  pose proof (for_each_keeps _ entries Hbody w Hwf) as Hk.
  cbv zeta.
  match goal with
  | |- match ?loop with _ => _ end = _ -> _ =>
      destruct loop as [u w2|e w2|w2] eqn:E2; try discriminate
  end.
  assert (Hwf2 : wf (root w2) = true) by apply Hk.
  unfold Os.rmdir, Os.change.
  destruct (rmdir (norm_path d) (root w2)) as [r'|] eqn:E3; [|discriminate].
  intros [= <-]. cbn [set_root root].
  apply rmdir_unlink in E3. now apply (unlink_gone _ _ _ Hwf2 E3).
Qed.

(** *** The rename of the staging directory *)

Lemma wf_names_valid (k : string) (es : entries_t) :
  wf (Dir es) = true -> In k (map fst es) -> valid_name k = true.
Proof.
  intros Hwf Hin. apply assoc_In in Hin. destruct Hin as [m Hm].
  now destruct (wf_assoc k m es Hwf Hm).
Qed.

(** Once the directory named [n] of the root has been renamed to a path
    that was free, the root lists [n] no more. *)
Lemma rename_from_root (n : string) (q : path) (r r1 : node) :
  wf r = true -> get r q = None -> rename [n] q r = Some r1 ->
  exists es1, r1 = Dir es1 /\ ~ In n (map fst es1).
Proof.
  intros Hwf Hq H. destruct q as [|c q']; [discriminate|].
  cbn [rename] in H.
  destruct (get r [n]) as [x|] eqn:Eg; [|discriminate].
  destruct (is_prefix [n] (c :: q')) eqn:Ep.
  - exfalso. cbn [is_prefix] in Ep. rewrite andb_true_r in Ep.
    apply String.eqb_eq in Ep. subst c.
    destruct (is_prefix (n :: q') [n]) eqn:Ep'; [|discriminate].
    cbn [is_prefix] in Ep'. rewrite String.eqb_refl in Ep'.
    destruct q'; [congruence | discriminate].
  - cbn [is_prefix] in Ep. rewrite andb_true_r in Ep.
    apply String.eqb_neq in Ep.
    destruct r as [|es]; [discriminate|].
    cbn [removelast last with_dir option_map] in H.
    pose proof (wf_del_absent n es Hwf) as Hdel.
    destruct q' as [|c2 q''].
    + cbn [removelast last with_dir option_map] in H.
      destruct (assoc c (del_entry n es)) as [[|[|]]|], x; try discriminate;
        injection H as <-; eexists; (split; [reflexivity|]);
        intros Hin; apply In_set_entry in Hin; destruct Hin; auto.
    + change (removelast (c :: c2 :: q'')) with (c :: removelast (c2 :: q'')) in H.
      cbn [with_dir] in H.
      destruct (assoc c (del_entry n es)) as [m|] eqn:Ec; [|discriminate].
      destruct (with_dir _ _ m) as [m'|]; [|discriminate].
      injection H as <-. eexists. split; [reflexivity|].
      now rewrite (names_set_present c m' m _ Ec).
Qed.

(** The swap, when it ends in a restart: one rename more, and a root
    that lists the staging directory no more. *)
Lemma swap_restart (self : OTAUpdater) (w w1 : world) :
  wf (root w) = true ->
  In (new_version_dir self) (match Os.names (root w) with
                             | Some names => names
                             | None => []
                             end) ->
  OTA.swap self w = Reboot w1 ->
  OTA.swaps w1 = S (OTA.swaps w) /\
  server w1 = server w /\
  exists es1, root w1 = Dir es1 /\ ~ In (new_version_dir self) (map fst es1).
Proof.
  intros Hwf Hin. unfold OTA.swap, bind at 1.
  pose proof (rmtree_rec_keeps (height (root w)) (main_dir self) w Hwf) as Hk.
  pose proof (rmtree_rec_gone (height (root w)) (main_dir self) w) as Hg.
  pose proof (rmtree_rec_no_restart (height (root w)) (main_dir self) w) as Hr.
  fold (OTA.rmtree (main_dir self) w) in Hk, Hg, Hr.
  destruct (OTA.rmtree (main_dir self) w) as [u wr|e wr|wr]; try discriminate;
    [|now destruct (Hr wr)].
  destruct u. specialize (Hg wr Hwf eq_refl).
  destruct Hk as (Hwfr & Hsrv & Hsw). cbn [world_of] in *.
  unfold bind, Os.rename, Os.change, machine_reset.
  destruct (rename _ _ (root wr)) as [r1|] eqn:Er; [|discriminate].
  intros [= <-]. rewrite swaps_set_root. cbn [OTA.is_rename set_root root server].
  split; [lia|]. split; [assumption|].
  assert (Hn : valid_name (new_version_dir self) = true).
  { destruct (root w) as [|es]; [destruct Hin|].
    now apply (wf_names_valid _ es). }
  rewrite (norm_path_name _ Hn) in Er.
  now apply (rename_from_root _ _ _ _ Hwfr Hg Er).
Qed.

End OtaFacts.

(** ** The swap on a flash with both directories in the root *)

Module SwapFacts.

Import Fs FsFacts RmtreeFacts OtaFacts.
#[local] Open Scope list_scope.

Lemma height_assoc (k : string) (m : node) (es : entries_t) :
  assoc k es = Some m -> height m < height (Dir es).
Proof.
  induction es as [|[k' v'] r IH]; simpl assoc; [discriminate|].
  rewrite height_cons. cbn [snd].
  destruct (String.eqb k k'); [intros [= ->]; lia|].
  intros H. specialize (IH H). lia.
Qed.

Lemma assoc_del_other (k k' : string) (es : entries_t) :
  k <> k' -> assoc k (del_entry k' es) = assoc k es.
Proof.
  intros Hne. induction es as [|[k2 v2] r IH]; [reflexivity|].
  simpl. destruct (String.eqb k' k2) eqn:E.
  - apply String.eqb_eq in E. subst k2.
    apply String.eqb_neq in Hne. now rewrite Hne.
  - simpl. now rewrite IH.
Qed.

Lemma root_is_dir (p : path) (r : node) (es : entries_t) :
  get r p = Some (Dir es) -> exists es0, r = Dir es0.
Proof.
  destruct r as [data|es0]; [|eauto].
  destruct p; simpl; discriminate.
Qed.

Lemma height_get (p : path) : forall (r m : node),
  get r p = Some m -> height m <= height r.
Proof.
  induction p as [|c q IH]; intros r m H; simpl in H.
  - injection H as <-. lia.
  - destruct r as [|es]; [discriminate|].
    destruct (assoc c es) as [x|] eqn:E; [|discriminate].
    specialize (IH x m H). pose proof (height_assoc c x es E). lia.
Qed.

(** [rmtree] on any directory of a well-formed flash. *)
Lemma rmtree_ok (d : string) (es : entries_t) (w : world) :
  wf (root w) = true ->
  norm_path d <> [] ->
  get (root w) (norm_path d) = Some (Dir es) ->
  exists r',
    OTA.rmtree d w =
      Ret tt (mkWorld r' (server w) (log w ++ OTA.post_order d es)) /\
    unlink (norm_path d) (root w) = Some r' /\
    wf r' = true /\
    get r' (norm_path d) = None.
Proof.
  intros Hwf Hne Hg. unfold OTA.rmtree.
  destruct (rmtree_rec_ok (height (root w)) d es w Hne Hg) as (r' & Hu & Hr).
  - now apply (wf_get _ _ _ Hwf Hg).
  - now apply (height_get (norm_path d)).
  - exists r'. destruct (unlink_gone _ _ _ Hwf Hu). auto.
Qed.

(** The state the swap starts from: the root lists the active directory
    [main_dir] and the staging directory [new_version_dir], two different
    names. *)
Section Swap.

Variable self : OTAUpdater.
Variable w : world.
Variables es old staging : entries_t.

Hypothesis Hroot : root w = Dir es.
Hypothesis Hwf : wf (Dir es) = true.
Hypothesis Hmain : assoc (main_dir self) es = Some (Dir old).
Hypothesis Hnext : assoc (new_version_dir self) es = Some (Dir staging).
Hypothesis Hdiff : main_dir self <> new_version_dir self.

Lemma rmtree_main :
  OTA.rmtree (main_dir self) w =
  Ret tt (mkWorld (Dir (del_entry (main_dir self) es)) (server w)
            (log w ++ OTA.post_order (main_dir self) old)).
Proof.
  destruct (wf_assoc _ _ _ Hwf Hmain) as [Hold Hm].
  unfold OTA.rmtree.
  destruct (rmtree_rec_ok (height (root w)) (main_dir self) old w)
    as (r' & Hu & Hr).
  - rewrite (norm_path_name _ Hm). discriminate.
  - rewrite (norm_path_name _ Hm), Hroot. simpl. now rewrite Hmain.
  - exact Hold.
  - rewrite Hroot. apply Nat.lt_le_incl. now apply (height_assoc (main_dir self)).
  - rewrite Hr. rewrite (norm_path_name _ Hm), Hroot in Hu.
    cbn in Hu. now injection Hu as <-.
Qed.

Lemma swap_ok :
  OTA.swap self w =
  Reboot (mkWorld
             (Dir (set_entry (main_dir self) (Dir staging)
                     (del_entry (new_version_dir self)
                        (del_entry (main_dir self) es))))
             (server w)
             (log w ++ OTA.post_order (main_dir self) old
                ++ [FsRename (new_version_dir self) (main_dir self)])).
Proof.
  destruct (wf_assoc _ _ _ Hwf Hmain) as [Hold Hm].
  destruct (wf_assoc _ _ _ Hwf Hnext) as [Hstg Hn].
  unfold OTA.swap. erewrite bind_ret by apply rmtree_main.
  unfold bind, Os.rename, machine_reset.
  erewrite change_ok.
  - unfold set_root. cbn [root server log]. now rewrite <- app_assoc.
  - cbn [root]. rewrite (norm_path_name _ Hm), (norm_path_name _ Hn).
    cbn [rename get].
    rewrite (assoc_del_other _ _ _ (not_eq_sym Hdiff)), Hnext.
    cbn [is_prefix]. apply not_eq_sym, String.eqb_neq in Hdiff as Hb.
    rewrite Hb. cbn [andb removelast last with_dir option_map].
    assert (Hfree : assoc (main_dir self)
                      (del_entry (new_version_dir self)
                         (del_entry (main_dir self) es)) = None).
    { apply assoc_None. intros Hin. apply In_del_entry in Hin.
      now apply (wf_del_absent (main_dir self) es Hwf). }
    now rewrite Hfree.
Qed.

(** After the swap the active directory is the former staging directory,
    and the staging directory is gone. *)
Lemma swap_result (r' : node) :
  r' = Dir (set_entry (main_dir self) (Dir staging)
              (del_entry (new_version_dir self)
                 (del_entry (main_dir self) es))) ->
  get r' [main_dir self] = Some (Dir staging) /\
  get r' [new_version_dir self] = None.
Proof.
  intros ->. cbn [get]. rewrite assoc_set_same. split; [reflexivity|].
  rewrite assoc_set_other by (now apply not_eq_sym).
  assert (H : assoc (new_version_dir self)
                (del_entry (new_version_dir self)
                   (del_entry (main_dir self) es)) = None).
  { apply assoc_None, wf_del_absent. now apply wf_del. }
  now rewrite H.
Qed.

End Swap.

(** The installer on that state, with a staging marker that is listed and
    holds a greater version than the active one. *)
Lemma install_swaps (self : OTAUpdater) (w : world) (v1 v2 : string)
      (es old staging : entries_t) :
  PyStr.gt v2 v1 = true ->
  OTA.get_version (version_file self) w = Ret (JStr v1) w ->
  OTA.get_version (OTA.staging_marker self) w = Ret (JStr v2) w ->
  root w = Dir es -> wf (Dir es) = true ->
  assoc (main_dir self) es = Some (Dir old) ->
  assoc (new_version_dir self) es = Some (Dir staging) ->
  PyStr.mem OTA.marker (map fst staging) = true ->
  main_dir self <> new_version_dir self ->
  OTA.install_update_if_available self w =
  Reboot (mkWorld
             (Dir (set_entry (main_dir self) (Dir staging)
                     (del_entry (new_version_dir self)
                        (del_entry (main_dir self) es))))
             (server w)
             (log w ++ OTA.post_order (main_dir self) old
                ++ [FsRename (new_version_dir self) (main_dir self)])).
Proof.
  intros Hgt Ha Hs Hroot Hwf Hmain Hnext Hmark Hdiff.
  rewrite get_version_stored in Ha, Hs.
  injection Ha as Ha. injection Hs as Hs.
  destruct (wf_assoc _ _ _ Hwf Hnext) as [_ Hn].
  rewrite install_installable.
  - now apply (swap_ok self w es old staging).
  - unfold OTA.installable, OTA.complete, OTA.newer.
    rewrite Ha, Hs, Hroot, (norm_path_name _ Hn). cbn.
    rewrite Hnext, Hmark, Hgt, !andb_true_r.
    apply mem_In, assoc_In. eauto.
Qed.


End SwapFacts.

(** ** Version documents *)

Module JsonFacts.

Import Json.

Lemma append_assoc (a b c : string) : (a ++ b) ++ c = a ++ (b ++ c).
Proof. induction a as [|x a IH]; simpl; [reflexivity | now rewrite IH]. Qed.

(** One character of a string literal is read back as it was written. *)
Lemma parse_escape_char (c : ascii) (x : string) :
  parse_str_body (escape_char c ++ x) =
  match parse_str_body x with
  | Some (t, rest) => Some (String c t, rest)
  | None => None
  end.
Proof.
  destruct c as [[|] [|] [|] [|] [|] [|] [|] [|]]; reflexivity.
Qed.

Lemma parse_escape (t rest : string) :
  parse_str_body (escape t ++ String dq rest) = Some (t, rest).
Proof.
  induction t as [|c t IH]; [reflexivity|].
  cbn [escape]. rewrite append_assoc, parse_escape_char.
  now rewrite IH.
Qed.

(** The text of a version document, character by character. *)
Lemma dumps_version (t : string) :
  dumps (JObj [("version", JStr t)]) =
  String "{" (String dq ("version" ++ String dq (String ":" (String " "
    (String dq (escape t ++ String dq (String "}" EmptyString))))))).
Proof.
  cbn. unfold dumps_str. cbn. now rewrite !append_assoc.
Qed.

Lemma parse_version (k : nat) (t : string) :
  parse_value (S (S (S k))) (dumps (JObj [("version", JStr t)])) =
  Some (JObj [("version", JStr t)], EmptyString).
Proof.
  rewrite dumps_version.
  cbn -[parse_str_body escape].
  change (parse_str_body
            (String "v" (String "e" (String "r" (String "s" (String "i"
               (String "o" (String "n" (String dq ?x)))))))))
    with (match parse_str_body (String dq x) with
          | Some (t0, rest) => Some (("version" ++ t0)%string, rest)
          | None => None
          end).
  change (parse_str_body (String dq ?x)) with (Some (EmptyString, x)).
  cbn -[parse_str_body escape].
  change (parse_str_body (escape t ++ ?x))
    with (parse_str_body (escape t ++ x)).
  rewrite parse_escape. reflexivity.
Qed.

(** A version document is read back as it was written. *)
Lemma loads_dumps_version (t : string) :
  loads (dumps (JObj [("version", JStr t)])) = Some (JObj [("version", JStr t)]).
Proof.
  unfold loads.
  assert (H : exists k,
             String.length (dumps (JObj [("version", JStr t)])) = S k).
  { rewrite dumps_version. cbn. eauto. }
  destruct H as [k ->]. cbn [Nat.add]. now rewrite parse_version.
Qed.

End JsonFacts.

(** ** Writing the staging marker *)

Module MarkerFacts.

Import Fs FsFacts RmtreeFacts OtaFacts.
#[local] Open Scope list_scope.

(** What was written to a file is what the file holds. *)
Lemma write_get (p : path) (data : string) (r r' : node) :
  write p data r = Some r' -> get r' p = Some (File data).
Proof.
  intros H.
  assert (Hp : p <> []) by (destruct p; [discriminate H | discriminate]).
  rewrite (path_snoc p Hp) in *. rewrite write_snoc in H.
  destruct (with_dir_inv _ _ _ _ H) as (es & es' & _ & Hf & _ & Hg).
  rewrite (get_snoc_dir _ _ _ _ Hg).
  destruct (assoc _ es) as [[|]|]; try discriminate;
    injection Hf as <-; apply assoc_set_same.
Qed.

Lemma marker_valid : valid_name OTA.marker = true.
Proof. reflexivity. Qed.

Lemma create_version_file_inv (self : OTAUpdater) (version : json)
      (w w' : world) :
  OTA.create_version_file self version w = Ret tt w' ->
  get (root w') (norm_path (OTA.staging_marker self)) =
    Some (File (Json.dumps (JObj [("version", version)]))) /\
  server w' = server w /\
  exists r1,
    log w' = log w ++ [FsMakedirs (new_version_dir self);
                       FsWrite (OTA.staging_marker self)] /\
    mkdirs (norm_path (new_version_dir self)) (root w) = Some r1 /\
    write (norm_path (OTA.staging_marker self))
      (Json.dumps (JObj [("version", version)])) r1 = Some (root w').
Proof.
  unfold OTA.create_version_file, bind, Os.makedirs, Os.write, Os.change.
  destruct (mkdirs _ (root w)) as [r1|] eqn:E1; [|discriminate].
  cbn [set_root root].
  destruct (write _ _ r1) as [r2|] eqn:E2; [|discriminate].
  intros [= <-]. cbn [set_root root server log].
  split; [now apply (write_get _ _ r1)|]. split; [reflexivity|].
  exists r1. rewrite <- app_assoc. auto.
Qed.

(** The marker can be written when the staging directory is a free name of
    the root, or a directory of the root with no directory named as the
    marker. *)
Lemma create_version_file_ok (self : OTAUpdater) (version : json) (w : world)
      (es : entries_t) :
  root w = Dir es ->
  valid_name (new_version_dir self) = true ->
  (assoc (new_version_dir self) es = None \/
   exists st, assoc (new_version_dir self) es = Some (Dir st) /\
              forall sub, assoc OTA.marker st <> Some (Dir sub)) ->
  exists w', OTA.create_version_file self version w = Ret tt w'.
Proof.
  intros Hroot Hn Hfree.
  unfold OTA.create_version_file, bind, Os.makedirs, Os.write, Os.change.
  unfold OTA.staging_marker.
  rewrite (norm_path_child _ _ marker_valid), (norm_path_name _ Hn), Hroot.
  change (mkdirs [new_version_dir self] (Dir es))
    with (match mkdirs [] (match assoc (new_version_dir self) es with
                           | Some m => m
                           | None => Dir []
                           end) with
          | Some m' => Some (Dir (set_entry (new_version_dir self) m' es))
          | None => None
          end).
  assert (Hm : exists st,
             mkdirs [] (match assoc (new_version_dir self) es with
                        | Some m => m
                        | None => Dir []
                        end) = Some (Dir st) /\
             forall sub, assoc OTA.marker st <> Some (Dir sub)).
  { destruct Hfree as [->|(st & -> & Hst)].
    - exists []. split; [reflexivity | discriminate].
    - exists st. split; [reflexivity | assumption]. }
  destruct Hm as (st & -> & Hst).
  cbn [set_root root]. rewrite write_snoc.
  cbn [with_dir]. rewrite assoc_set_same. cbn [with_dir option_map].
  destruct (assoc OTA.marker st) as [[|sub]|] eqn:E; cbn [option_map]; eauto.
  now destruct (Hst sub).
Qed.

(** The marker written with a str token reads back as that token. *)
Lemma marker_reads_back (self : OTAUpdater) (T : string) (w w' : world) :
  OTA.create_version_file self (JStr T) w = Ret tt w' ->
  OTA.get_version (OTA.staging_marker self) w' = Ret (JStr T) w'.
Proof.
  intros Hc. destruct (create_version_file_inv _ _ _ _ Hc) as (Hg & _).
  rewrite get_version_stored. unfold OTA.stored_version.
  now rewrite Hg, JsonFacts.loads_dumps_version.
Qed.

End MarkerFacts.

(** ** The staged download *)

Module DownloadFacts.

Import Fs FsFacts RmtreeFacts OtaFacts.
#[local] Open Scope list_scope.

Lemma download_file_run (self : OTAUpdater) (f : string) (w : world) :
  OTA.download_file self (JStr f) w =
  match server w (OTA.file_url self f) with
  | None => Raise Py.OSError (add_event w (HttpGet (OTA.file_url self f)))
  | Some r =>
      if (status_code r =? 200)%Z then
        (Os.makedirs (new_version_dir self ++ "/" ++ PyStr.dirname f)%string ;;
         Os.write (new_version_dir self ++ "/" ++ f)%string (text r))
          (add_event w (HttpGet (OTA.file_url self f)))
      else Ret tt (add_event w (HttpGet (OTA.file_url self f)))
  end.
Proof.
  unfold OTA.download_file. unfold bind at 1, requests_get.
  destruct (server w _) as [r|]; [|reflexivity].
  destruct (status_code r =? 200)%Z; reflexivity.
Qed.



Lemma get_file_list_run (self : OTAUpdater) (w : world) (r : response)
      (doc : json) :
  server w (OTA.file_list_url self) = Some r ->
  Json.loads (text r) = Some doc ->
  OTA.get_file_list self w =
  Ret doc (add_event w (HttpGet (OTA.file_list_url self))).
Proof.
  intros Hs Hl. unfold OTA.get_file_list, bind, requests_get. rewrite Hs.
  unfold response_json. now rewrite Hl.
Qed.

End DownloadFacts.

(** ** The download stays in the staging directory *)

Module StagingFacts.

Import Fs FsFacts RmtreeFacts OtaFacts Effects.
#[local] Open Scope list_scope.

(** *** The components of [dirname] *)

Lemma split_two (s : string) :
  PyStr.has_char "/" s = true ->
  exists h0 h1 t, PyStr.split_slash s = h0 :: h1 :: t.
Proof.
  induction s as [|c r IH]; [discriminate|].
  cbn [PyStr.has_char PyStr.split_slash]. rewrite (Ascii.eqb_sym c "/").
  destruct (Ascii.eqb "/" c) eqn:E; cbn [orb].
  - intros _. pose proof (split_slash_nonempty r) as Hne.
    destruct (PyStr.split_slash r) as [|h t]; [congruence | eauto].
  - intros H. destruct (IH H) as (h0 & h1 & t & ->). eauto.
Qed.

Lemma head_no_slash (s : string) :
  PyStr.has_char "/" s = false -> PyStr.head_upto_slash s = EmptyString.
Proof.
  destruct s as [|c r]; [reflexivity|].
  cbn [PyStr.head_upto_slash]. now intros ->.
Qed.

(** The head up to the last slash has the components of the path but the
    last one, and an empty one after them. *)
Lemma split_head (s : string) :
  PyStr.has_char "/" s = true ->
  PyStr.split_slash (PyStr.head_upto_slash s) =
  removelast (PyStr.split_slash s) ++ [EmptyString].
Proof.
  induction s as [|c r IH]; [discriminate|].
  intros Hs. cbn [PyStr.head_upto_slash]. rewrite Hs.
  cbn [PyStr.split_slash].
  cbn [PyStr.has_char] in Hs. rewrite (Ascii.eqb_sym "/" c) in Hs.
  destruct (Ascii.eqb c "/") eqn:E; cbn [orb] in Hs.
  - destruct (PyStr.has_char "/" r) eqn:Hr.
    + rewrite (IH eq_refl).
      destruct (split_two r Hr) as (h0 & h1 & t & ->). reflexivity.
    + rewrite (head_no_slash r Hr), (split_slash_plain r Hr). reflexivity.
  - rewrite (IH Hs).
    destruct (split_two r Hs) as (h0 & h1 & t & ->). reflexivity.
Qed.

Lemma rstrip_nil_head (s : string) :
  PyStr.rstrip_slash s = EmptyString ->
  exists t, PyStr.split_slash s = EmptyString :: t.
Proof.
  destruct s as [|c r]; [now exists []|].
  cbn [PyStr.rstrip_slash PyStr.split_slash].
  destruct (PyStr.rstrip_slash r); [|discriminate].
  destruct (Ascii.eqb c "/"); [eauto | discriminate].
Qed.

(** What [rstrip('/')] leaves has the first components of the str. *)
Lemma split_rstrip (s : string) :
  PyStr.rstrip_slash s <> EmptyString ->
  exists t, PyStr.split_slash s = PyStr.split_slash (PyStr.rstrip_slash s) ++ t.
Proof.
  induction s as [|c r IH]; [intros H; exfalso; now apply H|].
  destruct (string_dec (PyStr.rstrip_slash r) EmptyString) as [Er|Er].
  - cbn [PyStr.rstrip_slash]. rewrite Er.
    destruct (Ascii.eqb c "/") eqn:E; [intros H; exfalso; now apply H|].
    intros _. destruct (rstrip_nil_head r Er) as [t Ht].
    exists t. cbn [PyStr.split_slash]. now rewrite E, Ht.
  - assert (Hr : PyStr.rstrip_slash (String c r)
                 = String c (PyStr.rstrip_slash r)).
    { cbn [PyStr.rstrip_slash].
      destruct (PyStr.rstrip_slash r); [now contradiction Er | reflexivity]. }
    rewrite Hr. intros _. destruct (IH Er) as [t Ht].
    exists t. cbn [PyStr.split_slash]. rewrite Ht.
    destruct (Ascii.eqb c "/"); [reflexivity|].
    pose proof (split_slash_nonempty (PyStr.rstrip_slash r)) as Hne.
    destruct (PyStr.split_slash (PyStr.rstrip_slash r));
      [now contradiction Hne | reflexivity].
Qed.

Lemma In_removelast {A : Type} (x : A) (l : list A) :
  In x (removelast l) -> In x l.
Proof.
  induction l as [|y l IH]; [auto|].
  cbn [removelast]. destruct l; [intros []|].
  intros [H|H]; [now left | right; now apply IH].
Qed.

Lemma plain_dirname (file : string) :
  plain file = true -> plain (PyStr.dirname file) = true.
Proof.
  unfold plain. rewrite !negb_true_iff, !mem_false. intros Hf.
  assert (Hh : ~ In ".." (PyStr.split_slash (PyStr.head_upto_slash file))).
  { destruct (PyStr.has_char "/" file) eqn:Hs.
    - rewrite (split_head file Hs). intros Hin. apply in_app_or in Hin.
      destruct Hin as [Hin|[Hin|[]]]; [|discriminate].
      now apply Hf, In_removelast.
    - rewrite (head_no_slash file Hs). intros [H|[]]. discriminate. }
  unfold PyStr.dirname.
  destruct (PyStr.rstrip_slash (PyStr.head_upto_slash file)) as [|d r] eqn:Er;
    [assumption|].
  destruct (split_rstrip (PyStr.head_upto_slash file)) as [t Ht];
    [rewrite Er; discriminate|].
  rewrite Er in Ht. intros Hin. apply Hh. rewrite Ht. apply in_or_app. now left.
Qed.

(** *** Paths below the staging directory *)

Lemma norm_fold_plain (cs : list string) : forall acc : path,
  ~ In ".." cs ->
  fold_left norm_step cs acc = acc ++ fold_left norm_step cs [].
Proof.
  induction cs as [|c cs IH]; intros acc Hn.
  - cbn. now rewrite app_nil_r.
  - cbn [fold_left].
    assert (Hc : norm_step acc c = acc ++ norm_step [] c).
    { unfold norm_step.
      destruct (String.eqb c EmptyString); [now rewrite app_nil_r|].
      destruct (String.eqb c "."); [now rewrite app_nil_r|].
      destruct (String.eqb c "..") eqn:E; [|reflexivity].
      apply String.eqb_eq in E. subst. exfalso. apply Hn. now left. }
    assert (Hcs : ~ In ".." cs) by (intros H; apply Hn; now right).
    rewrite Hc, (IH (acc ++ norm_step [] c) Hcs), (IH (norm_step [] c) Hcs).
    now rewrite app_assoc.
Qed.

Lemma norm_path_under (n x : string) :
  valid_name n = true -> plain x = true ->
  norm_path (n ++ "/" ++ x)%string = n :: norm_path x.
Proof.
  intros Hn Hx. unfold plain in Hx. rewrite negb_true_iff, mem_false in Hx.
  unfold norm_path. rewrite split_slash_app, fold_left_app.
  fold (norm_path n). rewrite (norm_path_name n Hn).
  now rewrite (norm_fold_plain _ [n] Hx).
Qed.

(** *** What a call below the entry [n] of the root leaves alone *)

Lemma get_set_other (k n : string) (m : node) (es : entries_t) :
  k <> n -> get (Dir (set_entry n m es)) [k] = get (Dir es) [k].
Proof. intros H. cbn [get]. now rewrite assoc_set_other. Qed.

Lemma mkdirs_under (n : string) (q : path) (r r' : node) (k : string) :
  mkdirs (n :: q) r = Some r' -> k <> n -> get r' [k] = get r [k].
Proof.
  destruct r as [|es]; [discriminate|]. cbn [mkdirs].
  destruct (mkdirs q _) as [m'|]; [|discriminate].
  intros [= <-] H. now apply get_set_other.
Qed.

Lemma write_under (n : string) (q : path) (data : string) (r r' : node)
      (k : string) :
  write (n :: q) data r = Some r' -> k <> n -> get r' [k] = get r [k].
Proof.
  unfold write. destruct r as [|es]; [now destruct q|].
  destruct q as [|c q].
  - cbn [removelast last with_dir option_map].
    destruct (assoc n es) as [[|]|]; try discriminate;
      intros [= <-] H; now apply get_set_other.
  - change (removelast (n :: c :: q)) with (n :: removelast (c :: q)).
    cbn [with_dir]. destruct (assoc n es) as [m|]; [|discriminate].
    destruct (with_dir _ _ m) as [m'|]; [|discriminate].
    intros [= <-] H. now apply get_set_other.
Qed.

Lemma outside_refl (n : string) (w : world) : same_outside n w w.
Proof. intros k _. reflexivity. Qed.

Lemma outside_trans (n : string) (w1 w2 w3 : world) :
  same_outside n w1 w2 -> same_outside n w2 w3 -> same_outside n w1 w3.
Proof. intros H1 H2 k Hk. now rewrite (H2 k Hk), (H1 k Hk). Qed.

Lemma outside_add_event (n : string) (w : world) (e : event) :
  same_outside n w (add_event w e).
Proof. intros k _. reflexivity. Qed.

Lemma change_outside (n : string) (f : node -> option node) (e : event)
      (w : world) :
  (forall r' k, f (root w) = Some r' -> k <> n ->
                get r' [k] = get (root w) [k]) ->
  same_outside n w (world_of (Os.change f e w)).
Proof.
  intros H. unfold Os.change. destruct (f (root w)) as [r'|] eqn:E;
    cbn [world_of]; [|apply outside_refl].
  intros k Hk. cbn [set_root root]. now apply H.
Qed.

Lemma bind_outside {A B : Type} (n : string) (m : M A) (k : A -> M B)
      (w : world) :
  same_outside n w (world_of (m w)) ->
  (forall a w', same_outside n w' (world_of (k a w'))) ->
  same_outside n w (world_of (bind m k w)).
Proof.
  intros Hm Hk. unfold bind.
  destruct (m w) as [a w'|e w'|w']; cbn [world_of] in *; auto.
  apply outside_trans with w'; auto.
Qed.

Section Staging.

Variable self : OTAUpdater.
Hypothesis Hname : valid_name (new_version_dir self) = true.

Lemma download_file_outside (file : string) (w : world) :
  plain file = true ->
  same_outside (new_version_dir self) w
    (world_of (OTA.download_file self (JStr file) w)).
Proof.
  intros Hp. rewrite DownloadFacts.download_file_run.
  destruct (server w _) as [r|]; [|apply outside_add_event].
  destruct (status_code r =? 200)%Z; [|apply outside_add_event].
  apply outside_trans with (add_event w (HttpGet (OTA.file_url self file)));
    [apply outside_add_event|].
  apply bind_outside.
  - apply change_outside. intros r' k Hr Hk.
    rewrite (norm_path_under _ _ Hname (plain_dirname _ Hp)) in Hr.
    now apply (mkdirs_under _ _ _ _ _ Hr).
  - intros _ w'. apply change_outside. intros r' k Hr Hk.
    rewrite (norm_path_under _ _ Hname Hp) in Hr.
    now apply (write_under _ _ _ _ _ _ Hr).
Qed.

Lemma create_version_file_outside (version : json) (w : world) :
  same_outside (new_version_dir self) w
    (world_of (OTA.create_version_file self version w)).
Proof.
  unfold OTA.create_version_file. apply bind_outside.
  - apply change_outside. intros r' k Hr Hk.
    rewrite (norm_path_name _ Hname) in Hr.
    now apply (mkdirs_under _ _ _ _ _ Hr).
  - intros _ w'. apply change_outside. intros r' k Hr Hk.
    unfold OTA.staging_marker in Hr.
    rewrite (norm_path_under _ OTA.marker Hname eq_refl) in Hr.
    now apply (write_under _ _ _ _ _ _ Hr).
Qed.

Lemma for_each_outside (manifest : list string) :
  forallb plain manifest = true ->
  forall w,
    same_outside (new_version_dir self) w
      (world_of (for_each (map JStr manifest) (OTA.download_file self) w)).
Proof.
  induction manifest as [|f rest IH]; intros Hp w.
  - apply outside_refl.
  - cbn in Hp. apply andb_true_iff in Hp. destruct Hp as [Hf Hr].
    cbn [map for_each]. apply bind_outside.
    + now apply download_file_outside.
    + intros _ w'. now apply IH.
Qed.

Lemma download_all_files_outside (version : json) (manifest : list string)
      (r : response) (w : world) :
  server w (OTA.file_list_url self) = Some r ->
  Json.loads (text r) = Some (JArr (map JStr manifest)) ->
  forallb plain manifest = true ->
  same_outside (new_version_dir self) w
    (world_of (OTA.download_all_files self version w)).
Proof.
  intros Hs Hl Hp. unfold OTA.download_all_files, bind at 1.
  rewrite (DownloadFacts.get_file_list_run self w r _ Hs Hl).
  unfold bind at 1. cbn [Py.iter of_option ret].
  apply outside_trans with (add_event w (HttpGet (OTA.file_list_url self)));
    [apply outside_add_event|].
  apply bind_outside.
  - now apply for_each_outside.
  - intros _ w'. apply create_version_file_outside.
Qed.

End Staging.

End StagingFacts.

(** ** Two calls of the check at boot *)

Module ResumeFacts.

Import Fs FsFacts RmtreeFacts OtaFacts.
#[local] Open Scope list_scope.

(** The swap on a well-formed flash: it does not return; when it raises no
    rename was made; when it restarts the device one rename was made. *)
Lemma swap_outcome (self : OTAUpdater) (w : world) :
  wf (root w) = true ->
  match OTA.swap self w with
  | Ret _ _ => False
  | Raise _ w' => OTA.swaps w' = OTA.swaps w /\ wf (root w') = true
  | Reboot w' => OTA.swaps w' = S (OTA.swaps w)
  end.
Proof.
  intros Hwf. unfold OTA.swap, OTA.rmtree. unfold bind at 1.
  pose proof (rmtree_rec_keeps (height (root w)) (main_dir self) w Hwf) as Hk.
  pose proof (rmtree_rec_no_restart (height (root w)) (main_dir self) w) as Hn.
  destruct (OTA.rmtree_rec (height (root w)) (main_dir self) w)
    as [u w2|e w2|w2]; cbn [world_of] in Hk;
    destruct Hk as (Hwf2 & _ & Hsw).
  - unfold bind, Os.rename, Os.change.
    destruct (rename _ _ (root w2)) as [r'|]; [|now split].
    unfold machine_reset. rewrite swaps_set_root, Hsw. cbn [OTA.is_rename]. lia.
  - now split.
  - now destruct (Hn w2).
Qed.

(** One call of the check at boot on a well-formed flash. *)
Lemma resume_outcome (self : OTAUpdater) (w : world) :
  wf (root w) = true ->
  match OTA.check_for_update_to_install_during_next_reboot self w with
  | Ret b w' => b = false /\ w' = w
  | Raise _ w' => OTA.swaps w' = OTA.swaps w /\ wf (root w') = true
  | Reboot w' =>
      OTA.swaps w' = S (OTA.swaps w) /\
      OTA.check_for_update_to_install_during_next_reboot self w' = Ret false w'
  end.
Proof.
  intros Hwf. rewrite resume_run.
  destruct (Os.names (root w)) as [names|] eqn:En; [|now split].
  destruct (PyStr.mem (new_version_dir self) names) eqn:Em; [|now split].
  destruct (get (root w) (norm_path (new_version_dir self)))
    as [[data|es]|]; try now split.
  destruct (PyStr.mem OTA.marker (map fst es)); [|now split].
  destruct (OTA.newer self w) as [[|]|]; try now split.
  unfold bind.
  pose proof (swap_outcome self w Hwf) as Ho.
  pose proof (swap_restart self w) as Hr.
  destruct (OTA.swap self w) as [u w2|e w2|w2]; [contradiction|exact Ho|].
  split; [exact Ho|].
  destruct (Hr w2 Hwf) as (_ & _ & es1 & Hr1 & Hnin); [|reflexivity|].
  - rewrite En. now apply mem_In.
  - rewrite resume_run, Hr1. cbn [Os.names].
    apply mem_false in Hnin. now rewrite Hnin.
Qed.

(** A complete staging directory with a greater version and no active
    directory: the delete of the active directory raises at its listing,
    before anything is changed. *)
Lemma resume_without_active_directory (self : OTAUpdater) (w : world) :
  OTA.installable self w = true ->
  (forall es, get (root w) (norm_path (main_dir self)) <> Some (Dir es)) ->
  OTA.check_for_update_to_install_during_next_reboot self w
  = Raise Py.OSError w.
Proof.
  intros Hi Hm. rewrite resume_run.
  unfold OTA.installable, OTA.complete in Hi.
  destruct (root w) as [data|es0] eqn:Hroot; [discriminate Hi|].
  cbn [Os.names] in *.
  destruct (get (Dir es0) (norm_path (new_version_dir self)))
    as [[data|es]|]; try discriminate Hi.
  apply andb_true_iff in Hi. destruct Hi as [Hc Hn].
  apply andb_true_iff in Hc. destruct Hc as [-> ->].
  destruct (OTA.newer self w) as [[|]|]; try discriminate Hn.
  unfold bind, OTA.swap, bind, OTA.rmtree. rewrite Hroot.
  change (height (Dir es0)) with
    (S ((fix height_entries (es : entries_t) : nat :=
           match es with
           | [] => 0
           | e :: r => Nat.max (height (snd e)) (height_entries r)
           end) es0)).
  cbn [OTA.rmtree_rec]. unfold bind at 1, Os.ilistdir. rewrite Hroot.
  destruct (get (Dir es0) (norm_path (main_dir self))) as [[data|es1]|];
    try reflexivity.
  now destruct (Hm es1).
Qed.

End ResumeFacts.

(** ** A download cycle that is cut short, or that skips files *)

Module CycleFacts.

Import Fs FsFacts RmtreeFacts OtaFacts MarkerFacts DownloadFacts StagingFacts.
Import Effects.
#[local] Open Scope list_scope.



(** *** The marker and the files of the manifest *)






Section At.

(** What a call leaves at the path [q]. *)
Variable q : path.



End At.

Section Cycle.

Variable self : OTAUpdater.
Hypothesis Hname : valid_name (new_version_dir self) = true.




(** *** Files stored beside files skipped *)




End Cycle.

End CycleFacts.

(** * The claims *)

(** ** Reading a version marker *)

(** C7. [get_version] is total and never raises: for every path and every
    state of the flash it returns, and leaves the world as it was.  When the
    file cannot be read, when its text is not a JSON document, and when the
    document has no field [version], what it returns is the minimum token
    [0.0.0]; otherwise it is the field. *)
Theorem get_version_total (file : string) (w : world) :
  (exists v, OTA.get_version file w = Ret v w) /\
  (forall e w', Os.read file w = Raise e w' ->
                OTA.get_version file w = Ret OTA.min_version w) /\
  (forall data, Os.read file w = Ret data w -> Json.loads data = None ->
                OTA.get_version file w = Ret OTA.min_version w) /\
  (forall data doc e,
      Os.read file w = Ret data w -> Json.loads data = Some doc ->
      Py.getitem doc "version" = inl e ->
      OTA.get_version file w = Ret OTA.min_version w) /\
  (forall data doc v,
      Os.read file w = Ret data w -> Json.loads data = Some doc ->
      Py.getitem doc "version" = inr v ->
      OTA.get_version file w = Ret v w).
Proof.
  rewrite OtaFacts.get_version_stored.
  split; [eauto|].
  unfold OTA.stored_version, Os.read.
  destruct (Fs.get (root w) (Fs.norm_path file)) as [[data|es]|].
  - repeat split.
    + discriminate.
    + intros d [= <-] ->. reflexivity.
    + intros d doc e [= <-] -> ->. reflexivity.
    + intros d doc v [= <-] -> ->. reflexivity.
  - repeat split; try discriminate; reflexivity.
  - repeat split; try discriminate; reflexivity.
Qed.

(** The marker of a staging area that has none reads as the minimum. *)
Lemma get_version_total_witness :
  OTA.get_version (OTA.staging_marker Scenario.device) Scenario.incomplete
  = Ret OTA.min_version Scenario.incomplete.
Proof.
  destruct (get_version_total (OTA.staging_marker Scenario.device)
              Scenario.incomplete) as (_ & H & _).
  apply (H Py.OSError Scenario.incomplete). reflexivity.
Defined.

(** ** The order of version tokens *)

(** C8. Active version [2.0.0], remote version [10.0.0]: the dotted-integer
    order has the remote version greater, and [check_for_update] returns
    false, because [>] on two str compares them character by character. *)
Theorem check_for_update_lexicographic
        (self : OTAUpdater) (w : world) (r : response) (doc : json) :
  OTA.get_version (version_file self) w = Ret (JStr "2.0.0") w ->
  server w (version_url self) = Some r ->
  Json.loads (text r) = Some doc ->
  Py.getitem doc "version" = inr (JStr "10.0.0") ->
  Dotted.gt "10.0.0" "2.0.0" = true /\
  PyStr.gt "10.0.0" "2.0.0" = false /\
  OTA.check_for_update self w =
    Ret false (add_event w (HttpGet (version_url self))).
Proof.
  intros Hv Hs Hl Hg. split; [reflexivity|]. split; [reflexivity|].
  unfold OTA.check_for_update. unfold bind at 1. rewrite Hv.
  unfold bind at 1, OTA.get_latest_version, bind at 1, requests_get.
  rewrite Hs. unfold bind at 1, response_json. rewrite Hl. cbn [of_option ret].
  rewrite Hg. reflexivity.
Qed.

Lemma check_for_update_lexicographic_witness :
  OTA.check_for_update Scenario.device Scenario.two_digits =
  Ret false (add_event Scenario.two_digits
               (HttpGet (version_url Scenario.device))).
Proof.
  apply (check_for_update_lexicographic Scenario.device Scenario.two_digits
           (mkResponse 200 (Scenario.version_doc "10.0.0"))
           (JObj [("version", JStr "10.0.0")])); reflexivity.
Defined.

(** ** The scenarios *)

(** C1, on the code.  Stale server (active [2.0.0], remote [1.9.0]):
    [download_and_install_update_if_available] returns false and does not
    restart, but only after [download_latest_version] has fetched the
    manifest and both files and has written them, and the marker, to the
    staging directory. *)
Theorem stale_server_downloads_first :
  OTA.download_and_install_update_if_available Scenario.device
    Scenario.stale_server
  = Ret false
      (mkWorld
         (Dir [ ("version.json", File (Scenario.version_doc "2.0.0"));
                ("main", Dir [ ("old.py", File "print('old')");
                               ("lib", Dir [ ("util.py", File "pass");
                                             ("data", Dir []) ]) ]);
                ("next", Dir (Scenario.staged "1.9.0")) ])
         (server Scenario.stale_server)
         Scenario.download_events).
Proof. vm_compute. reflexivity. Qed.

(** C2, on the code.  End to end (active [1.0.0], remote [1.1.0], two files
    answered with 200): the device restarts after one rename, the staging
    directory is gone and [main] holds the two files and the staging marker;
    but the active marker, which the code reads from [version.json] in the
    root, still reads [1.0.0]: the token [1.1.0] sits in [main/.version]. *)
Theorem end_to_end_outcome :
  exists w',
    OTA.download_and_install_update_if_available Scenario.device
      Scenario.end_to_end = Reboot w' /\
    root w' = Dir [ ("version.json", File (Scenario.version_doc "1.0.0"));
                    ("main", Dir (Scenario.staged "1.1.0")) ] /\
    log w' = (Scenario.download_events ++ Scenario.swap_events)%list /\
    OTA.swaps w' = 1 /\
    OTA.get_version (version_file Scenario.device) w' = Ret (JStr "1.0.0") w' /\
    OTA.get_version "main/.version" w' = Ret (JStr "1.1.0") w'.
Proof.
  eexists. split; [vm_compute; reflexivity|].
  repeat split; vm_compute; reflexivity.
Qed.

(** ** The installer *)



(** C4. A staging directory that does not list the marker [.version] is
    ignored: the check at boot returns false, the installer returns, and
    neither changes the world. *)
Theorem resume_ignores_incomplete_staging
        (self : OTAUpdater) (w : world) (es : entries_t) :
  Fs.get (root w) (Fs.norm_path (new_version_dir self)) = Some (Dir es) ->
  PyStr.mem OTA.marker (map fst es) = false ->
  OTA.check_for_update_to_install_during_next_reboot self w = Ret false w /\
  OTA.install_update_if_available self w = Ret tt w.
Proof.
  intros Hg Hm.
  destruct (SwapFacts.root_is_dir _ _ _ Hg) as [es0 Hr].
  rewrite OtaFacts.resume_run, OtaFacts.install_run, Hg, Hm, Hr.
  cbn [Os.names].
  destruct (PyStr.mem (new_version_dir self) (map fst es0)); split; reflexivity.
Qed.

Lemma resume_ignores_incomplete_staging_witness :
  OTA.check_for_update_to_install_during_next_reboot Scenario.device
    Scenario.incomplete = Ret false Scenario.incomplete /\
  OTA.install_update_if_available Scenario.device Scenario.incomplete
  = Ret tt Scenario.incomplete.
Proof.
  apply (resume_ignores_incomplete_staging Scenario.device Scenario.incomplete
           [("a.txt", File "print('a')")]); reflexivity.
Defined.

(** C5, as the claim has it, fails: a flash with a complete staging
    directory of version [1.1.0] over the active version [1.0.0] and no
    active directory.  The first call raises OSError at the delete of the
    active directory and changes nothing; so does the second: it does not
    return the no-install outcome. *)
Lemma resume_twice_both_raise :
  Fs.wf (root Scenario.no_main) = true /\
  OTA.check_for_update_to_install_during_next_reboot Scenario.device
    Scenario.no_main = Raise Py.OSError Scenario.no_main /\
  OTA.check_for_update_to_install_during_next_reboot Scenario.device
    (world_of (OTA.check_for_update_to_install_during_next_reboot
                 Scenario.device Scenario.no_main))
  = Raise Py.OSError Scenario.no_main.
Proof. repeat split; vm_compute; reflexivity. Qed.

(** C5, amended.  The check at boot, called twice in a row on a well-formed
    flash.  (1) The two calls together rename the staging directory at most
    once, whatever their outcomes.  (2) When the first call returns or
    restarts the device, the second call returns false and changes nothing.
    (3) When the first call raises, it has renamed nothing.  (4) When the
    staging directory is complete and holds a greater version, and the
    active directory is not a directory of the flash, both calls raise
    OSError and change nothing. *)
Theorem resume_twice (self : OTAUpdater) (w : world) :
  Fs.wf (root w) = true ->
  let w1 := world_of (OTA.check_for_update_to_install_during_next_reboot self w) in
  OTA.swaps
    (world_of (OTA.check_for_update_to_install_during_next_reboot self w1))
  <= S (OTA.swaps w) /\
  ((forall e w',
       OTA.check_for_update_to_install_during_next_reboot self w <> Raise e w') ->
   OTA.check_for_update_to_install_during_next_reboot self w1 = Ret false w1 /\
   OTA.swaps w1 <= S (OTA.swaps w)) /\
  (forall e w',
      OTA.check_for_update_to_install_during_next_reboot self w = Raise e w' ->
      OTA.swaps w' = OTA.swaps w) /\
  (OTA.installable self w = true ->
   (forall es,
       Fs.get (root w) (Fs.norm_path (main_dir self)) <> Some (Dir es)) ->
   OTA.check_for_update_to_install_during_next_reboot self w
   = Raise Py.OSError w /\
   OTA.check_for_update_to_install_during_next_reboot self w1
   = Raise Py.OSError w).
Proof.
  intros Hwf w1.
  pose proof (ResumeFacts.resume_outcome self w Hwf) as H1.
  pose proof (ResumeFacts.resume_without_active_directory self w) as H4.
  subst w1.
  destruct (OTA.check_for_update_to_install_during_next_reboot self w)
    as [b w'|e w'|w'] eqn:E1; cbn [world_of] in *.
  - destruct H1 as [-> ->]. rewrite E1. cbn [world_of].
    split; [lia|]. split; [intros _; split; [reflexivity | lia]|].
    split; [discriminate|].
    intros Hi Hm. discriminate (H4 Hi Hm).
  - destruct H1 as [Hsw Hwf'].
    pose proof (ResumeFacts.resume_outcome self w' Hwf') as H2.
    split.
    + destruct (OTA.check_for_update_to_install_during_next_reboot self w')
        as [b2 w2|e2 w2|w2]; cbn [world_of].
      * destruct H2 as [_ ->]. lia.
      * destruct H2 as [-> _]. lia.
      * destruct H2 as [-> _]. lia.
    + split; [intros Hno; now destruct (Hno e w')|].
      split; [now intros e0 w0 [= _ <-]|].
      intros Hi Hm. specialize (H4 Hi Hm). injection H4 as -> ->.
      split; [reflexivity | exact E1].
  - destruct H1 as [Hsw H2]. rewrite H2. cbn [world_of].
    split; [lia|]. split; [intros _; split; [reflexivity | lia]|].
    split; [discriminate|].
    intros Hi Hm. discriminate (H4 Hi Hm).
Qed.

(** The interrupted device: the first call restarts it, the second call
    finds nothing to install. *)
Lemma resume_twice_witness :
  let w1 := world_of (OTA.check_for_update_to_install_during_next_reboot
                        Scenario.device Scenario.interrupted) in
  OTA.check_for_update_to_install_during_next_reboot Scenario.device w1
  = Ret false w1 /\
  OTA.swaps w1 <= S (OTA.swaps Scenario.interrupted).
Proof.
  apply (proj1 (proj2 (resume_twice Scenario.device Scenario.interrupted
                         eq_refl))).
  intros e w'. vm_compute. discriminate.
Defined.

(** ** The recursive delete *)

(** C9. [rmtree] deletes in post-order.  (1) On every directory of a
    well-formed flash it returns; its calls are exactly the post-order walk
    of the directory, and the tree it leaves is the old one without the
    directory, of which nothing remains.  (2) The walk takes the entries in
    listing order, a file by one [os.remove], a directory by its own walk
    followed by its [os.rmdir], and ends with the [os.rmdir] of the
    directory it started from.  (3) After an install the active directory
    holds the entries of the former staging directory and no others: no
    entry of the old active tree remains. *)
Theorem rmtree_post_order :
  (forall d es w,
      Fs.wf (root w) = true ->
      Fs.norm_path d <> [] ->
      Fs.get (root w) (Fs.norm_path d) = Some (Dir es) ->
      exists r',
        OTA.rmtree d w =
          Ret tt (mkWorld r' (server w) (log w ++ OTA.post_order d es)%list) /\
        Fs.unlink (Fs.norm_path d) (root w) = Some r' /\
        Fs.get r' (Fs.norm_path d) = None) /\
  (forall d es k data sub,
      OTA.post_order d es = (OTA.walk d es ++ [FsRmdir d])%list /\
      OTA.walk d [] = [] /\
      OTA.walk d ((k, File data) :: es) =
        FsRemove (d ++ "/" ++ k) :: OTA.walk d es /\
      OTA.walk d ((k, Dir sub) :: es) =
        (OTA.post_order (d ++ "/" ++ k) sub ++ OTA.walk d es)%list) /\
  (forall self w v1 v2 es old staging,
      PyStr.gt v2 v1 = true ->
      OTA.get_version (version_file self) w = Ret (JStr v1) w ->
      OTA.get_version (OTA.staging_marker self) w = Ret (JStr v2) w ->
      root w = Dir es -> Fs.wf (Dir es) = true ->
      Fs.assoc (main_dir self) es = Some (Dir old) ->
      Fs.assoc (new_version_dir self) es = Some (Dir staging) ->
      PyStr.mem OTA.marker (map fst staging) = true ->
      main_dir self <> new_version_dir self ->
      exists w',
        OTA.install_update_if_available self w = Reboot w' /\
        log w' = (log w ++ OTA.post_order (main_dir self) old
                    ++ [FsRename (new_version_dir self) (main_dir self)])%list /\
        Fs.get (root w') [main_dir self] = Some (Dir staging) /\
        Fs.get (root w') [new_version_dir self] = None).
Proof.
  split; [|split].
  - intros d es w Hwf Hne Hg.
    destruct (SwapFacts.rmtree_ok d es w Hwf Hne Hg) as (r' & H1 & H2 & _ & H3).
    eauto.
  - intros d es k data sub.
    split; [apply RmtreeFacts.post_order_walk | repeat split].
  - intros self w v1 v2 es old staging Hgt Ha Hs Hroot Hwf Hmain Hnext Hmark
           Hdiff.
    eexists. split.
    + now apply (SwapFacts.install_swaps self w v1 v2 es old staging).
    + split; [reflexivity|]. cbn [root].
      now apply (SwapFacts.swap_result self es).
Qed.

(** The active directory of the interrupted device, with its nested tree. *)
Lemma rmtree_post_order_witness :
  exists r',
    OTA.rmtree "main" Scenario.interrupted =
      Ret tt (mkWorld r' (server Scenario.interrupted)
                [ FsRemove "main/old.py"; FsRemove "main/lib/util.py";
                  FsRmdir "main/lib/data"; FsRmdir "main/lib";
                  FsRmdir "main" ]) /\
    Fs.unlink ["main"] (root Scenario.interrupted) = Some r' /\
    Fs.get r' ["main"] = None.
Proof.
  destruct rmtree_post_order as (H & _ & _).
  apply (H "main"
           [ ("old.py", File "print('old')");
             ("lib", Dir [ ("util.py", File "pass"); ("data", Dir []) ]) ]
           Scenario.interrupted).
  - reflexivity.
  - discriminate.
  - reflexivity.
Defined.

(** ** The staging marker *)

(** C10. A staging marker written with the token [T] reads back as [T]:
    whenever [create_version_file] returns, [get_version] on the path of
    the staging marker returns exactly [T]; and it does return when the
    staging directory is a free name of the root or a directory of the root
    that holds no directory named [.version]. *)
Theorem marker_round_trip (self : OTAUpdater) (T : string) (w : world) :
  (forall w',
      OTA.create_version_file self (JStr T) w = Ret tt w' ->
      OTA.get_version (OTA.staging_marker self) w' = Ret (JStr T) w') /\
  (forall es,
      root w = Dir es ->
      Fs.valid_name (new_version_dir self) = true ->
      (Fs.assoc (new_version_dir self) es = None \/
       exists st, Fs.assoc (new_version_dir self) es = Some (Dir st) /\
                  forall sub, Fs.assoc OTA.marker st <> Some (Dir sub)) ->
      exists w',
        OTA.create_version_file self (JStr T) w = Ret tt w' /\
        OTA.get_version (OTA.staging_marker self) w' = Ret (JStr T) w').
Proof.
  split; [intros w'; apply MarkerFacts.marker_reads_back|].
  intros es Hroot Hn Hfree.
  destruct (MarkerFacts.create_version_file_ok self (JStr T) w es Hroot Hn Hfree)
    as [w' Hw'].
  eauto using MarkerFacts.marker_reads_back.
Qed.

(** The token [1.1.0] on the flash of the device that runs [1.0.0]. *)
Lemma marker_round_trip_witness :
  exists w',
    OTA.create_version_file Scenario.device (JStr "1.1.0") Scenario.end_to_end
    = Ret tt w' /\
    OTA.get_version (OTA.staging_marker Scenario.device) w'
    = Ret (JStr "1.1.0") w'.
Proof.
  destruct (marker_round_trip Scenario.device "1.1.0" Scenario.end_to_end)
    as (_ & H).
  apply (H [ ("version.json", File (Scenario.version_doc "1.0.0"));
             ("main", Dir [ ("old.py", File "print('old')");
                            ("lib", Dir [ ("util.py", File "pass");
                                          ("data", Dir []) ]) ]) ]).
  - reflexivity.
  - reflexivity.
  - left. reflexivity.
Defined.

(** ** The staged download *)




(** Why (6) asks that no entry of the manifest names the marker: the
    manifest lists [.version], the next request fails in transport, and the
    cycle that raised has left a marker on the flash, the one the loop
    stored. *)
Lemma aborted_cycle_can_leave_a_marker :
  exists w',
    OTA.download_all_files Scenario.device (JStr "1.1.0")
      Scenario.marker_listed = Raise Py.OSError w' /\
    Fs.get (root Scenario.marker_listed)
      (Fs.norm_path (OTA.staging_marker Scenario.device)) = None /\
    OTA.get_version (OTA.staging_marker Scenario.device) w'
    = Ret (JStr "9.9.9") w'.
Proof. eexists. repeat split; vm_compute; reflexivity. Qed.

(** One file refused with 404 and one answered with 200: the first is
    skipped, the second is written, and the marker is written last. *)
Lemma partial_release_is_marked_complete :
  OTA.download_all_files Scenario.device (JStr "1.1.0")
    (Scenario.flaky_world false)
  = Ret tt
      (mkWorld
         (Dir [ ("version.json", File (Scenario.version_doc "1.0.0"));
                ("main", Dir [ ("old.py", File "print('old')");
                               ("lib", Dir [ ("util.py", File "pass");
                                             ("data", Dir []) ]) ]);
                ("next", Dir [ ("dir", Dir [("b.txt", File "print('b')")]);
                               (".version", File (Scenario.version_doc "1.1.0")) ]) ])
         (server (Scenario.flaky_world false))
         [ HttpGet (OTA.file_list_url Scenario.device);
           HttpGet (OTA.file_url Scenario.device "a.txt");
           HttpGet (OTA.file_url Scenario.device "dir/b.txt");
           FsMakedirs "next/dir"; FsWrite "next/dir/b.txt";
           FsMakedirs "next"; FsWrite "next/.version" ]).
Proof. vm_compute. reflexivity. Qed.

(** * Further properties *)

(** ** What the download does and does not do *)

Module EffectFacts.

Import Fs FsFacts RmtreeFacts OtaFacts Effects.
#[local] Open Scope list_scope.

Section Ok.

Variable ok : event -> bool.

Lemma extends_refl (w : world) : extends_by ok w w.
Proof. split; [reflexivity|]. exists []. now rewrite app_nil_r. Qed.

Lemma extends_trans (w1 w2 w3 : world) :
  extends_by ok w1 w2 -> extends_by ok w2 w3 -> extends_by ok w1 w3.
Proof.
  intros (Hs1 & e1 & Hl1 & Ho1) (Hs2 & e2 & Hl2 & Ho2). split; [congruence|].
  exists (e1 ++ e2). rewrite Hl2, Hl1, app_assoc, forallb_app, Ho1, Ho2. auto.
Qed.

Lemma extends_add_event (w : world) (e : event) :
  ok e = true -> extends_by ok w (add_event w e).
Proof.
  intros H. split; [reflexivity|]. exists [e]. simpl. now rewrite H.
Qed.

Lemma extends_set_root (w : world) (r : node) (e : event) :
  ok e = true -> extends_by ok w (set_root w r e).
Proof.
  intros H. split; [reflexivity|]. exists [e]. simpl. now rewrite H.
Qed.

Lemma change_extends (f : node -> option node) (e : event) (w : world) :
  ok e = true -> extends_by ok w (world_of (Os.change f e w)).
Proof.
  intros H. unfold Os.change. destruct (f (root w)); cbn [world_of].
  - now apply extends_set_root.
  - apply extends_refl.
Qed.

Lemma bind_extends {A B : Type} (m : M A) (k : A -> M B) (w : world) :
  extends_by ok w (world_of (m w)) ->
  (forall a w', extends_by ok w' (world_of (k a w'))) ->
  extends_by ok w (world_of (bind m k w)).
Proof.
  intros Hm Hk. unfold bind.
  destruct (m w) as [a w'|e w'|w']; cbn [world_of] in *; auto.
  apply extends_trans with w'; auto.
Qed.

Lemma for_each_extends {A : Type} (body : A -> M unit) (l : list A) :
  (forall x w, extends_by ok w (world_of (body x w))) ->
  forall w, extends_by ok w (world_of (for_each l body w)).
Proof.
  intros Hb. induction l as [|x r IH]; intros w.
  - apply extends_refl.
  - cbn [for_each]. apply bind_extends; auto.
Qed.

End Ok.

(** A step whose world is its argument's. *)
Lemma of_option_world {A : Type} (e : Py.exn) (o : option A) (w : world) :
  world_of (of_option e o w) = w.
Proof. now destruct o. Qed.

Lemma of_sum_world {A : Type} (o : Py.exn + A) (w : world) :
  world_of (of_sum o w) = w.
Proof. now destruct o. Qed.

Lemma requests_get_staging (url : string) (w : world) :
  extends_by is_staging_event w (world_of (requests_get url w)).
Proof.
  unfold requests_get. destruct (server w url); cbn [world_of];
    now apply extends_add_event.
Qed.

Lemma response_json_staging (r : response) (w : world) :
  extends_by is_staging_event w (world_of (response_json r w)).
Proof.
  unfold response_json. rewrite of_option_world. apply extends_refl.
Qed.

Section Download.

Variable self : OTAUpdater.

Lemma get_latest_version_staging (w : world) :
  extends_by is_staging_event w (world_of (OTA.get_latest_version self w)).
Proof.
  unfold OTA.get_latest_version.
  apply bind_extends; [apply requests_get_staging|]. intros r w1.
  apply bind_extends; [apply response_json_staging|]. intros doc w2.
  rewrite of_sum_world. apply extends_refl.
Qed.

Lemma get_file_list_staging (w : world) :
  extends_by is_staging_event w (world_of (OTA.get_file_list self w)).
Proof.
  unfold OTA.get_file_list.
  apply bind_extends; [apply requests_get_staging|]. intros r w1.
  apply response_json_staging.
Qed.

Lemma download_file_staging (file : json) (w : world) :
  extends_by is_staging_event w (world_of (OTA.download_file self file w)).
Proof.
  unfold OTA.download_file.
  destruct file; try apply extends_refl.
  apply bind_extends; [apply requests_get_staging|]. intros r w1.
  destruct (status_code r =? 200)%Z; [|apply extends_refl].
  apply bind_extends; [now apply change_extends|]. intros _ w2.
  now apply change_extends.
Qed.

Lemma create_version_file_staging (version : json) (w : world) :
  extends_by is_staging_event w
    (world_of (OTA.create_version_file self version w)).
Proof.
  unfold OTA.create_version_file.
  apply bind_extends; [now apply change_extends|]. intros _ w2.
  now apply change_extends.
Qed.

Lemma download_all_files_staging (version : json) (w : world) :
  extends_by is_staging_event w
    (world_of (OTA.download_all_files self version w)).
Proof.
  unfold OTA.download_all_files.
  apply bind_extends; [apply get_file_list_staging|]. intros doc w1.
  apply bind_extends; [rewrite of_option_world; apply extends_refl|].
  intros files w2.
  apply bind_extends;
    [apply for_each_extends; intros; apply download_file_staging|].
  intros _ w3. apply create_version_file_staging.
Qed.

Lemma download_latest_version_staging (w : world) :
  extends_by is_staging_event w
    (world_of (OTA.download_latest_version self w)).
Proof.
  unfold OTA.download_latest_version.
  apply bind_extends; [apply get_latest_version_staging|]. intros v w1.
  apply bind_extends; [apply download_all_files_staging|]. intros _ w2.
  apply extends_refl.
Qed.

(** Nothing of the download restarts the device. *)
Lemma download_file_no_reboot (file : json) (w w' : world) :
  OTA.download_file self file w <> Reboot w'.
Proof.
  unfold OTA.download_file. destruct file; try discriminate.
  unfold bind, requests_get. destruct (server w _); [|discriminate].
  destruct (status_code r =? 200)%Z; [|discriminate].
  unfold Os.makedirs, Os.write, Os.change.
  destruct (mkdirs _ _); [|discriminate].
  cbn [set_root root]. destruct (write _ _ _); discriminate.
Qed.

Lemma download_latest_version_no_reboot (w w' : world) :
  OTA.download_latest_version self w <> Reboot w'.
Proof.
  unfold OTA.download_latest_version, bind at 1.
  unfold OTA.get_latest_version, bind at 1, requests_get.
  destruct (server w _); [|discriminate].
  unfold bind at 1, response_json.
  destruct (Json.loads _); [|discriminate]. cbn [of_option ret].
  destruct (Py.getitem _ _); [discriminate|]. cbn [of_sum ret].
  unfold bind at 1, OTA.download_all_files, bind at 1.
  unfold OTA.get_file_list, bind at 1, requests_get. cbn [add_event server].
  destruct (server w _); [|discriminate].
  unfold response_json. destruct (Json.loads _); [|discriminate].
  cbn [of_option ret]. unfold bind at 1.
  destruct (Py.iter _); [|discriminate]. cbn [of_option ret].
  unfold bind at 1.
  match goal with
  | |- context [for_each ?l ?b ?x] =>
      pose proof (for_each_no_restart b l download_file_no_reboot x) as Hl;
      destruct (for_each l b x) as [u w1|e w1|w1]
  end; [|discriminate|now destruct (Hl w1)].
  unfold OTA.create_version_file, bind, Os.makedirs, Os.write, Os.change.
  destruct (mkdirs _ _); [|discriminate].
  cbn [set_root root]. destruct (write _ _ _); discriminate.
Qed.

End Download.

(** Staging events are no renames. *)
Lemma staging_no_swap (w w' : world) :
  extends_by is_staging_event w w' -> OTA.swaps w' = OTA.swaps w.
Proof.
  intros (_ & evs & Hl & Hok). unfold OTA.swaps. rewrite Hl, filter_app.
  assert (H : filter OTA.is_rename evs = []).
  { clear Hl. induction evs as [|e r IH]; [reflexivity|].
    cbn in Hok. apply andb_true_iff in Hok. destruct Hok as [He Hr].
    destruct e; try discriminate He; cbn; auto. }
  now rewrite H, app_nil_r.
Qed.

End EffectFacts.

Module UpdateFacts.

Import Fs FsFacts RmtreeFacts OtaFacts Effects EffectFacts.
#[local] Open Scope list_scope.

(** The value [download_latest_version] returns is the one
    [get_latest_version] gave it. *)
Lemma download_latest_version_inv (self : OTAUpdater) (w w1 : world) (v : json) :
  OTA.download_latest_version self w = Ret v w1 ->
  exists w0, OTA.get_latest_version self w = Ret v w0 /\
             OTA.download_all_files self v w0 = Ret tt w1.
Proof.
  unfold OTA.download_latest_version, bind at 1.
  destruct (OTA.get_latest_version self w) as [v0 w0|e w0|w0]; try discriminate.
  unfold bind.
  destruct (OTA.download_all_files self v0 w0) as [[] w2|e w2|w2] eqn:E;
    try discriminate.
  intros [= <- <-]. eauto.
Qed.

Lemma get_latest_version_run (self : OTAUpdater) (w : world) :
  OTA.get_latest_version self w =
  match server w (version_url self) with
  | None => Raise Py.OSError (add_event w (HttpGet (version_url self)))
  | Some r =>
      match Json.loads (text r) with
      | None => Raise Py.ValueError (add_event w (HttpGet (version_url self)))
      | Some doc =>
          match Py.getitem doc "version" with
          | inl e => Raise e (add_event w (HttpGet (version_url self)))
          | inr v => Ret v (add_event w (HttpGet (version_url self)))
          end
      end
  end.
Proof.
  unfold OTA.get_latest_version, bind, requests_get, response_json.
  destruct (server w _) as [r|]; [|reflexivity].
  destruct (Json.loads (text r)) as [doc|]; [|reflexivity].
  cbn [of_option ret]. destruct (Py.getitem doc "version"); reflexivity.
Qed.

(** What [download_and_install_update_if_available] does, by the outcome of
    the download. *)
Lemma download_and_install_run (self : OTAUpdater) (w : world) :
  OTA.download_and_install_update_if_available self w =
  match OTA.download_latest_version self w with
  | Ret latest w1 =>
      match Py.gt latest (OTA.stored_version w (version_file self)) with
      | Some true => (OTA.install_update_if_available self ;; ret true) w1
      | Some false => Ret false w1
      | None => Raise Py.TypeError w1
      end
  | Raise e w1 => Raise e w1
  | Reboot w1 => Reboot w1
  end.
Proof.
  unfold OTA.download_and_install_update_if_available, bind at 1.
  rewrite get_version_stored. unfold bind at 1.
  destruct (OTA.download_latest_version self w) as [latest w1|e w1|w1];
    try reflexivity.
  unfold bind at 1, py_gt.
  destruct (Py.gt _ _) as [[|]|]; reflexivity.
Qed.

Lemma check_for_update_run (self : OTAUpdater) (w : world) :
  OTA.check_for_update self w =
  match OTA.get_latest_version self w with
  | Ret v w1 => py_gt v (OTA.stored_version w (version_file self)) w1
  | Raise e w1 => Raise e w1
  | Reboot w1 => Reboot w1
  end.
Proof.
  unfold OTA.check_for_update, bind at 1.
  now rewrite get_version_stored.
Qed.

(** When the installer returns, it has changed nothing. *)
Lemma install_returns_unchanged (self : OTAUpdater) (w w' : world) (u : unit) :
  OTA.install_update_if_available self w = Ret u w' -> w' = w.
Proof.
  rewrite install_run.
  destruct (Os.names (root w)) as [names|]; [|discriminate].
  destruct (PyStr.mem _ names); [|now intros [= _ <-]].
  destruct (get (root w) _) as [[|es]|]; try discriminate.
  destruct (PyStr.mem _ _); [|now intros [= _ <-]].
  destruct (OTA.newer self w) as [[|]|]; try discriminate.
  - intros H. now destruct (swap_never_returns self w w' u).
  - now intros [= _ <-].
Qed.

End UpdateFacts.

(** ** The update methods *)

(** X1. [check_for_update] only asks: whatever its outcome, it has made one
    request, the one for the version document, the flash is as it was, and
    the device has not restarted. *)
Theorem check_for_update_touches_nothing (self : OTAUpdater) (w : world) :
  root (world_of (OTA.check_for_update self w)) = root w /\
  server (world_of (OTA.check_for_update self w)) = server w /\
  log (world_of (OTA.check_for_update self w)) =
    (log w ++ [HttpGet (version_url self)])%list /\
  forall w', OTA.check_for_update self w <> Reboot w'.
Proof.
  rewrite UpdateFacts.check_for_update_run, UpdateFacts.get_latest_version_run.
  destruct (server w _) as [r|];
    [|repeat split; solve [reflexivity | discriminate]].
  destruct (Json.loads (text r)) as [doc|];
    [|repeat split; solve [reflexivity | discriminate]].
  destruct (Py.getitem doc "version");
    [repeat split; solve [reflexivity | discriminate]|].
  unfold py_gt.
  destruct (Py.gt _ _); repeat split; solve [reflexivity | discriminate].
Qed.

(** X2. When the version document cannot be had, nothing is downloaded.  A
    request that fails in transport raises OSError, a body that is no JSON
    document ValueError, a document that is no object TypeError, an object
    without the field [version] KeyError; the status code is not looked at.
    Each of them comes out of [check_for_update], [download_latest_version]
    and [download_and_install_update_if_available] as it is, after that one
    request and with the flash untouched. *)
Theorem version_failure_stops_update (self : OTAUpdater) (w : world) :
  (server w (version_url self) = None ->
   OTA.get_latest_version self w =
   Raise Py.OSError (add_event w (HttpGet (version_url self)))) /\
  (forall r, server w (version_url self) = Some r ->
             Json.loads (text r) = None ->
             OTA.get_latest_version self w =
             Raise Py.ValueError (add_event w (HttpGet (version_url self)))) /\
  (forall r doc e,
      server w (version_url self) = Some r ->
      Json.loads (text r) = Some doc ->
      Py.getitem doc "version" = inl e ->
      OTA.get_latest_version self w =
      Raise e (add_event w (HttpGet (version_url self)))) /\
  (forall e w1,
      OTA.get_latest_version self w = Raise e w1 ->
      w1 = add_event w (HttpGet (version_url self)) /\
      OTA.check_for_update self w = Raise e w1 /\
      OTA.download_latest_version self w = Raise e w1 /\
      OTA.download_and_install_update_if_available self w = Raise e w1).
Proof.
  repeat split.
  - intros H. now rewrite UpdateFacts.get_latest_version_run, H.
  - intros r H1 H2. now rewrite UpdateFacts.get_latest_version_run, H1, H2.
  - intros r doc e H1 H2 H3.
    now rewrite UpdateFacts.get_latest_version_run, H1, H2, H3.
  - rewrite UpdateFacts.get_latest_version_run in H.
    destruct (server w _) as [r|]; [|congruence].
    destruct (Json.loads (text r)) as [doc|]; [|congruence].
    destruct (Py.getitem doc "version"); congruence.
  - now rewrite UpdateFacts.check_for_update_run, H.
  - unfold OTA.download_latest_version, bind. now rewrite H.
  - rewrite UpdateFacts.download_and_install_run.
    unfold OTA.download_latest_version, bind. now rewrite H.
Qed.

(** No server at all. *)
Lemma version_failure_stops_update_witness :
  OTA.download_and_install_update_if_available Scenario.device
    Scenario.interrupted
  = Raise Py.OSError
      (add_event Scenario.interrupted (HttpGet (version_url Scenario.device))).
Proof.
  destruct (version_failure_stops_update Scenario.device Scenario.interrupted)
    as (H1 & _ & _ & H).
  destruct (H Py.OSError
              (add_event Scenario.interrupted
                 (HttpGet (version_url Scenario.device))) (H1 eq_refl))
    as (_ & _ & _ & H4).
  exact H4.
Defined.

(** X3. A file answered with status 200 is stored under the staging
    directory: when [download_file] returns, the file at
    [new_version_dir/file] reads back as the body of the response, and the
    call made one request, one [makedirs] and one write. *)
Theorem download_file_stores_body
        (self : OTAUpdater) (file : string) (w w' : world) (r : response) :
  server w (OTA.file_url self file) = Some r ->
  status_code r = 200%Z ->
  OTA.download_file self (JStr file) w = Ret tt w' ->
  Os.read (new_version_dir self ++ "/" ++ file) w' = Ret (text r) w' /\
  log w' = (log w ++
              [ HttpGet (OTA.file_url self file);
                FsMakedirs (new_version_dir self ++ "/" ++ PyStr.dirname file);
                FsWrite (new_version_dir self ++ "/" ++ file) ])%list.
Proof.
  intros Hs Hc. rewrite DownloadFacts.download_file_run, Hs, Hc.
  cbn [Z.eqb Pos.eqb]. unfold bind, Os.makedirs, Os.write, Os.change.
  cbn [add_event root].
  destruct (Fs.mkdirs _ (root w)) as [r1|]; [|discriminate].
  cbn [set_root root].
  destruct (Fs.write _ _ r1) as [r2|] eqn:E; [|discriminate].
  intros [= <-]. apply MarkerFacts.write_get in E. split.
  - unfold Os.read. cbn [set_root root]. now rewrite E.
  - cbn [set_root add_event log]. now rewrite <- !app_assoc.
Qed.

Lemma download_file_stores_body_witness :
  exists w',
    OTA.download_file Scenario.device (JStr "dir/b.txt") Scenario.end_to_end
    = Ret tt w' /\
    Os.read "next/dir/b.txt" w' = Ret "print('b')" w'.
Proof.
  eexists. split; [vm_compute; reflexivity|].
  apply (download_file_stores_body Scenario.device "dir/b.txt"
           Scenario.end_to_end _ (mkResponse 200 "print('b')"));
    reflexivity.
Defined.

(** X4. The check at boot never returns True.  When it returns, it returns
    False and has changed nothing; when it installs, the device restarts
    (or the swap raises) before the [return True] is reached. *)
Theorem resume_returns_only_false
        (self : OTAUpdater) (w w' : world) (b : bool) :
  OTA.check_for_update_to_install_during_next_reboot self w = Ret b w' ->
  b = false /\ w' = w.
Proof.
  rewrite OtaFacts.resume_run.
  destruct (Os.names (root w)) as [names|]; [|discriminate].
  destruct (PyStr.mem _ names); [|now intros [= <- <-]].
  destruct (Fs.get (root w) _) as [[|es]|]; try discriminate.
  destruct (PyStr.mem _ _); [|now intros [= <- <-]].
  destruct (OTA.newer self w) as [[|]|]; try discriminate.
  - unfold bind. pose proof (OtaFacts.swap_never_returns self w) as Hn.
    destruct (OTA.swap self w) as [u w2|e w2|w2]; try discriminate.
    now destruct (Hn w2 u).
  - now intros [= <- <-].
Qed.

Lemma resume_returns_only_false_witness :
  false = false /\ Scenario.incomplete = Scenario.incomplete.
Proof.
  apply (resume_returns_only_false Scenario.device Scenario.incomplete
           Scenario.incomplete false).
  reflexivity.
Defined.

(** X5. When [download_and_install_update_if_available] returns, with
    either value, nothing was installed: what the call did is requests,
    directories made and files written, with no removal and no rename.  An
    install ends in the restart, not in a return. *)
Theorem download_and_install_returns_without_install
        (self : OTAUpdater) (w w' : world) (b : bool) :
  OTA.download_and_install_update_if_available self w = Ret b w' ->
  Effects.extends_by Effects.is_staging_event w w' /\
  OTA.swaps w' = OTA.swaps w.
Proof.
  intros H.
  assert (He : Effects.extends_by Effects.is_staging_event w w').
  { rewrite UpdateFacts.download_and_install_run in H.
    pose proof (EffectFacts.download_latest_version_staging self w) as Hd.
    destruct (OTA.download_latest_version self w) as [latest w1|e w1|w1];
      try discriminate.
    cbn [world_of] in Hd.
    destruct (Py.gt _ _) as [[|]|]; try discriminate.
    - unfold bind in H.
      destruct (OTA.install_update_if_available self w1) as [u w2|e w2|w2]
        eqn:Ei; try discriminate.
      apply UpdateFacts.install_returns_unchanged in Ei.
      injection H as _ <-. now subst.
    - now injection H as _ <-. }
  split; [exact He | now apply EffectFacts.staging_no_swap].
Qed.

Lemma download_and_install_returns_without_install_witness :
  exists w',
    OTA.download_and_install_update_if_available Scenario.device
      Scenario.stale_server = Ret false w' /\
    OTA.swaps w' = OTA.swaps Scenario.stale_server.
Proof.
  eexists. split; [vm_compute; reflexivity|].
  eapply (download_and_install_returns_without_install Scenario.device
            Scenario.stale_server _ false).
  vm_compute. reflexivity.
Defined.

(** X6. Without a greater version on the server there is no install.  When
    the version the server gives is not greater than the active one under
    [>] (or the two have no order),
    [download_and_install_update_if_available] does not restart the device,
    removes nothing and renames nothing, whatever the download does. *)
Theorem no_install_unless_newer
        (self : OTAUpdater) (w w0 : world) (latest current : json) :
  OTA.get_version (version_file self) w = Ret current w ->
  OTA.get_latest_version self w = Ret latest w0 ->
  Py.gt latest current <> Some true ->
  (forall w', OTA.download_and_install_update_if_available self w
              <> Reboot w') /\
  Effects.extends_by Effects.is_staging_event w
    (world_of (OTA.download_and_install_update_if_available self w)) /\
  OTA.swaps (world_of (OTA.download_and_install_update_if_available self w))
  = OTA.swaps w.
Proof.
  intros Hc Hl Hgt. rewrite OtaFacts.get_version_stored in Hc.
  injection Hc as Hc.
  rewrite UpdateFacts.download_and_install_run.
  pose proof (EffectFacts.download_latest_version_staging self w) as Hd.
  pose proof (EffectFacts.download_latest_version_no_reboot self w) as Hn.
  pose proof (UpdateFacts.download_latest_version_inv self w) as Hv.
  destruct (OTA.download_latest_version self w) as [v w1|e w1|w1];
    cbn [world_of] in *.
  - destruct (Hv w1 v eq_refl) as (w0' & Hv' & _).
    assert (v = latest) as -> by congruence.
    rewrite Hc.
    destruct (Py.gt latest current) as [[|]|]; try congruence;
      cbn [world_of]; (split; [discriminate|]);
      (split; [assumption | now apply EffectFacts.staging_no_swap]).
  - split; [discriminate|].
    split; [assumption | now apply EffectFacts.staging_no_swap].
  - now destruct (Hn w1).
Qed.

(** The stale server. *)
Lemma no_install_unless_newer_witness :
  OTA.swaps (world_of (OTA.download_and_install_update_if_available
                         Scenario.device Scenario.stale_server))
  = OTA.swaps Scenario.stale_server.
Proof.
  apply (no_install_unless_newer Scenario.device Scenario.stale_server
           (add_event Scenario.stale_server
              (HttpGet (version_url Scenario.device)))
           (JStr "1.9.0") (JStr "2.0.0")).
  - reflexivity.
  - reflexivity.
  - vm_compute. discriminate.
Defined.

(** X7. The install touches the two directories only: every other entry of
    the root, the active marker [version.json] and the data of the device
    among them, is after the swap what it was before. *)
Theorem install_keeps_the_rest
        (self : OTAUpdater) (w : world) (v1 v2 : string)
        (es old staging : entries_t) :
  PyStr.gt v2 v1 = true ->
  OTA.get_version (version_file self) w = Ret (JStr v1) w ->
  OTA.get_version (OTA.staging_marker self) w = Ret (JStr v2) w ->
  root w = Dir es -> Fs.wf (Dir es) = true ->
  Fs.assoc (main_dir self) es = Some (Dir old) ->
  Fs.assoc (new_version_dir self) es = Some (Dir staging) ->
  PyStr.mem OTA.marker (map fst staging) = true ->
  main_dir self <> new_version_dir self ->
  exists w',
    OTA.install_update_if_available self w = Reboot w' /\
    forall k, k <> main_dir self -> k <> new_version_dir self ->
              Fs.get (root w') [k] = Fs.get (root w) [k].
Proof.
  intros Hgt Ha Hs Hroot Hwf Hmain Hnext Hmark Hdiff.
  eexists. split.
  - now apply (SwapFacts.install_swaps self w v1 v2 es old staging).
  - intros k Hk1 Hk2. rewrite Hroot. cbn [root Fs.get].
    rewrite FsFacts.assoc_set_other by assumption.
    now rewrite !SwapFacts.assoc_del_other by assumption.
Qed.

Lemma install_keeps_the_rest_witness :
  exists w',
    OTA.install_update_if_available Scenario.device Scenario.interrupted
    = Reboot w' /\
    forall k, k <> "main" -> k <> "next" ->
              Fs.get (root w') [k] = Fs.get (root Scenario.interrupted) [k].
Proof.
  exact (install_keeps_the_rest Scenario.device Scenario.interrupted
           "1.0.0" "1.1.0"
           [ ("version.json", File (Scenario.version_doc "1.0.0"));
             ("main", Dir [ ("old.py", File "print('old')");
                            ("lib", Dir [ ("util.py", File "pass");
                                          ("data", Dir []) ]) ]);
             ("next", Dir (Scenario.staged "1.1.0")) ]
           [ ("old.py", File "print('old')");
             ("lib", Dir [ ("util.py", File "pass"); ("data", Dir []) ]) ]
           (Scenario.staged "1.1.0")
           eq_refl eq_refl eq_refl eq_refl eq_refl eq_refl eq_refl eq_refl
           ltac:(discriminate)).
Defined.

(** ** The addresses an updater is built with *)

Module InitFacts.

Import Effects.

Lemma append_nil_r (s : string) : s ++ EmptyString = s.
Proof. induction s as [|c s IH]; simpl; [reflexivity | now rewrite IH]. Qed.

Lemma append_is_nil (a b : string) :
  a ++ b = EmptyString -> a = EmptyString /\ b = EmptyString.
Proof. destruct a; simpl; [auto | discriminate]. Qed.

(** A str that [rstrip('/')] leaves as it is, and that is not empty, keeps
    what is put before it and loses the slashes put after it. *)
Lemma rstrip_app (a b : string) :
  PyStr.rstrip_slash b <> EmptyString ->
  PyStr.rstrip_slash (a ++ b) = a ++ PyStr.rstrip_slash b.
Proof.
  intros Hb. induction a as [|c a IH]; [reflexivity|].
  cbn [append PyStr.rstrip_slash]. rewrite IH.
  destruct (a ++ PyStr.rstrip_slash b) eqn:E; [|reflexivity].
  apply append_is_nil in E. now destruct E.
Qed.

Lemma rstrip_clean_tail (c : ascii) (r : string) :
  PyStr.rstrip_slash (String c r) = String c r ->
  (r = EmptyString /\ Ascii.eqb c "/" = false) \/
  (r <> EmptyString /\ PyStr.rstrip_slash r = r).
Proof.
  cbn [PyStr.rstrip_slash].
  destruct (PyStr.rstrip_slash r) as [|d r'] eqn:E.
  - destruct (Ascii.eqb c "/"); [discriminate|].
    intros [= <-]. now left.
  - intros [= <-]. right. split; [discriminate | reflexivity].
Qed.

Lemma rstrip_tail (r t : string) :
  r <> EmptyString -> PyStr.rstrip_slash r = r ->
  PyStr.rstrip_slash t = EmptyString ->
  PyStr.rstrip_slash (r ++ t) = r.
Proof.
  intros Hne Hr Ht. induction r as [|c r IH]; [congruence|].
  destruct (rstrip_clean_tail c r Hr) as [[-> Hc]|[Hr1 Hr2]].
  - cbn [append PyStr.rstrip_slash]. now rewrite Ht, Hc.
  - cbn [append PyStr.rstrip_slash]. rewrite (IH Hr1 Hr2).
    destruct r; [congruence | reflexivity].
Qed.

Lemma prefix_app (a r : string) : prefix a (a ++ r) = true.
Proof.
  induction a as [|c a IH]; [now destruct r|].
  cbn [append prefix]. destruct (ascii_dec c c); [assumption | congruence].
Qed.

Lemma replace_skip (old new a r : string) :
  PyStr.replace_from (String.length a) old new (a ++ r) =
  PyStr.replace_from 0 old new r.
Proof.
  induction a as [|c a IH]; [now destruct r|].
  cbn [append String.length PyStr.replace_from]. exact IH.
Qed.

(** The first occurrence, at the head of the str, is replaced. *)
Lemma replace_head (c : ascii) (old new r : string) :
  PyStr.replace (String c old) new (String c old ++ r) =
  new ++ PyStr.replace (String c old) new r.
Proof.
  unfold PyStr.replace.
  change (String c old ++ r) with (String c (old ++ r)).
  cbn [PyStr.replace_from].
  change (String c (old ++ r)) with (String c old ++ r).
  rewrite prefix_app.
  change (String.length (String c old) - 1) with (String.length old - 0).
  now rewrite Nat.sub_0_r, replace_skip.
Qed.

(** A str without an occurrence is left as it is. *)
Lemma replace_absent (old new r : string) :
  contains old r = false -> PyStr.replace old new r = r.
Proof.
  unfold PyStr.replace. induction r as [|c r IH]; [reflexivity|].
  cbn [contains]. intros H. apply orb_false_iff in H. destruct H as [H1 H2].
  cbn [PyStr.replace_from]. rewrite H1. now rewrite IH.
Qed.

End InitFacts.

(** X8. The addresses [__init__] derives.  For a repository given as
    [https://github.com/] followed by a name and by any number of slashes,
    where the name is not empty, does not end in a slash and does not hold
    the prefix again, the updater keeps the bare name, and the version
    document and the files are asked for under
    [https://raw.githubusercontent.com/name/main/].  The same holds when the
    repository is given as the bare name.  A source directory given with
    trailing slashes is kept with exactly one. *)
Theorem init_addresses
        (ssid password name tail src_dir src_tail main next : string) :
  name <> EmptyString ->
  PyStr.rstrip_slash name = name ->
  PyStr.rstrip_slash tail = EmptyString ->
  Effects.contains "https://github.com/" name = false ->
  src_dir <> EmptyString ->
  PyStr.rstrip_slash src_dir = src_dir ->
  PyStr.rstrip_slash src_tail = EmptyString ->
  let full := OTA.init ssid password ("https://github.com/" ++ name ++ tail)
                (src_dir ++ src_tail) main next in
  let bare := OTA.init ssid password (name ++ tail)
                (src_dir ++ src_tail) main next in
  github_repo full = name /\
  github_repo bare = name /\
  version_url full =
    "https://raw.githubusercontent.com/" ++ name ++ "/main/version.json" /\
  firmware_url full = "https://raw.githubusercontent.com/" ++ name ++ "/main/" /\
  github_src_dir full = src_dir ++ "/" /\
  (forall file,
      OTA.file_url full file =
      "https://raw.githubusercontent.com/" ++ name ++ "/main/" ++ src_dir
        ++ "/" ++ file).
Proof.
  intros Hn Hclean Ht Habs Hs Hsclean Hst full bare.
  assert (Hstrip : PyStr.rstrip_slash (name ++ tail) = name)
    by (now apply InitFacts.rstrip_tail).
  assert (Hfull : github_repo full = name).
  { cbn [full OTA.init github_repo].
    rewrite InitFacts.rstrip_app by (rewrite Hstrip; assumption).
    rewrite Hstrip.
    change "https://github.com/" with (String "h" "ttps://github.com/").
    rewrite InitFacts.replace_head. cbn [append].
    now apply InitFacts.replace_absent. }
  assert (Hbare : github_repo bare = name).
  { cbn [bare OTA.init github_repo]. rewrite Hstrip.
    now apply InitFacts.replace_absent. }
  assert (Hsrc : github_src_dir full = src_dir ++ "/").
  { cbn [full OTA.init github_src_dir].
    rewrite (InitFacts.rstrip_tail src_dir src_tail Hs Hsclean Hst).
    destruct src_dir as [|c d]; [congruence|]. reflexivity. }
  assert (Hfw : firmware_url full =
                "https://raw.githubusercontent.com/" ++ name ++ "/main/").
  { change (firmware_url full)
      with ("https://raw.githubusercontent.com/" ++ github_repo full ++ "/main/").
    now rewrite Hfull. }
  repeat split; auto.
  - change (version_url full)
      with ("https://raw.githubusercontent.com/" ++ github_repo full
              ++ "/main/version.json").
    now rewrite Hfull.
  - intros file. unfold OTA.file_url. rewrite Hfw, Hsrc.
    now rewrite !JsonFacts.append_assoc.
Qed.

(** The updater [trigger_ota_update] builds. *)
Lemma init_addresses_witness :
  version_url Scenario.device =
  "https://raw.githubusercontent.com/mahmoudrizkk/C3AG/main/version.json" /\
  OTA.file_url Scenario.device "a.txt" =
  "https://raw.githubusercontent.com/mahmoudrizkk/C3AG/main/main.py/a.txt".
Proof.
  destruct (init_addresses "UE-DT" "UE-DT@2023" "mahmoudrizkk/C3AG" "/"
              "main.py" EmptyString "main" "next")
    as (_ & _ & H1 & _ & _ & H2);
    try reflexivity; try discriminate.
  split; [exact H1 | exact (H2 "a.txt")].
Defined.

(** ** The version on the display *)

(** X9. [get_current_version] never raises and changes nothing.  It reads
    the document the updater reads as the active marker: for a document
    with a field [version] it returns [str] of the token [get_version]
    returns, so a str token is shown as it is compared.  When the document
    cannot be read, is malformed or has no such field, the display gets [0]
    while the updater compares with [0.0.0]. *)
Theorem current_version_is_the_active_one
        (container : json -> string) (w : world) :
  (exists s, Main.get_current_version container w = Ret s w) /\
  (forall ssid password repo src main next,
      version_file (OTA.init ssid password repo src main next)
      = "version.json") /\
  (forall data doc v,
      Os.read "version.json" w = Ret data w ->
      Json.loads data = Some doc ->
      Py.getitem doc "version" = inr v ->
      Main.get_current_version container w = Ret (Main.str container v) w /\
      OTA.get_version "version.json" w = Ret v w) /\
  (forall e w',
      Os.read "version.json" w = Raise e w' ->
      Main.get_current_version container w = Ret "0" w /\
      OTA.get_version "version.json" w = Ret (JStr "0.0.0") w) /\
  (forall data,
      Os.read "version.json" w = Ret data w -> Json.loads data = None ->
      Main.get_current_version container w = Ret "0" w /\
      OTA.get_version "version.json" w = Ret (JStr "0.0.0") w) /\
  (forall data doc e,
      Os.read "version.json" w = Ret data w -> Json.loads data = Some doc ->
      Py.getitem doc "version" = inl e ->
      Main.get_current_version container w = Ret "0" w /\
      OTA.get_version "version.json" w = Ret (JStr "0.0.0") w).
Proof.
  rewrite OtaFacts.get_version_stored.
  unfold Main.get_current_version, OTA.stored_version, try_except, bind,
    Os.read, ujson_loads.
  destruct (Fs.get (root w) (Fs.norm_path "version.json")) as [[data0|es0]|].
  - destruct (Json.loads data0) as [doc0|] eqn:El; cbn [of_option ret raise].
    + destruct (Py.getitem doc0 "version") as [e0|v0] eqn:Eg;
        cbn [of_sum ret raise].
      * split; [eauto|]. split; [reflexivity|].
        split; [intros data doc v [= <-] Hl Hg; exfalso; congruence|].
        split; [discriminate|].
        split; [intros data [= <-] Hl; exfalso; congruence|].
        intros data doc e [= <-] Hl Hg. auto.
      * split; [eauto|]. split; [reflexivity|].
        split; [intros data doc v [= <-] Hl Hg;
                assert (doc = doc0) as -> by congruence;
                assert (v = v0) as -> by congruence; auto|].
        split; [discriminate|].
        split; [intros data [= <-] Hl; exfalso; congruence|].
        intros data doc e [= <-] Hl Hg. exfalso. congruence.
    + split; [eauto|]. split; [reflexivity|].
      split; [intros data doc v [= <-] Hl Hg; exfalso; congruence|].
      split; [discriminate|].
      split; [intros data [= <-] Hl; auto|].
      intros data doc e [= <-] Hl Hg. exfalso. congruence.
  - split; [eauto|]. split; [reflexivity|].
    repeat split; try discriminate.
  - split; [eauto|]. split; [reflexivity|].
    repeat split; try discriminate.
Qed.

(** The device that runs [1.0.0] shows [1.0.0]. *)
Lemma current_version_is_the_active_one_witness :
  Main.get_current_version (fun _ => EmptyString) Scenario.end_to_end
  = Ret "1.0.0" Scenario.end_to_end /\
  OTA.get_version "version.json" Scenario.end_to_end
  = Ret (JStr "1.0.0") Scenario.end_to_end.
Proof.
  destruct (current_version_is_the_active_one (fun _ => EmptyString)
              Scenario.end_to_end) as (_ & _ & H & _).
  apply (H (Scenario.version_doc "1.0.0")
           (JObj [("version", JStr "1.0.0")]) (JStr "1.0.0"));
    reflexivity.
Defined.


(** X10. A download writes below the staging directory only.  For a
    staging directory that is a plain name and a manifest that is a list of
    paths with no component [..], whatever the outcome of
    [download_all_files] (it returns, or a request or a write raises on the
    way), every entry of the root other than the staging directory is what
    it was: the active directory, the active marker and the data of the
    device are not touched. *)
Theorem download_stays_in_staging
        (self : OTAUpdater) (version : json) (manifest : list string)
        (r : response) (w : world) :
  Fs.valid_name (new_version_dir self) = true ->
  server w (OTA.file_list_url self) = Some r ->
  Json.loads (text r) = Some (JArr (map JStr manifest)) ->
  forallb Effects.plain manifest = true ->
  forall k, k <> new_version_dir self ->
            Fs.get (root (world_of (OTA.download_all_files self version w))) [k]
            = Fs.get (root w) [k].
Proof.
  intros Hn Hs Hl Hp.
  exact (StagingFacts.download_all_files_outside self Hn version manifest r w
           Hs Hl Hp).
Qed.

(** The release of two files on the device that runs [1.0.0]: the active
    marker is not touched. *)
Lemma download_stays_in_staging_witness :
  Fs.get (root (world_of (OTA.download_all_files Scenario.device
                            (JStr "1.1.0") Scenario.end_to_end)))
         ["version.json"]
  = Fs.get (Scenario.flash "1.0.0") ["version.json"].
Proof.
  exact (download_stays_in_staging Scenario.device (JStr "1.1.0")
           ["a.txt"; "dir/b.txt"]
           (mkResponse 200 (Json.quoted "['a.txt','dir/b.txt']"))
           Scenario.end_to_end eq_refl eq_refl eq_refl eq_refl
           "version.json" ltac:(discriminate)).
Defined.

(** ** The keypad *)

Module KeypadFacts.

Import Keypad.
#[local] Open Scope list_scope.

Lemma scan_first (low : nat -> nat -> bool) :
  match scan low with
  | Some k =>
      exists r c, r < 4 /\ c < 4 /\ low r c = true /\ k = key_at c r /\
                  forall r' c', c' < 4 -> r' < r \/ (r' = r /\ c' < c) ->
                                low r' c' = false
  | None => forall r c, r < 4 -> c < 4 -> low r c = false
  end.
Proof.
  unfold scan, rows, cols. cbn.
  repeat (match goal with
          | |- context [if low ?r ?c then _ else _] =>
              destruct (low r c) eqn:?
          end; cbn [truthy]).
  all: try (intros r c Hr Hc;
            destruct r as [|[|[|[|r]]]]; destruct c as [|[|[|[|c]]]];
            try lia; assumption).
  all: let pick r c :=
         (exists r, c; repeat split; try lia; try assumption;
          intros r' c' Hc' Hb;
          destruct r' as [|[|[|[|r']]]]; destruct c' as [|[|[|[|c']]]];
          try lia; assumption) in
       first [ pick 0 0 | pick 0 1 | pick 0 2 | pick 0 3
             | pick 1 0 | pick 1 1 | pick 1 2 | pick 1 3
             | pick 2 0 | pick 2 1 | pick 2 2 | pick 2 3
             | pick 3 0 | pick 3 1 | pick 3 2 | pick 3 3 ].
Qed.

(** A call that reports a key: the debounce time is over, the key is not
    the one held, it is the first position read closed, and the globals
    take the key and the time. *)
Lemma reported (s : sample) (st st' : state) (k : string) :
  scan_keypad_debounced s st = (Some k, st') ->
  (DEBOUNCE_TIME_MS <= ticks_diff (ticks_ms s) (last_key_time st))%Z /\
  last_key_pressed st <> Some k /\
  st' = mkState (ticks_ms s) (Some k) /\
  exists r c, r < 4 /\ c < 4 /\ col_low s r c = true /\ k = key_at c r /\
              forall r' c', c' < 4 -> r' < r \/ (r' = r /\ c' < c) ->
                            col_low s r' c' = false.
Proof.
  unfold scan_keypad_debounced.
  destruct (Z.ltb_spec (ticks_diff (ticks_ms s) (last_key_time st))
              DEBOUNCE_TIME_MS) as [Hlt|Hge]; [discriminate|].
  pose proof (scan_first (col_low s)) as Hscan.
  destruct (scan (col_low s)) as [k0|]; [|discriminate].
  destruct (key_eqb (Some k0) (last_key_pressed st)) eqn:Ek; [discriminate|].
  intros [= <- <-]. repeat split; auto.
  intros Hl. rewrite Hl in Ek. cbn in Ek. now rewrite String.eqb_refl in Ek.
Qed.

Lemma position_closed (s : sample) (r c : nat) :
  r < 4 -> c < 4 -> col_low s r c = true -> closed (key_at c r) s = true.
Proof.
  intros Hr Hc Hl. unfold closed.
  apply existsb_exists. exists r. split; [apply in_seq; cbn; lia|].
  apply existsb_exists. exists c. split; [apply in_seq; cbn; lia|].
  now rewrite Hl, String.eqb_refl.
Qed.

Lemma reported_closed (s : sample) (st st' : state) (k : string) :
  scan_keypad_debounced s st = (Some k, st') -> closed k s = true.
Proof.
  intros H. apply reported in H.
  destruct H as (_ & _ & _ & r & c & Hr & Hc & Hl & -> & _).
  now apply position_closed.
Qed.

Lemma reported_key (s : sample) (st st' : state) (k : string) :
  scan_keypad_debounced s st = (Some k, st') ->
  In k ["1"; "2"; "3"; "F1"; "4"; "5"; "6"; "F2";
        "7"; "8"; "9"; "F3"; "M"; "0"; "C"; "E"]%string.
Proof.
  intros H. apply reported in H.
  destruct H as (_ & _ & _ & r & c & Hr & Hc & _ & -> & _).
  destruct r as [|[|[|[|r]]]]; destruct c as [|[|[|[|c]]]]; try lia;
    cbn; tauto.
Qed.

(** *** The ticks *)

Lemma ticks_diff_mod (a b : Z) :
  ticks_diff (a mod TICKS_PERIOD) (b mod TICKS_PERIOD)
  = ((a - b + TICKS_PERIOD / 2) mod TICKS_PERIOD - TICKS_PERIOD / 2)%Z.
Proof.
  unfold ticks_diff. f_equal.
  rewrite <- (Zplus_mod_idemp_l (a mod TICKS_PERIOD - b mod TICKS_PERIOD)).
  rewrite <- Zminus_mod. now rewrite Zplus_mod_idemp_l.
Qed.

Lemma ticks_diff_near (a b : Z) :
  (- (TICKS_PERIOD / 2) <= a - b < TICKS_PERIOD / 2)%Z ->
  ticks_diff (a mod TICKS_PERIOD) (b mod TICKS_PERIOD) = (a - b)%Z.
Proof.
  intros H. rewrite ticks_diff_mod.
  change TICKS_PERIOD with 1073741824%Z in *.
  change (1073741824 / 2)%Z with 536870912%Z in *.
  rewrite Z.mod_small by lia. lia.
Qed.

Lemma ticks_diff_far (a b : Z) :
  (TICKS_PERIOD / 2 <= a - b < TICKS_PERIOD + TICKS_PERIOD / 2)%Z ->
  ticks_diff (a mod TICKS_PERIOD) (b mod TICKS_PERIOD)
  = (a - b - TICKS_PERIOD)%Z.
Proof.
  intros H. rewrite ticks_diff_mod.
  change TICKS_PERIOD with 1073741824%Z in *.
  change (1073741824 / 2)%Z with 536870912%Z in *.
  replace (a - b + 536870912)%Z
    with ((a - b - 536870912) + 1 * 1073741824)%Z by lia.
  rewrite Z_mod_plus_full, Z.mod_small by lia. lia.
Qed.

(** *** A key that is held *)

Lemma held (s : sample) (st : state) (k : string) :
  last_key_pressed st = Some k -> scan (col_low s) = Some k ->
  scan_keypad_debounced s st = (None, st).
Proof.
  intros Hl Hs. unfold scan_keypad_debounced.
  destruct (_ <? _)%Z; [reflexivity|].
  rewrite Hs, Hl. cbn [key_eqb]. now rewrite String.eqb_refl.
Qed.

Lemma poll_held (k : string) (samples : list sample) : forall st : state,
  last_key_pressed st = Some k ->
  (forall s, In s samples -> scan (col_low s) = Some k) ->
  poll samples st = (repeat None (List.length samples), st).
Proof.
  induction samples as [|s rest IH]; intros st Hl Hs; [reflexivity|].
  cbn [poll]. rewrite (held s st k Hl) by (apply Hs; now left).
  rewrite (IH st Hl) by (intros s' Hin; apply Hs; now right).
  reflexivity.
Qed.

Lemma poll_app (xs ys : list sample) : forall st : state,
  poll (xs ++ ys) st =
  (fst (poll xs st) ++ fst (poll ys (snd (poll xs st))),
   snd (poll ys (snd (poll xs st)))).
Proof.
  induction xs as [|s rest IH]; intros st.
  - cbn. now destruct (poll ys st).
  - cbn [poll app]. destruct (scan_keypad_debounced s st) as [key st1].
    rewrite IH. destruct (poll rest st1) as [ks st2]. reflexivity.
Qed.

End KeypadFacts.

(** X11. A key that [scan_keypad_debounced] reports is the one at the first
    position read closed, the rows taken in order and the columns of a row
    in order, and it is [KEYS[c_idx][r_idx]]: the lists of [KEYS] are the
    columns of the keypad.  The call reports it only when the debounce time
    since the last reported key is over and the key is not the one held, and
    the globals then take the key and the tick of the call. *)
Theorem scan_reports_first_closed
        (s : Keypad.sample) (st st' : Keypad.state) (k : string) :
  Keypad.scan_keypad_debounced s st = (Some k, st') ->
  (Keypad.DEBOUNCE_TIME_MS
   <= Keypad.ticks_diff (Keypad.ticks_ms s) (Keypad.last_key_time st))%Z /\
  Keypad.last_key_pressed st <> Some k /\
  st' = Keypad.mkState (Keypad.ticks_ms s) (Some k) /\
  exists r c,
    r < 4 /\ c < 4 /\ Keypad.col_low s r c = true /\
    k = nth r (nth c Keypad.KEYS []) "" /\
    forall r' c', c' < 4 -> r' < r \/ (r' = r /\ c' < c) ->
                  Keypad.col_low s r' c' = false.
Proof. exact (KeypadFacts.reported s st st' k). Qed.

(** The keys [6] and [8] down together: [6] is in the row scanned first. *)
Lemma scan_reports_first_closed_witness :
  Keypad.scan_keypad_debounced
    (Keypad.mkSample 200
       (fun r c => (Nat.eqb r 1 && Nat.eqb c 2) || (Nat.eqb r 2 && Nat.eqb c 1)))
    Keypad.initial
  = (Some "6", Keypad.mkState 200 (Some "6")) /\
  exists r c,
    r < 4 /\ c < 4 /\
    ((Nat.eqb r 1 && Nat.eqb c 2) || (Nat.eqb r 2 && Nat.eqb c 1)) = true /\
    "6" = nth r (nth c Keypad.KEYS []) "" /\
    forall r' c', c' < 4 -> r' < r \/ (r' = r /\ c' < c) ->
                  ((Nat.eqb r' 1 && Nat.eqb c' 2)
                   || (Nat.eqb r' 2 && Nat.eqb c' 1)) = false.
Proof.
  split; [reflexivity|].
  exact (proj2 (proj2 (proj2
           (scan_reports_first_closed
              (Keypad.mkSample 200
                 (fun r c => (Nat.eqb r 1 && Nat.eqb c 2)
                             || (Nat.eqb r 2 && Nat.eqb c 1)))
              Keypad.initial (Keypad.mkState 200 (Some "6")) "6" eq_refl)))).
Defined.

(** X12. The debounce time is measured on the ring of the ticks.  With [T0]
    the millisecond of the last reported key and [T] the one of the call,
    both counted from boot without wrap-around: a call less than 150 ms
    after the key reports nothing and leaves the globals alone, also when
    the counter wrapped in between; from 150 ms on and before half a period
    a key that is not the one held is reported; and from half a period
    (2^29 ms, about six days) to a period and 150 ms after the last
    reported key, the call again reports nothing whatever is pressed. *)
Theorem debounce_window
        (T0 T : Z) (low : nat -> nat -> bool) (held : option string) :
  let st := Keypad.mkState (T0 mod Keypad.TICKS_PERIOD) held in
  let s := Keypad.mkSample (T mod Keypad.TICKS_PERIOD) low in
  ((0 <= T - T0 < Keypad.DEBOUNCE_TIME_MS)%Z ->
   Keypad.scan_keypad_debounced s st = (None, st)) /\
  ((Keypad.DEBOUNCE_TIME_MS <= T - T0 < Keypad.TICKS_PERIOD / 2)%Z ->
   forall k, Keypad.scan low = Some k -> held <> Some k ->
             Keypad.scan_keypad_debounced s st
             = (Some k, Keypad.mkState (T mod Keypad.TICKS_PERIOD) (Some k))) /\
  ((Keypad.TICKS_PERIOD / 2 <= T - T0
    < Keypad.TICKS_PERIOD + Keypad.DEBOUNCE_TIME_MS)%Z ->
   Keypad.scan_keypad_debounced s st = (None, st)).
Proof.
  intros st s. unfold Keypad.scan_keypad_debounced. subst st s.
  cbn [Keypad.ticks_ms Keypad.last_key_time Keypad.last_key_pressed
       Keypad.col_low].
  repeat split.
  - intros H. rewrite KeypadFacts.ticks_diff_near.
    + destruct (Z.ltb_spec (T - T0) Keypad.DEBOUNCE_TIME_MS); [reflexivity|lia].
    + unfold Keypad.DEBOUNCE_TIME_MS in H.
      change (Keypad.TICKS_PERIOD / 2)%Z with 536870912%Z. lia.
  - intros H k Hs Hh. rewrite KeypadFacts.ticks_diff_near.
    + destruct (Z.ltb_spec (T - T0) Keypad.DEBOUNCE_TIME_MS); [lia|].
      rewrite Hs. destruct (Keypad.key_eqb (Some k) held) eqn:E; [|reflexivity].
      exfalso. apply Hh. destruct held as [h|]; [|discriminate E].
      cbn in E. apply String.eqb_eq in E. now subst.
    + unfold Keypad.DEBOUNCE_TIME_MS in H.
      change (Keypad.TICKS_PERIOD / 2)%Z with 536870912%Z in *. lia.
  - intros H. rewrite KeypadFacts.ticks_diff_far.
    + destruct (Z.ltb_spec (T - T0 - Keypad.TICKS_PERIOD)
                  Keypad.DEBOUNCE_TIME_MS); [reflexivity|lia].
    + unfold Keypad.DEBOUNCE_TIME_MS in H.
      change (Keypad.TICKS_PERIOD / 2)%Z with 536870912%Z in *.
      change Keypad.TICKS_PERIOD with 1073741824%Z in *. lia.
Qed.

(** The key [5] 100 ms after a key reported 50 ms before the counter
    wraps, and a week after it. *)
Lemma debounce_window_witness :
  Keypad.scan_keypad_debounced
    (Keypad.mkSample 50 (Keypad.col_low (Typing.press 0 "5")))
    (Keypad.mkState (Keypad.TICKS_PERIOD - 50) None)
  = (None, Keypad.mkState (Keypad.TICKS_PERIOD - 50) None) /\
  Keypad.scan_keypad_debounced
    (Keypad.mkSample 604800000 (Keypad.col_low (Typing.press 0 "5")))
    (Keypad.mkState 0 None)
  = (None, Keypad.mkState 0 None).
Proof.
  split.
  - exact (proj1 (debounce_window (Keypad.TICKS_PERIOD - 50)
                    (Keypad.TICKS_PERIOD + 50)
                    (Keypad.col_low (Typing.press 0 "5")) None)
             ltac:(vm_compute; split; [intros; discriminate | reflexivity])).
  - exact (proj2 (proj2 (debounce_window 0 604800000
                           (Keypad.col_low (Typing.press 0 "5")) None))
             ltac:(vm_compute; split; [intros; discriminate | reflexivity])).
Defined.

(** X13. A key that is held is reported once.  After a call has reported
    the key [k], the calls that follow report nothing and leave the globals
    alone for as long as a scan would find [k]; the same key is reported
    again by the first call that finds it after a call, outside the
    debounce time, has found no key down. *)
Theorem held_key_is_reported_once
        (s0 : Keypad.sample) (st st1 : Keypad.state) (k : string)
        (samples : list Keypad.sample) (release again : Keypad.sample) :
  Keypad.scan_keypad_debounced s0 st = (Some k, st1) ->
  (forall s, In s samples -> Keypad.scan (Keypad.col_low s) = Some k) ->
  Keypad.poll samples st1 = (repeat None (List.length samples), st1) /\
  (Keypad.scan (Keypad.col_low release) = None ->
   Keypad.scan (Keypad.col_low again) = Some k ->
   (Keypad.DEBOUNCE_TIME_MS
    <= Keypad.ticks_diff (Keypad.ticks_ms release) (Keypad.ticks_ms s0))%Z ->
   (Keypad.DEBOUNCE_TIME_MS
    <= Keypad.ticks_diff (Keypad.ticks_ms again) (Keypad.ticks_ms s0))%Z ->
   Keypad.poll (samples ++ [release; again])%list st1
   = ((repeat None (List.length samples) ++ [None; Some k])%list,
      Keypad.mkState (Keypad.ticks_ms again) (Some k))).
Proof.
  intros H0 Hs. apply KeypadFacts.reported in H0.
  destruct H0 as (_ & _ & -> & _).
  assert (Hp : Keypad.poll samples
                 (Keypad.mkState (Keypad.ticks_ms s0) (Some k))
               = (repeat None (List.length samples),
                  Keypad.mkState (Keypad.ticks_ms s0) (Some k))).
  { now apply KeypadFacts.poll_held with (k := k). }
  split; [exact Hp|].
  intros Hr Ha Htr Hta. rewrite KeypadFacts.poll_app, Hp.
  cbn [fst snd Keypad.poll]. unfold Keypad.scan_keypad_debounced.
  cbn [Keypad.ticks_ms Keypad.last_key_time Keypad.last_key_pressed].
  destruct (Z.ltb_spec (Keypad.ticks_diff (Keypad.ticks_ms release)
                          (Keypad.ticks_ms s0)) Keypad.DEBOUNCE_TIME_MS);
    [lia|].
  rewrite Hr. cbn [Keypad.last_key_time Keypad.last_key_pressed].
  destruct (Z.ltb_spec (Keypad.ticks_diff (Keypad.ticks_ms again)
                          (Keypad.ticks_ms s0)) Keypad.DEBOUNCE_TIME_MS);
    [lia|].
  rewrite Ha. reflexivity.
Qed.

(** The key [7] held for three calls, released and pressed again. *)
Lemma held_key_is_reported_once_witness :
  Keypad.poll [Typing.press 300 "7"; Typing.press 400 "7";
               Typing.press 500 "7"]
    (Keypad.mkState 200 (Some "7"))
  = ([None; None; None], Keypad.mkState 200 (Some "7")) /\
  Keypad.poll [Typing.press 300 "7"; Typing.press 400 "7";
               Typing.press 500 "7"; Typing.idle 600; Typing.press 700 "7"]
    (Keypad.mkState 200 (Some "7"))
  = ([None; None; None; None; Some "7"], Keypad.mkState 700 (Some "7")).
Proof.
  pose proof (held_key_is_reported_once (Typing.press 200 "7") Keypad.initial
                (Keypad.mkState 200 (Some "7")) "7"
                [Typing.press 300 "7"; Typing.press 400 "7";
                 Typing.press 500 "7"]
                (Typing.idle 600) (Typing.press 700 "7") eq_refl
                ltac:(intros s [<-|[<-|[<-|[]]]]; reflexivity)) as [H1 H2].
  split; [exact H1|].
  exact (H2 eq_refl eq_refl ltac:(vm_compute; intros; discriminate)
            ltac:(vm_compute; intros; discriminate)).
Defined.

(** ** The screens *)

Module UiFacts.

Import Keypad Ui KeypadFacts.
#[local] Open Scope list_scope.

(** *** Keys read in order *)

Lemma cio_nil (samples : list sample) : closed_in_order [] samples = true.
Proof. now destruct samples. Qed.

Lemma cio_cons (ks : list string) (s : sample) (samples : list sample) :
  closed_in_order ks samples = true ->
  closed_in_order ks (s :: samples) = true.
Proof.
  destruct ks as [|k ks]; [reflexivity|].
  intros H. cbn [closed_in_order]. rewrite H. apply orb_true_r.
Qed.

Lemma cio_head (k : string) (ks : list string) (s : sample)
      (samples : list sample) :
  closed k s = true -> closed_in_order ks samples = true ->
  closed_in_order (k :: ks) (s :: samples) = true.
Proof. intros Hk Hs. cbn [closed_in_order]. now rewrite Hk, Hs. Qed.

Lemma cio_tail (k : string) (ks : list string) : forall samples,
  closed_in_order (k :: ks) samples = true ->
  closed_in_order ks samples = true.
Proof.
  induction samples as [|s rest IH]; cbn [closed_in_order]; [discriminate|].
  intros H. apply orb_true_iff in H. destruct H as [H|H].
  - apply andb_true_iff in H. now apply cio_cons.
  - now apply cio_cons, IH.
Qed.

Lemma cio_app (pre samples : list sample) (ks : list string) :
  closed_in_order ks samples = true ->
  closed_in_order ks (pre ++ samples) = true.
Proof.
  intros H. induction pre as [|s pre IH]; [exact H|]. now apply cio_cons.
Qed.

(** *** [trigger_ota_update] *)

Section Trigger.

Variable exn_text : Py.exn -> string.

(** The update is not reached unless the keys that complete the password,
    and [E], are read in order. *)
Lemma trigger_loop_gate (samples : list sample) :
  forall (b : string) (lk : option string) (c : console),
    (device (console_of (trigger_loop exn_text samples b lk c)) = device c /\
     forall c', trigger_loop exn_text samples b lk c <> Resets c') \/
    (exists t, (b ++ t)%string = "1234"%string /\
               closed_in_order
                 (map (fun a => String a EmptyString) (list_ascii_of_string t)
                  ++ ["E"%string]) samples = true) \/
    closed_in_order ["E"; "1"; "2"; "3"; "4"; "E"]%string samples = true.
Proof.
  induction samples as [|s rest IH]; intros b lk c.
  { left. split; [reflexivity | discriminate]. }
  cbn [trigger_loop].
  destruct (scan_keypad_debounced s (keys c)) as [key st] eqn:Es.
  assert (Hsame : forall lk' c1, device c1 = device c ->
            (device (console_of (trigger_loop exn_text rest b lk' c1))
             = device c /\
             forall c', trigger_loop exn_text rest b lk' c1 <> Resets c') \/
            (exists t, (b ++ t)%string = "1234"%string /\
               closed_in_order
                 (map (fun a => String a EmptyString) (list_ascii_of_string t)
                  ++ ["E"%string]) (s :: rest) = true) \/
            closed_in_order ["E"; "1"; "2"; "3"; "4"; "E"]%string (s :: rest)
            = true).
  { intros lk' c1 Hd.
    destruct (IH b lk' c1) as [[Hd' Hr]|[(t & Ht & Hc)|Hf]].
    - left. split; [now rewrite Hd'|exact Hr].
    - right. left. exists t. split; [exact Ht | now apply cio_cons].
    - right. right. now apply cio_cons. }
  destruct key as [k|]; [|now apply Hsame].
  pose proof (reported_closed _ _ _ _ Es) as Hcl.
  pose proof (reported_key _ _ _ _ Es) as Hk.
  destruct (truthy (Some k) && negb (key_eqb (Some k) lk)) eqn:Ea.
  2: { destruct (negb (truthy (Some k))); now apply Hsame. }
  destruct (String.eqb k "E") eqn:EE.
  { apply String.eqb_eq in EE. subst k.
    destruct (String.eqb b "1234") eqn:Eb.
    - apply String.eqb_eq in Eb. right. left. exists EmptyString.
      split; [now rewrite InitFacts.append_nil_r|].
      apply cio_head; [exact Hcl | apply cio_nil].
    - destruct (IH EmptyString (Some "E"%string)
                  (display_message "Enter Password:" "*"
                     "Press 'E' to confirm" "Press 'C' to cancel" 0
                     (display_message "Wrong Password!" "Try again" "" "" 2000
                        (set_keys c st))))
        as [[Hd' Hr]|[(t & Ht & Hc)|Hf]].
      + left. split; [now rewrite Hd'|exact Hr].
      + right. right. cbn [append] in Ht. subst t.
        apply cio_head; [exact Hcl | exact Hc].
      + right. right. now apply cio_cons. }
  destruct (String.eqb k "C") eqn:EC.
  { left. split; [reflexivity | discriminate]. }
  destruct (Effects.contains k "0123456789") eqn:Ed; [|now apply Hsame].
  assert (Hch : exists a, k = String a EmptyString).
  { cbn [In] in Hk.
    repeat (destruct Hk as [<-|Hk];
            [first [ discriminate Ed | eexists; reflexivity ]|]).
    destruct Hk. }
  destruct Hch as [a ->].
  destruct (IH (b ++ String a EmptyString)%string
               (Some (String a EmptyString))
               (enter_password (b ++ String a EmptyString)%string
                  (set_keys c st)))
    as [[Hd' Hr]|[(t & Ht & Hc)|Hf]].
  - left. split; [now rewrite Hd'|exact Hr].
  - right. left. exists (String a t). split.
    + rewrite <- Ht, JsonFacts.append_assoc. reflexivity.
    + cbn [list_ascii_of_string map app]. apply cio_head; assumption.
  - right. right. now apply cio_cons.
Qed.

(** How [run_update] and the loop end. *)
Lemma run_update_outcome (rest : list sample) (c : console) :
  match run_update exn_text rest c with
  | Returns _ c' =>
      (exists v,
          OTA.download_and_install_update_if_available ota_updater (device c)
          = Ret v (device c') /\
          List.last (oled c') (Frame "" "" "" "")
          = Frame "OTA Success" "Update completed" "" "") \/
      (exists e,
          OTA.download_and_install_update_if_available ota_updater (device c)
          = Raise e (device c') /\
          List.last (oled c') (Frame "" "" "" "")
          = Frame "OTA Failed" (substring 0 20 (exn_text e)) "" "")
  | Resets c' =>
      OTA.download_and_install_update_if_available ota_updater (device c)
      = Reboot (device c') /\
      List.last (oled c') (Frame "" "" "" "")
      = Frame "Starting OTA..." "Please wait" "" ""
  | _ => False
  end.
Proof.
  unfold run_update. cbn [device display_message].
  destruct (OTA.download_and_install_update_if_available ota_updater (device c))
    as [v w|e w|w]; cbn [device oled display_message set_device].
  - left. exists v. split; [reflexivity | apply last_last].
  - right. exists e. split; [reflexivity | apply last_last].
  - split; [reflexivity | apply last_last].
Qed.

Lemma trigger_loop_outcome (samples : list sample) :
  forall (b : string) (lk : option string) (c : console),
    match trigger_loop exn_text samples b lk c with
    | Waits c' => device c' = device c
    | Returns _ c' =>
        (device c' = device c /\
         List.last (oled c') (Frame "" "" "" "")
         = Frame "Update Cancelled" "Returning to" "main menu" "") \/
        (exists v,
            OTA.download_and_install_update_if_available ota_updater (device c)
            = Ret v (device c') /\
            List.last (oled c') (Frame "" "" "" "")
            = Frame "OTA Success" "Update completed" "" "") \/
        (exists e,
            OTA.download_and_install_update_if_available ota_updater (device c)
            = Raise e (device c') /\
            List.last (oled c') (Frame "" "" "" "")
            = Frame "OTA Failed" (substring 0 20 (exn_text e)) "" "")
    | Resets c' =>
        OTA.download_and_install_update_if_available ota_updater (device c)
        = Reboot (device c') /\
        List.last (oled c') (Frame "" "" "" "")
        = Frame "Starting OTA..." "Please wait" "" ""
    | Raises _ _ => False
    end.
Proof.
  induction samples as [|s rest IH]; intros b lk c; [reflexivity|].
  cbn [trigger_loop].
  destruct (scan_keypad_debounced s (keys c)) as [key st].
  destruct (truthy key && negb (key_eqb key lk)).
  2: { destruct (negb (truthy key));
         [exact (IH b None (set_keys c st)) | exact (IH b lk (set_keys c st))]. }
  destruct key as [k|]; [|exact (IH b None (set_keys c st))].
  destruct (String.eqb k "E").
  { destruct (String.eqb b "1234").
    - pose proof (run_update_outcome rest (set_keys c st)) as H.
      destruct (run_update exn_text rest (set_keys c st));
        first [contradiction | right; exact H | exact H].
    - exact (IH EmptyString (Some k)
               (display_message "Enter Password:" "*"
                  "Press 'E' to confirm" "Press 'C' to cancel" 0
                  (display_message "Wrong Password!" "Try again" "" "" 2000
                     (set_keys c st)))). }
  destruct (String.eqb k "C").
  { left. split; [reflexivity | apply last_last]. }
  destruct (Effects.contains k "0123456789").
  - exact (IH (b ++ k)%string (Some k)
             (enter_password (b ++ k)%string (set_keys c st))).
  - exact (IH b (Some k) (set_keys c st)).
Qed.

End Trigger.

(** A call of the updater that returns has staged at most. *)
Lemma update_returns_staged (self : OTAUpdater) (w w' : world) (v : bool) :
  OTA.download_and_install_update_if_available self w = Ret v w' ->
  Effects.extends_by Effects.is_staging_event w w'.
Proof.
  intros H. rewrite UpdateFacts.download_and_install_run in H.
  pose proof (EffectFacts.download_latest_version_staging self w) as Hd.
  destruct (OTA.download_latest_version self w) as [latest w1|e w1|w1];
    try discriminate.
  cbn [world_of] in Hd.
  destruct (Py.gt _ _) as [[|]|]; try discriminate.
  - unfold bind in H.
    destruct (OTA.install_update_if_available self w1) as [u w2|e w2|w2]
      eqn:Ei; try discriminate.
    apply UpdateFacts.install_returns_unchanged in Ei.
    injection H as _ <-. now subst.
  - now injection H as _ <-.
Qed.

(** *** [delete_all_data] *)

Lemma wait_outcome (samples : list sample) (c : console) :
  match wait_for_key_release samples c with
  | Returns rest c' => c' = c /\ exists pre, samples = pre ++ rest
  | Waits c' => c' = c
  | _ => False
  end.
Proof.
  induction samples as [|s rest IH]; [reflexivity|].
  cbn [wait_for_key_release].
  destruct (any_pressed (col_low s)).
  - destruct (wait_for_key_release rest c) as [r c'|e c'|c'|c']; auto.
    destruct IH as (-> & pre & ->). split; [reflexivity|].
    now exists (s :: pre).
  - split; [reflexivity|]. now exists [s].
Qed.

Lemma remove_data_outcome (rest : list sample) (c : console) :
  match remove_data rest c with
  | Returns _ c' =>
      Effects.same_outside "data.json" (device c) (device c') /\
      (List.last (oled c') (Frame "" "" "" "")
       = Frame "DATA DELETED!" "All readings" "have been removed." "" ->
       Os.remove "data.json" (device c) = Ret tt (device c'))
  | _ => False
  end.
Proof.
  unfold remove_data, Os.remove, Os.change.
  change (Fs.norm_path "data.json") with ["data.json"%string].
  destruct (Fs.remove ["data.json"%string] (root (device c))) as [r'|] eqn:Er;
    cbn [device display_message set_device oled].
  - split; [|reflexivity].
    intros k Hk. cbn [root set_root].
    unfold Fs.remove in Er. cbn [removelast List.last] in Er.
    destruct (root (device c)) as [|es]; [discriminate Er|].
    cbn [Fs.with_dir] in Er.
    destruct (Fs.assoc "data.json" es) as [[|]|]; try discriminate Er.
    cbn [option_map] in Er. injection Er as <-.
    cbn [Fs.get]. now rewrite SwapFacts.assoc_del_other.
  - split; [apply StagingFacts.outside_refl|].
    rewrite last_last. discriminate.
Qed.

Lemma removed_file (w w' : world) :
  Os.remove "data.json" w = Ret tt w' ->
  exists data es,
    root w = Dir es /\ Fs.assoc "data.json" es = Some (File data) /\
    root w' = Dir (Fs.del_entry "data.json" es).
Proof.
  unfold Os.remove, Os.change.
  change (Fs.norm_path "data.json") with ["data.json"%string].
  destruct (Fs.remove ["data.json"%string] (root w)) as [r'|] eqn:Er;
    [|discriminate].
  intros [= <-]. cbn [root set_root].
  unfold Fs.remove in Er. cbn [removelast List.last] in Er.
  destruct (root w) as [|es]; [discriminate Er|].
  cbn [Fs.with_dir] in Er.
  destruct (Fs.assoc "data.json" es) as [[data|]|] eqn:Ea; try discriminate Er.
  cbn [option_map] in Er. injection Er as <-. now exists data, es.
Qed.

Lemma delete_loop_outcome (samples : list sample) : forall c : console,
  match delete_loop samples c with
  | Returns _ c' =>
      Effects.same_outside "data.json" (device c) (device c') /\
      (closed_in_order ["E"%string] samples = false -> device c' = device c) /\
      (List.last (oled c') (Frame "" "" "" "")
       = Frame "DATA DELETED!" "All readings" "have been removed." "" ->
       Os.remove "data.json" (device c) = Ret tt (device c'))
  | Waits c' => device c' = device c
  | _ => False
  end.
Proof.
  induction samples as [|s rest IH]; intros c; [reflexivity|].
  cbn [delete_loop].
  destruct (scan_keypad_debounced s (keys c)) as [key st] eqn:Es.
  destruct (key_eqb key (Some "E"%string)) eqn:EE.
  { assert (Hk : key = Some "E"%string).
    { destruct key as [k|]; [|discriminate EE].
      cbn in EE. apply String.eqb_eq in EE. now subst. }
    subst key. pose proof (reported_closed _ _ _ _ Es) as Hcl.
    pose proof (wait_outcome rest (set_keys c st)) as Hw.
    destruct (wait_for_key_release rest (set_keys c st))
      as [rest' c1|e c1|c1|c1]; try contradiction.
    - destruct Hw as (-> & _).
      pose proof (remove_data_outcome rest' (set_keys c st)) as Hr.
      destruct (remove_data rest' (set_keys c st)) as [r2 c2|e c2|c2|c2];
        try contradiction.
      destruct Hr as [Ho Hd]. split; [exact Ho|]. split; [|exact Hd].
      intros Hn. rewrite (cio_head "E" [] s rest Hcl (cio_nil rest)) in Hn.
      discriminate Hn.
    - now subst. }
  destruct (key_eqb key (Some "C"%string)).
  { pose proof (wait_outcome rest (set_keys c st)) as Hw.
    destruct (wait_for_key_release rest (set_keys c st))
      as [rest' c1|e c1|c1|c1]; try contradiction.
    - destruct Hw as (-> & _). cbn [device display_message set_keys oled].
      split; [apply StagingFacts.outside_refl|]. split; [reflexivity|].
      rewrite last_last. discriminate.
    - now subst. }
  specialize (IH (set_keys c st)).
  destruct (delete_loop rest (set_keys c st)) as [r2 c2|e c2|c2|c2]; auto.
  destruct IH as (Ho & Hn & Hd). split; [exact Ho|]. split; [|exact Hd].
  intros H. apply Hn.
  destruct (closed_in_order ["E"%string] rest) eqn:Hc; [|reflexivity].
  now rewrite (cio_cons _ s _ Hc) in H.
Qed.

End UiFacts.

(** X14. The update is behind the password.  Unless the keypad reads the
    keys [1], [2], [3], [4] and [E] closed in this order, each in a pass of
    its own, [trigger_ota_update] makes no request, changes nothing on the
    flash and does not restart the device, whatever else is typed and
    whether it returns or is still waiting for a key. *)
Theorem update_needs_the_password
        (exn_text : Py.exn -> string) (samples : list Keypad.sample)
        (c : Ui.console) :
  Keypad.closed_in_order ["1"; "2"; "3"; "4"; "E"] samples = false ->
  Ui.device (Ui.console_of (Ui.trigger_ota_update exn_text samples c))
  = Ui.device c /\
  forall c', Ui.trigger_ota_update exn_text samples c <> Ui.Resets c'.
Proof.
  intros H. unfold Ui.trigger_ota_update.
  destruct (UiFacts.trigger_loop_gate exn_text samples "" None
              (Ui.display_message "Enter Password:" "*" "Press 'E' to confirm"
                 "Press 'C' to cancel" 0 c))
    as [[Hd Hr]|[(t & Ht & Hc)|Hf]].
  - split; [exact Hd | exact Hr].
  - cbn [append] in Ht. subst t. cbn [list_ascii_of_string map app] in Hc.
    rewrite Hc in H. discriminate H.
  - apply UiFacts.cio_tail in Hf. rewrite Hf in H. discriminate H.
Qed.

(** The password typed backwards, then [E], then [C]. *)
Lemma update_needs_the_password_witness :
  Ui.device
    (Ui.console_of
       (Ui.trigger_ota_update (fun _ => "")
          [Typing.press 200 "4"; Typing.press 400 "3"; Typing.press 600 "2";
           Typing.press 800 "1"; Typing.press 1000 "E"; Typing.press 1200 "C"]
          (Typing.console Scenario.end_to_end)))
  = Scenario.end_to_end.
Proof.
  exact (proj1 (update_needs_the_password (fun _ => "")
                  [Typing.press 200 "4"; Typing.press 400 "3";
                   Typing.press 600 "2"; Typing.press 800 "1";
                   Typing.press 1000 "E"; Typing.press 1200 "C"]
                  (Typing.console Scenario.end_to_end) eq_refl)).
Defined.

(** X15. What the screen says at the end of [trigger_ota_update].  When the
    call returns with [OTA Success / Update completed] on the display, the
    updater has returned and no update was installed: the device made
    requests, made directories and wrote files at most, and no directory
    was removed or renamed.  When the update is installed the call does not
    return: the device restarts with [Starting OTA... / Please wait] as the
    last frame. *)
Theorem ota_success_means_nothing_installed
        (exn_text : Py.exn -> string) (samples : list Keypad.sample)
        (c : Ui.console) :
  (forall rest c',
      Ui.trigger_ota_update exn_text samples c = Ui.Returns rest c' ->
      List.last (Ui.oled c') (Ui.Frame "" "" "" "")
      = Ui.Frame "OTA Success" "Update completed" "" "" ->
      (exists v,
          OTA.download_and_install_update_if_available Ui.ota_updater
            (Ui.device c) = Ret v (Ui.device c')) /\
      Effects.extends_by Effects.is_staging_event (Ui.device c) (Ui.device c')
      /\ OTA.swaps (Ui.device c') = OTA.swaps (Ui.device c)) /\
  (forall c',
      Ui.trigger_ota_update exn_text samples c = Ui.Resets c' ->
      OTA.download_and_install_update_if_available Ui.ota_updater (Ui.device c)
      = Reboot (Ui.device c') /\
      List.last (Ui.oled c') (Ui.Frame "" "" "" "")
      = Ui.Frame "Starting OTA..." "Please wait" "" "").
Proof.
  unfold Ui.trigger_ota_update.
  pose proof (UiFacts.trigger_loop_outcome exn_text samples "" None
                (Ui.display_message "Enter Password:" "*"
                   "Press 'E' to confirm" "Press 'C' to cancel" 0 c)) as H.
  cbn [Ui.device Ui.display_message] in H.
  split.
  - intros rest c' E Hl. rewrite E in H.
    destruct H as [[_ Hc]|[(v & Hv & _)|(e & _ & Hf)]].
    + rewrite Hl in Hc. discriminate Hc.
    + pose proof (UiFacts.update_returns_staged _ _ _ _ Hv) as Hs.
      split; [now exists v|]. split; [exact Hs|].
      now apply EffectFacts.staging_no_swap.
    + rewrite Hl in Hf. discriminate Hf.
  - intros c' E. rewrite E in H. exact H.
Qed.

(** The password typed on the device whose server has an older release:
    the release is downloaded, nothing is installed, and the display says
    that the update is completed. *)
Lemma ota_success_means_nothing_installed_witness :
  exists rest c',
    Ui.trigger_ota_update (fun _ => "") Typing.password
      (Typing.console Scenario.stale_server) = Ui.Returns rest c' /\
    List.last (Ui.oled c') (Ui.Frame "" "" "" "")
    = Ui.Frame "OTA Success" "Update completed" "" "" /\
    OTA.swaps (Ui.device c') = OTA.swaps Scenario.stale_server.
Proof.
  eexists. eexists. split; [vm_compute; reflexivity|].
  split; [vm_compute; reflexivity|].
  eapply (proj1 (ota_success_means_nothing_installed (fun _ => "")
                   Typing.password (Typing.console Scenario.stale_server))
            [] _).
  - vm_compute. reflexivity.
  - vm_compute. reflexivity.
Defined.

(** X16. [delete_all_data] touches the readings only, and only on [E].  The
    call never raises and never restarts the device; every entry of the
    root other than [data.json] is what it was; unless the keypad reads
    [E] closed the flash is not changed at all; and [DATA DELETED!] is
    shown only when [data.json] was a file of the root and has been
    removed. *)
Theorem delete_all_data_touches_the_readings_only
        (samples : list Keypad.sample) (c : Ui.console) :
  (forall e c', Ui.delete_all_data samples c <> Ui.Raises e c') /\
  (forall c', Ui.delete_all_data samples c <> Ui.Resets c') /\
  Effects.same_outside "data.json" (Ui.device c)
    (Ui.device (Ui.console_of (Ui.delete_all_data samples c))) /\
  (Keypad.closed_in_order ["E"] samples = false ->
   Ui.device (Ui.console_of (Ui.delete_all_data samples c)) = Ui.device c) /\
  (forall rest c',
      Ui.delete_all_data samples c = Ui.Returns rest c' ->
      List.last (Ui.oled c') (Ui.Frame "" "" "" "")
      = Ui.Frame "DATA DELETED!" "All readings" "have been removed." "" ->
      exists data es,
        root (Ui.device c) = Dir es /\
        Fs.assoc "data.json" es = Some (File data) /\
        root (Ui.device c') = Dir (Fs.del_entry "data.json" es)).
Proof.
  unfold Ui.delete_all_data.
  pose proof (UiFacts.wait_outcome samples
                (Ui.display_message "DELETE ALL DATA?" ""
                   "Press 'E' to confirm" "Press 'C' to cancel" 0 c)) as Hw.
  destruct (Ui.wait_for_key_release samples _) as [rest0 c0|e0 c0|c0|c0];
    try contradiction.
  - destruct Hw as (-> & pre & ->).
    pose proof (UiFacts.delete_loop_outcome rest0
                  (Ui.display_message "DELETE ALL DATA?" ""
                     "Press 'E' to confirm" "Press 'C' to cancel" 0 c)) as Hl.
    cbn [Ui.device Ui.display_message] in Hl.
    destruct (Ui.delete_loop rest0 _) as [rest1 c1|e1 c1|c1|c1];
      try contradiction.
    + destruct Hl as (Ho & Hn & Hd).
      split; [discriminate|]. split; [discriminate|].
      split; [exact Ho|]. split.
      * intros H. apply Hn.
        destruct (Keypad.closed_in_order ["E"] rest0) eqn:Hc; [|reflexivity].
        now rewrite (UiFacts.cio_app pre rest0 _ Hc) in H.
      * intros rest c' [= <- <-] Hf. now apply UiFacts.removed_file, Hd.
    + split; [discriminate|]. split; [discriminate|].
      cbn [Ui.console_of]. rewrite Hl.
      split; [apply StagingFacts.outside_refl|].
      split; [reflexivity | discriminate].
  - subst c0. split; [discriminate|]. split; [discriminate|].
    cbn [Ui.console_of Ui.device Ui.display_message].
    split; [apply StagingFacts.outside_refl|].
    split; [reflexivity | discriminate].
Qed.

(** [C] on a device with readings stored: they are kept. *)
Lemma delete_all_data_touches_the_readings_only_witness :
  Ui.device
    (Ui.console_of
       (Ui.delete_all_data
          [Typing.press 0 "F1"; Typing.idle 100; Typing.press 300 "C";
           Typing.idle 400]
          (Typing.console (Typing.with_data "[]"))))
  = Typing.with_data "[]".
Proof.
  exact (proj1 (proj2 (proj2 (proj2
           (delete_all_data_touches_the_readings_only
              [Typing.press 0 "F1"; Typing.idle 100; Typing.press 300 "C";
               Typing.idle 400]
              (Typing.console (Typing.with_data "[]")))))) eq_refl).
Defined.
